(** * Vectorized temporal builtins of package [expression]

    A shallow embedding of [expression/builtin_time_vec.go]: the batch
    evaluators [vecEvalInt], [vecEvalTime], [vecEvalString] of the temporal
    builtin signatures, over an explicit model of the column/null protocol,
    the scratch-buffer allocator and the session's warning sink.

    Conventions.
    - Go's [int64] and [int] are [Z] with the wrap-around written out
      ([wrap64]); [uint64] is [Z] reduced modulo [2^64] ([toUint64]).
    - A Go function returning [error] is a computation in the monad [M]:
      it threads the mutable world (allocator, warning sink) and returns
      [inl err] or [inr value].
    - [defer f] is the combinator [defer]: [f] runs on every return of the
      code that follows the statement. *)

From Stdlib Require Import ZArith List String Bool Lia Arith Floats Uint63.
Import ListNotations.
Local Open Scope Z_scope.

(** ** Machine integers *)

Definition wrap64 (z : Z) : Z := (z + 2 ^ 63) mod 2 ^ 64 - 2 ^ 63.
Definition toUint64 (z : Z) : Z := z mod 2 ^ 64.
Definition inInt64 (z : Z) : Prop := - 2 ^ 63 <= z < 2 ^ 63.

(** [math.MaxUint32] *)
Definition MaxUint32 : Z := 4294967295.

(** Go's [/] and [%] on signed integers truncate toward zero. *)
Definition goDiv (a b : Z) : Z := Z.quot a b.
Definition goMod (a b : Z) : Z := Z.rem a b.

(** ** Package [types]: temporal values *)

Module types.

Inductive EvalType :=
| ETInt | ETReal | ETDecimal | ETString | ETDatetime | ETTimestamp | ETDuration.

(** [mysql.TypeDate], [mysql.TypeDatetime], [mysql.TypeTimestamp]. *)
Inductive TimeType := TypeDate | TypeDatetime | TypeTimestamp.

(** The calendar fields carried by a [types.Time] (its [Time] member). *)
Record MysqlTime := FromDate {
  Year : Z; Month : Z; Day : Z;
  Hour : Z; Minute : Z; Second : Z; Microsecond : Z
}.

(** [types.Time{Time: ..., Type: ..., Fsp: ...}]. *)
Record Time := mkTime {
  CoreTime : MysqlTime;
  Type_ : TimeType;
  Fsp : Z
}.

(** [types.DefaultFsp] and [types.MaxFsp]: the fractional-second precision
    ranges over 0..6 (spec, section 3); the default is 0. *)
Definition DefaultFsp : Z := 0.
Definition MaxFsp : Z := 6.

Definition ZeroTime : MysqlTime := FromDate 0 0 0 0 0 0 0.
Definition ZeroDate : Time := mkTime ZeroTime TypeDate DefaultFsp.

(** Modelled from the spec: [Time.IsZero] is declared in package [types];
    it holds of the literal zero value (all of 0000-00-00 00:00:00.000000). *)
Definition IsZero (t : Time) : bool :=
  let c := CoreTime t in
  (Year c =? 0) && (Month c =? 0) && (Day c =? 0) &&
  (Hour c =? 0) && (Minute c =? 0) && (Second c =? 0) && (Microsecond c =? 0).

(** Modelled from the spec: [Time.InvalidZero] is declared in package
    [types]; it holds of a date with a zero month or a zero day (the literal
    zero date included). *)
Definition InvalidZero (t : Time) : bool :=
  (Month (CoreTime t) =? 0) || (Day (CoreTime t) =? 0).

Definition DateTimeStr : string := "datetime".
Definition TimeStr : string := "time".

End types.
Import types.

(** ** Errors *)

(** The value an error message renders: a temporal value ([t.String()]) or a
    string taken from the row. *)
Inductive ErrArg :=
| ArgTime (t : Time)
| ArgString (s : string).

Inductive error :=
| ErrWrongValue (kind : string) (arg : ErrArg)   (* types.ErrWrongValue *)
| errIncorrectArgs (fn : string)                 (* errIncorrectArgs *)
| AllocationError                                (* the pool is exhausted *)
| ErrExternal (code : Z).                        (* raised by a collaborator *)

(** ** Session context *)

(** Modelled from the spec: the session variables live in package
    [sessionctx]; section 3 lists the mode flags the evaluators read
    (NoZeroDate, NoZeroInDate, strict mode). They are read-only here. *)
Record SQLModeFlags := {
  NoZeroDate : bool;
  NoZeroInDate : bool
}.

Record SessionVars := {
  SQLMode : SQLModeFlags;
  StrictSQLMode : bool
}.

Definition HasNoZeroDateMode (m : SQLModeFlags) : bool := NoZeroDate m.

(** ** Scratch buffer pool *)

(** Modelled from the spec: the allocator behind [b.bufAllocator] is declared
    elsewhere in package [expression]. Section 4.1: [get] lends a buffer and
    fails only on resource exhaustion, [put] returns it. The model records
    every loan and return, newest first. *)
Inductive PoolEvent :=
| EvGet (id : nat)
| EvPut (id : nat).

Record Allocator := {
  capacity : nat;            (* loans the pool sustains at one time *)
  events : list PoolEvent
}.

Fixpoint removeOne (id : nat) (l : list nat) : list nat :=
  match l with
  | [] => []
  | x :: l' => if Nat.eqb x id then l' else x :: removeOne id l'
  end.

(** Buffers on loan after a sequence of events (newest first). *)
Fixpoint onLoan (evs : list PoolEvent) : list nat :=
  match evs with
  | [] => []
  | EvGet id :: evs' => id :: onLoan evs'
  | EvPut id :: evs' => removeOne id (onLoan evs')
  end.

Definition countGets (id : nat) (evs : list PoolEvent) : nat :=
  List.length (filter (fun e => match e with EvGet j => Nat.eqb j id | _ => false end) evs).

Definition countPuts (id : nat) (evs : list PoolEvent) : nat :=
  List.length (filter (fun e => match e with EvPut j => Nat.eqb j id | _ => false end) evs).

(** ** The mutable world and the evaluation monad *)

Record World := {
  bufAllocator : Allocator;
  warnings : list error       (* the statement's diagnostic sink *)
}.

Definition M (A : Type) : Type := World -> World * (error + A).

Definition ret {A} (a : A) : M A := fun w => (w, inr a).
Definition fail {A} (e : error) : M A := fun w => (w, inl e).
Definition bind {A B} (m : M A) (k : A -> M B) : M B :=
  fun w => match m w with
           | (w', inl e) => (w', inl e)
           | (w', inr a) => k a w'
           end.

Declare Scope go_scope.
Delimit Scope go_scope with go.
Notation "x <- m ;; k" := (bind m (fun x => k))
  (at level 61, m at next level, right associativity) : go_scope.
Notation "m ;;; k" := (bind m (fun _ => k))
  (at level 61, right associativity) : go_scope.
Local Open Scope go_scope.

(** [defer f]: [f] runs when the enclosing function returns, whatever the
    path taken by the statements after the [defer]. *)
Definition defer {A} (f : World -> World) (rest : M A) : M A :=
  fun w => let (w', r) := rest w in (f w', r).

(** [for i := lo; i < lo+k; i++ { st = body i st }], leaving at the first
    [return err]. *)
Fixpoint forRows {S} (body : nat -> S -> M S) (lo k : nat) (st : S) : M S :=
  match k with
  | O => ret st
  | Datatypes.S k' => st' <- body lo st ;; forRows body (Datatypes.S lo) k' st'
  end.

Definition get (et : EvalType) (n : nat) : M nat :=
  fun w =>
    let a := bufAllocator w in
    if Nat.ltb (List.length (onLoan (events a))) (capacity a) then
      let id := List.length (events a) in
      ({| bufAllocator := {| capacity := capacity a; events := EvGet id :: events a |};
          warnings := warnings w |}, inr id)
    else (w, inl AllocationError).

Definition put (id : nat) (w : World) : World :=
  let a := bufAllocator w in
  {| bufAllocator := {| capacity := capacity a; events := EvPut id :: events a |};
     warnings := warnings w |}.

(** [sc.AppendWarning(err)] *)
Definition AppendWarning (e : error) : M unit :=
  fun w => ({| bufAllocator := bufAllocator w; warnings := warnings w ++ [e] |}, inr tt).

(** Modelled from the spec: [handleInvalidTimeError] is declared elsewhere in
    package [expression]. Section 4.3: the policy resolves, per session mode,
    either to Fatal (the error is returned) or to WarnAndNull (the error is
    appended to the warning sink and nil is returned, so that the caller nulls
    the row); strict mode is the flag that makes it Fatal. *)
Definition handleInvalidTimeError (ctx : SessionVars) (err : error) : M unit :=
  if StrictSQLMode ctx then fail err else AppendWarning err.

(** ** Package [chunk]: columns *)

Module chunk.

(** Only the row count of the input batch is read by this file; its rows
    are read by the argument expressions. *)
Record Chunk := { NumRows : nat }.

(** A column: one null bit and one element per row (section 3: row [i] is
    null iff bit [i] is set). *)
Record Column (A : Type) := mkColumn {
  nullBitmap : list bool;
  elems : list A
}.
Arguments mkColumn {A}.
Arguments nullBitmap {A}.
Arguments elems {A}.

Fixpoint upd {A} (i : nat) (v : A) (l : list A) : list A :=
  match l, i with
  | [], _ => []
  | _ :: l', O => v :: l'
  | x :: l', Datatypes.S i' => x :: upd i' v l'
  end.

Definition IsNull {A} (c : Column A) (i : nat) : bool := nth i (nullBitmap c) false.
Definition SetNull {A} (i : nat) (b : bool) (c : Column A) : Column A :=
  mkColumn (upd i b (nullBitmap c)) (elems c).
(** [xs := c.Int64s(); xs[i] = v] (likewise for the other element types) *)
Definition setElem {A} (i : nat) (v : A) (c : Column A) : Column A :=
  mkColumn (nullBitmap c) (upd i v (elems c)).
Definition rows {A} (c : Column A) : nat := List.length (nullBitmap c).

(** [c.ResizeX(n, false)]: exactly [n] rows, none null; elements already
    there are kept as they are, growth is zero-filled (section 4.1). *)
Definition Resize {A} (zero : A) (n : nat) (c : Column A) : Column A :=
  mkColumn (repeat false n) (firstn n (elems c ++ repeat zero n)).

Fixpoint orBits (a b : list bool) : list bool :=
  match a, b with
  | x :: a', y :: b' => (x || y) :: orBits a' b'
  | _, [] => a
  | [], _ => []
  end.

(** [c.MergeNulls(srcs...)]: bit [i] of [c] is or-ed with bit [i] of every
    source. *)
Definition MergeNulls {A} (c : Column A) (srcs : list (list bool)) : Column A :=
  mkColumn (fold_left orBits srcs (nullBitmap c)) (elems c).

(** [c.ReserveString(n)], [c.AppendString(s)], [c.AppendNull()] *)
Definition ReserveString (n : nat) (c : Column string) : Column string :=
  mkColumn [] [].
Definition AppendString (s : string) (c : Column string) : Column string :=
  mkColumn (nullBitmap c ++ [false]) (elems c ++ [s]).
Definition AppendNull (c : Column string) : Column string :=
  mkColumn (nullBitmap c ++ [true]) (elems c ++ [EmptyString]).

End chunk.
Import chunk.

(** An argument expression, evaluated over the batch into a column of its
    declared type; it may report to the warning sink and may fail. *)
Definition Expression (A : Type) : Type :=
  Chunk -> list error -> list error * (error + Column A).

Definition VecEval {A} (e : Expression A) (input : Chunk) : M (Column A) :=
  fun w => let (ws, r) := e input (warnings w) in
           ({| bufAllocator := bufAllocator w; warnings := ws |}, r).

Definition zeroTime : Time := mkTime ZeroTime TypeDatetime 0.

(** The [Expression] interface: every expression can be asked for a column
    of each evaluation type. *)
Record ExpressionI := {
  VecEvalInt : Expression Z;
  VecEvalReal : Expression float;
  VecEvalTime : Expression Time;
  VecEvalString : Expression string
}.

(** [baseBuiltinFunc]: the session context and the argument expressions of a
    builtin signature ([b.args[k]] is [args b k]; the allocator and the
    warning sink are in the world). *)
Record baseBuiltinFunc := {
  ctx : SessionVars;
  args : nat -> ExpressionI
}.

Definition Times (c : Column Time) (i : nat) : Time := nth i (elems c) zeroTime.
Definition Int64s (c : Column Z) (i : nat) : Z := nth i (elems c) 0.
Definition GetString (c : Column string) (i : nat) : string := nth i (elems c) EmptyString.
Definition ResizeInt64 (n : nat) (c : Column Z) : Column Z := Resize 0 n c.
Definition ResizeTime (n : nat) (c : Column Time) : Column Time := Resize zeroTime n c.

(** ** MONTH and YEAR *)

Definition builtinMonthSig_vecEvalInt (b : baseBuiltinFunc) (input : Chunk)
    (result : Column Z) : M (Column Z) :=
  let n := NumRows input in
  h <- get ETDatetime n ;;
  defer (put h) (
    buf <- VecEval (VecEvalTime (args b 0)) input ;;
    let result := ResizeInt64 n result in
    let result := MergeNulls result [nullBitmap buf] in
    let ds := Times buf in
    forRows (fun i result =>
      if IsNull result i then ret result
      else if IsZero (ds i) then
        if HasNoZeroDateMode (SQLMode (ctx b)) then
          handleInvalidTimeError (ctx b) (ErrWrongValue DateTimeStr (ArgTime (ds i))) ;;;
          ret (SetNull i true result)
        else ret (setElem i 0 result)
      else ret (setElem i (Month (CoreTime (ds i))) result))
      0 (NumRows input) result).

Definition builtinYearSig_vecEvalInt (b : baseBuiltinFunc) (input : Chunk)
    (result : Column Z) : M (Column Z) :=
  let n := NumRows input in
  h <- get ETDatetime n ;;
  defer (put h) (
    buf <- VecEval (VecEvalTime (args b 0)) input ;;
    let result := ResizeInt64 n result in
    let result := MergeNulls result [nullBitmap buf] in
    let ds := Times buf in
    forRows (fun i result =>
      if IsNull result i then ret result
      else if IsZero (ds i) then
        if HasNoZeroDateMode (SQLMode (ctx b)) then
          handleInvalidTimeError (ctx b) (ErrWrongValue DateTimeStr (ArgTime (ds i))) ;;;
          ret (SetNull i true result)
        else ret (setElem i 0 result)
      else ret (setElem i (Year (CoreTime (ds i))) result))
      0 (NumRows input) result).

(** ** Calendar arithmetic of package [types] *)

Definition isLeapYear (year : Z) : bool :=
  (year mod 4 =? 0) &&
  (negb (year mod 100 =? 0) || ((year mod 400 =? 0) && negb (year =? 0))).

Definition calcDaysInYear (year : Z) : Z := if isLeapYear year then 366 else 365.

Definition daysInMonth : list Z := [31; 28; 31; 30; 31; 30; 31; 31; 30; 31; 30; 31].

(** Modelled from the spec: the day number of a date (days elapsed since the
    zero date), declared in package [types] and used there by
    [TimestampDiff("DAY", ...)] and [Weekday]. *)
Definition calcDaynr (year month day : Z) : Z :=
  if (year =? 0) && (month =? 0) then 0
  else
    let delsum := 365 * year + 31 * (month - 1) + day in
    let delsum := if month <=? 2 then delsum else delsum - goDiv (month * 4 + 23) 10 in
    let year := if month <=? 2 then year - 1 else year in
    let temp := goDiv ((goDiv year 100 + 1) * 3) 4 in
    delsum + goDiv year 4 - temp.

(** Modelled from the spec: [MysqlTime.Weekday], declared in package [types],
    is the Sunday-first week index of the date (Sunday 0 ... Saturday 6). *)
Definition Weekday (t : MysqlTime) : Z :=
  goMod (calcDaynr (Year t) (Month t) (Day t) + 5 + 1) 7.

(** [for dayOfYear > daysInYear { dayOfYear -= daysInYear; year++; ... }]:
    every turn takes at least 365 days off, so [dayOfYear / 365] turns are
    enough. *)
Fixpoint skipYears (fuel : nat) (year dayOfYear : Z) : Z * Z :=
  match fuel with
  | O => (year, dayOfYear)
  | Datatypes.S fuel' =>
      if calcDaysInYear year <? dayOfYear
      then skipYears fuel' (year + 1) (dayOfYear - calcDaysInYear year)
      else (year, dayOfYear)
  end.

(** [for _, days := range daysInMonth { if dayOfYear <= days { break }; dayOfYear -= days; month++ }] *)
Fixpoint skipMonths (tbl : list Z) (month dayOfYear : Z) : Z * Z :=
  match tbl with
  | [] => (month, dayOfYear)
  | days :: tbl' =>
      if dayOfYear <=? days then (month, dayOfYear)
      else skipMonths tbl' (month + 1) (dayOfYear - days)
  end.

(** Modelled from the spec: the inverse of the day number, declared in
    package [types]: the (year, month, day) of a day number, and (0, 0, 0)
    outside the supported range. *)
Definition getDateFromDaynr (daynr : Z) : Z * Z * Z :=
  if (daynr <=? 365) || (3652500 <=? daynr) then (0, 0, 0)
  else
    let year := daynr * 100 / 36525 in
    let temp := (((year - 1) / 100 + 1) * 3) / 4 in
    let dayOfYear := daynr - year * 365 - (year - 1) / 4 + temp in
    let (year, dayOfYear) := skipYears (Z.to_nat (dayOfYear / 365)) year dayOfYear in
    let leap := (calcDaysInYear year =? 366) && (31 + 28 <? dayOfYear) in
    let dayOfYear := if leap then dayOfYear - 1 else dayOfYear in
    let leapDay := if leap && (dayOfYear =? 31 + 28) then 1 else 0 in
    let (month, dayOfYear) := skipMonths daysInMonth 1 dayOfYear in
    (year, month, dayOfYear + leapDay).

(** Modelled from the spec: [types.TimeFromDays], declared in package
    [types]: the date at a day number (section 4.4, MAKEDATE "computes day
    offset from Jan 1"); the zero date for a negative number. *)
Definition TimeFromDays (num : Z) : Time :=
  if num <? 0 then mkTime (FromDate 0 0 0 0 0 0 0) TypeDate 0
  else
    let '(year, month, day) := getDateFromDaynr num in
    mkTime (FromDate year month day 0 0 0 0) TypeDate 0.

(** Modelled from the spec: [types.TimestampDiff("DAY", t1, t2)], declared in
    package [types]: the whole days from [t1] to [t2]. *)
Definition TimestampDiff_DAY (t1 t2 : Time) : Z :=
  let micros (t : MysqlTime) :=
    (calcDaynr (Year t) (Month t) (Day t) * 86400 +
     Hour t * 3600 + Minute t * 60 + Second t) * 1000000 + Microsecond t in
  goDiv (goDiv (micros (CoreTime t2) - micros (CoreTime t1)) 1000000) 86400.

(** ** Periods *)

(** Modelled from the spec: [validPeriod], [period2Month] and [month2Period]
    are declared elsewhere in package [expression]. Section 4.4: a period is
    an integer of the fixed shape YYYYMM or YYMM (at most six digits, the
    last two a month); the month index of a period counts months from year
    0, a two-digit year standing for 2000-2069 or 1970-1999 as in MAKEDATE;
    the zero period and the zero index stand for each other. The arithmetic
    is that of [uint64]. *)
Definition validPeriod (p : Z) : bool :=
  negb ((p <? 0) || (goMod p 100 =? 0) || (12 <? goMod p 100) || (999999 <? p)).

Definition period2Month (period : Z) : Z :=
  if period =? 0 then 0
  else
    let year := period / 100 in
    let month := period mod 100 in
    let year := if year <? 70 then year + 2000
                else if year <? 100 then year + 1900 else year in
    toUint64 (year * 12 + month - 1).

Definition month2Period (month : Z) : Z :=
  if month =? 0 then 0
  else
    let year := month / 12 in
    let year := if year <? 70 then year + 2000
                else if year <? 100 then year + 1900 else year in
    toUint64 (year * 100 + month mod 12 + 1).

Section Evaluators.

(** [MysqlTime.YearWeek(mode)], declared in package [types]: the year and
    the week of the date under a week-numbering mode. The evaluators below
    only combine its two results. *)
Variable YearWeek : MysqlTime -> Z -> Z * Z.

(** *** WEEKDAY and DAYNAME *)

Definition builtinDayNameSig_vecEvalIndex {S} (b : baseBuiltinFunc) (input : Chunk)
    (apply : nat -> Z -> S -> S) (applyNull : nat -> S -> S) (st : S) : M S :=
  let n := NumRows input in
  h <- get ETDatetime n ;;
  defer (put h) (
    buf <- VecEval (VecEvalTime (args b 0)) input ;;
    let ds := Times buf in
    forRows (fun i st =>
      if IsNull buf i then ret (applyNull i st)
      else if InvalidZero (ds i) then
        handleInvalidTimeError (ctx b) (ErrWrongValue DateTimeStr (ArgTime (ds i))) ;;;
        ret (applyNull i st)
      else
        let res := goMod (Weekday (CoreTime (ds i)) + 6) 7 in
        ret (apply i res st))
      0 n st).

Definition builtinDayNameSig_vecEvalInt (b : baseBuiltinFunc) (input : Chunk)
    (result : Column Z) : M (Column Z) :=
  let n := NumRows input in
  let result := ResizeInt64 n result in
  builtinDayNameSig_vecEvalIndex b input
    (fun i res result => setElem i res result)
    (fun i result => SetNull i true result)
    result.

Definition builtinWeekDaySig_vecEvalInt (b : baseBuiltinFunc) (input : Chunk)
    (result : Column Z) : M (Column Z) :=
  let n := NumRows input in
  h <- get ETDatetime n ;;
  defer (put h) (
    buf <- VecEval (VecEvalTime (args b 0)) input ;;
    let result := ResizeInt64 n result in
    let result := MergeNulls result [nullBitmap buf] in
    let ds := Times buf in
    forRows (fun i result =>
      if IsNull result i then ret result
      else if IsZero (ds i) then
        handleInvalidTimeError (ctx b) (ErrWrongValue DateTimeStr (ArgTime (ds i))) ;;;
        ret (SetNull i true result)
      else ret (setElem i (goMod (Weekday (CoreTime (ds i)) + 6) 7) result))
      0 (NumRows input) result).

(** *** YEARWEEK *)

(** [i64s[i] = int64(week + year*100); if i64s[i] < 0 { i64s[i] = int64(math.MaxUint32) }] *)
Definition encodeYearWeek (yw : Z * Z) : Z :=
  let (year, week) := yw in
  let v := wrap64 (week + year * 100) in
  if v <? 0 then MaxUint32 else v.

Definition builtinYearWeekWithoutModeSig_vecEvalInt (b : baseBuiltinFunc) (input : Chunk)
    (result : Column Z) : M (Column Z) :=
  let n := NumRows input in
  h <- get ETDatetime n ;;
  defer (put h) (
    buf <- VecEval (VecEvalTime (args b 0)) input ;;
    let result := ResizeInt64 n result in
    let result := MergeNulls result [nullBitmap buf] in
    let ds := Times buf in
    forRows (fun i result =>
      if IsNull result i then ret result
      else
        let date := ds i in
        if InvalidZero date then
          handleInvalidTimeError (ctx b) (ErrWrongValue DateTimeStr (ArgTime date)) ;;;
          ret (SetNull i true result)
        else ret (setElem i (encodeYearWeek (YearWeek (CoreTime date) 0)) result))
      0 n result).

(** No [defer] follows either [get] here: nothing is run on return. *)
Definition builtinYearWeekWithModeSig_vecEvalInt (b : baseBuiltinFunc) (input : Chunk)
    (result : Column Z) : M (Column Z) :=
  let n := NumRows input in
  h1 <- get ETDatetime n ;;
  buf1 <- VecEval (VecEvalTime (args b 0)) input ;;
  h2 <- get ETInt n ;;
  buf2 <- VecEval (VecEvalInt (args b 1)) input ;;
  let result := ResizeInt64 n result in
  let result := MergeNulls result [nullBitmap buf1] in
  let ds := Times buf1 in
  let ms := Int64s buf2 in
  forRows (fun i result =>
    if IsNull result i then ret result
    else
      let date := ds i in
      if IsZero date then
        handleInvalidTimeError (ctx b) (ErrWrongValue DateTimeStr (ArgTime date)) ;;;
        ret (SetNull i true result)
      else
        let mode := ms i in
        let mode := if IsNull buf2 i then 0 else mode in
        ret (setElem i (encodeYearWeek (YearWeek (CoreTime date) mode)) result))
    0 n result.

(** *** PERIOD_DIFF and PERIOD_ADD *)

Definition builtinPeriodDiffSig_vecEvalInt (b : baseBuiltinFunc) (input : Chunk)
    (result : Column Z) : M (Column Z) :=
  result <- VecEval (VecEvalInt (args b 0)) input ;;
  let n := NumRows input in
  h <- get ETInt n ;;
  defer (put h) (
    buf <- VecEval (VecEvalInt (args b 1)) input ;;
    let periods := Int64s buf in
    let result := MergeNulls result [nullBitmap buf] in
    forRows (fun i result =>
      if IsNull result i then ret result
      else if negb (validPeriod (Int64s result i)) || negb (validPeriod (periods i)) then
        fail (errIncorrectArgs "period_diff")
      else
        ret (setElem i
               (wrap64 (period2Month (toUint64 (Int64s result i)) -
                        period2Month (toUint64 (periods i))))
               result))
      0 n result).

Definition builtinPeriodAddSig_vecEvalInt (b : baseBuiltinFunc) (input : Chunk)
    (result : Column Z) : M (Column Z) :=
  result <- VecEval (VecEvalInt (args b 0)) input ;;
  let n := NumRows input in
  h <- get ETInt n ;;
  defer (put h) (
    buf <- VecEval (VecEvalInt (args b 1)) input ;;
    let result := MergeNulls result [nullBitmap buf] in
    let ns := Int64s buf in
    forRows (fun i result =>
      if IsNull result i then ret result
      else if negb (validPeriod (Int64s result i)) then
        fail (errIncorrectArgs "period_add")
      else
        let sumMonth := wrap64 (wrap64 (period2Month (toUint64 (Int64s result i))) + ns i) in
        ret (setElem i (wrap64 (month2Period (toUint64 sumMonth))) result))
      0 n result).

(** *** MAKEDATE *)

Definition builtinMakeDateSig_vecEvalTime (b : baseBuiltinFunc) (input : Chunk)
    (result : Column Time) : M (Column Time) :=
  let n := NumRows input in
  h1 <- get ETInt n ;;
  defer (put h1) (
    buf1 <- VecEval (VecEvalInt (args b 0)) input ;;
    h2 <- get ETInt n ;;
    defer (put h2) (
      buf2 <- VecEval (VecEvalInt (args b 1)) input ;;
      let result := ResizeTime n result in
      let result := MergeNulls result [nullBitmap buf1; nullBitmap buf2] in
      let years := Int64s buf1 in
      let days := Int64s buf2 in
      forRows (fun i result =>
        if IsNull result i then ret result
        else if (days i <=? 0) || (years i <? 0) || (9999 <? years i) then
          ret (SetNull i true result)
        else
          (* [years[i] += 2000] or [years[i] += 1900], read back below *)
          let year := if years i <? 70 then wrap64 (years i + 2000)
                      else if years i <? 100 then wrap64 (years i + 1900)
                      else years i in
          let startTime := mkTime (FromDate year 1 1 0 0 0 0) TypeDate 0 in
          let retTimestamp := TimestampDiff_DAY ZeroDate startTime in
          if retTimestamp =? 0 then
            handleInvalidTimeError (ctx b) (ErrWrongValue DateTimeStr (ArgTime startTime)) ;;;
            ret (SetNull i true result)
          else
            let ret_ := TimeFromDays (wrap64 (retTimestamp + days i - 1)) in
            if IsZero ret_ || (9999 <? Year (CoreTime ret_)) then
              ret (SetNull i true result)
            else ret (setElem i ret_ result))
        0 n result)).

(** *** TIMESTAMPADD *)

(** Go's [time] package and the conversions of package [types] to and from
    it, the type resolution of the signature, the range check of a temporal
    value and its rendering: all declared outside this file. *)
Variable GoTimeT : Type.
Variable GoTime : MysqlTime -> error + GoTimeT.            (* arg.Time.GoTime(time.Local) *)
Variable Add : GoTimeT -> Z -> GoTimeT.                    (* tm.Add(d), d in nanoseconds *)
Variable AddDate : GoTimeT -> Z -> Z -> Z -> GoTimeT.      (* tm.AddDate(years, months, days) *)
Variable FromGoTime : GoTimeT -> MysqlTime.
Variable resolveType : TimeType -> string -> TimeType.
Variable Check : Time -> option error.                     (* r.Check(sc) *)
Variable TimeString : Time -> string.                      (* r.String() *)

Definition Microsecond_ns : Z := 1000.
Definition Second_ns : Z := 1000000000.
Definition Minute_ns : Z := 60 * Second_ns.
Definition Hour_ns : Z := 60 * Minute_ns.

(** The [switch unit] of TIMESTAMPADD: the shifted time and the precision of
    the result, or nothing for an unknown unit. *)
Definition timestampAddUnit (unit : string) (v : Z) (tm1 : GoTimeT) : option (GoTimeT * Z) :=
  let fsp := DefaultFsp in
  if String.eqb unit "MICROSECOND" then Some (Add tm1 (wrap64 (v * Microsecond_ns)), MaxFsp)
  else if String.eqb unit "SECOND" then Some (Add tm1 (wrap64 (v * Second_ns)), fsp)
  else if String.eqb unit "MINUTE" then Some (Add tm1 (wrap64 (v * Minute_ns)), fsp)
  else if String.eqb unit "HOUR" then Some (Add tm1 (wrap64 (v * Hour_ns)), fsp)
  else if String.eqb unit "DAY" then Some (AddDate tm1 0 0 v, fsp)
  else if String.eqb unit "WEEK" then Some (AddDate tm1 0 0 (wrap64 (7 * v)), fsp)
  else if String.eqb unit "MONTH" then Some (AddDate tm1 0 v 0, fsp)
  else if String.eqb unit "QUARTER" then Some (AddDate tm1 0 (wrap64 (3 * v)) 0, fsp)
  else if String.eqb unit "YEAR" then Some (AddDate tm1 v 0 0, fsp)
  else None.

Definition builtinTimestampAddSig_vecEvalString (b : baseBuiltinFunc) (input : Chunk)
    (result : Column string) : M (Column string) :=
  let n := NumRows input in
  h <- get ETString n ;;
  defer (put h) (
    buf <- VecEval (VecEvalString (args b 0)) input ;;
    h1 <- get ETInt n ;;
    defer (put h1) (
      buf1 <- VecEval (VecEvalInt (args b 1)) input ;;
      h2 <- get ETDatetime n ;;
      defer (put h2) (
        buf2 <- VecEval (VecEvalTime (args b 2)) input ;;
        let result := ReserveString n result in
        let nums := Int64s buf1 in
        let ds := Times buf2 in
        forRows (fun i result =>
          if IsNull buf i || IsNull buf1 i || IsNull buf2 i then ret (AppendNull result)
          else
            let unit := GetString buf i in
            let v := nums i in
            let arg := ds i in
            match GoTime (CoreTime arg) with
            | inl err => fail err
            | inr tm1 =>
                match timestampAddUnit unit v tm1 with
                | None => fail (ErrWrongValue TimeStr (ArgString unit))
                | Some (tb, fsp) =>
                    let r := mkTime (FromGoTime tb) (resolveType (Type_ arg) unit) fsp in
                    match Check r with
                    | Some err =>
                        handleInvalidTimeError (ctx b) err ;;;
                        ret (AppendNull result)
                    | None => ret (AppendString (TimeString r) result)
                    end
                end
            end)
          0 n result))).

End Evaluators.

(** *** SEC_TO_TIME *)

(** Go's conversion [int64(f)] of a [float64]: the fraction is discarded
    (truncation toward zero). A value that does not fit, an infinity or a NaN
    gives the minimal [int64], as the conversion instruction of amd64 does. *)
Definition int64OfFloat (f : float) : Z :=
  match Prim2SF f with
  | S754_zero _ => 0
  | S754_finite s m e =>
      let mag := if 0 <=? e then Z.pos m * 2 ^ e else Z.pos m / 2 ^ (- e) in
      if 2 ^ 63 <=? mag then - 2 ^ 63 else if s then - mag else mag
  | _ => - 2 ^ 63
  end.

(** Go's conversion [float64(z)] of an [int64], rounded to nearest. The
    magnitude of [math.MinInt64], 2^63, is no 63-bit integer: it is the
    float [0x1p63] itself. *)
Definition floatOfInt64 (z : Z) : float :=
  if z =? - 2 ^ 63 then PrimFloat.opp 0x1p63%float
  else if z <? 0 then PrimFloat.opp (PrimFloat.of_uint63 (Uint63.of_Z (- z)))
  else PrimFloat.of_uint63 (Uint63.of_Z z).

(** The arguments of [fmt.Sprintf("%s%02d:%02d:%v", negative, hour, minute,
    secondDemical)]: the text handed to the duration parser is kept as the
    four values it prints, sign, hours, minutes and seconds with their
    fraction. *)
Record DurationText := mkDurationText {
  negative : string;
  hour : Z;
  minute : Z;
  secondDemical : float
}.

(** The body of the row loop up to the call of the parser. *)
Definition secToTimeText (secondsFloat : float) : DurationText :=
  let negative := if PrimFloat.ltb secondsFloat 0 then "-"%string else EmptyString in
  let secondsFloat :=
    if PrimFloat.ltb secondsFloat 0 then PrimFloat.abs secondsFloat else secondsFloat in
  let seconds := int64OfFloat secondsFloat in
  let demical := PrimFloat.sub secondsFloat (floatOfInt64 seconds) in
  let hour := goDiv seconds 3600 in
  let '(hour, minute, second) :=
    if 838 <? hour then (838, 59, 59)
    else (hour, goDiv (goMod seconds 3600) 60, goMod seconds 60) in
  let secondDemical := PrimFloat.add (floatOfInt64 second) demical in
  mkDurationText negative hour minute secondDemical.

Definition Float64s (c : Column float) (i : nat) : float := nth i (elems c) 0%float.
Definition ResizeGoDuration (n : nat) (c : Column Z) : Column Z := Resize 0 n c.

Section SecToTime.

(** [types.ParseDuration] is declared in package [types]: it reads the text
    of a duration at a given fractional precision and returns the duration,
    in nanoseconds, or an error. The statement context the call hands to it
    is left out of the parameter: what the parser reports to the warning
    sink is outside this model, which speaks of the value and of the error
    the parser returns only. *)
Variable ParseDuration : DurationText -> Z -> error + Z.

(** [tpDecimal] is [b.tp.Decimal], the fractional precision of the result
    type of the signature. *)
Definition builtinSecToTimeSig_vecEvalDuration (b : baseBuiltinFunc) (tpDecimal : Z)
    (input : Chunk) (result : Column Z) : M (Column Z) :=
  let n := NumRows input in
  h <- get ETReal n ;;
  defer (put h) (
    buf <- VecEval (VecEvalReal (args b 0)) input ;;
    let args := Float64s buf in
    let result := ResizeGoDuration n result in
    let result := MergeNulls result [nullBitmap buf] in
    forRows (fun i result =>
      if IsNull result i then ret result
      else
        match ParseDuration (secToTimeText (args i)) tpDecimal with
        | inl err => fail err
        | inr duration => ret (setElem i duration result)
        end)
      0 n result).

End SecToTime.


(** * Row loops, in general *)

(** What the body of a row loop does at row [i]. *)
Inductive RowOutcome (A : Type) :=
| Keep                  (* [continue] on a row already null *)
| Nullify               (* the row is set null *)
| Invalid (e : error)   (* the invalid-time policy, then the row is set null *)
| Abort (e : error)     (* [return err] *)
| Value (v : A).        (* the row is given a value *)
Arguments Keep {A}.
Arguments Nullify {A}.
Arguments Invalid {A}.
Arguments Abort {A}.
Arguments Value {A}.

Section RowLoops.

Context {A S : Type}.
Variable c : SessionVars.
Variable apply : nat -> A -> S -> S.
Variable applyNull : nat -> S -> S.

Definition rowAct (o : RowOutcome A) (i : nat) (st : S) : M S :=
  match o with
  | Keep => ret st
  | Nullify => ret (applyNull i st)
  | Invalid e => handleInvalidTimeError c e ;;; ret (applyNull i st)
  | Abort e => fail e
  | Value v => ret (apply i v st)
  end.

Definition actState (o : RowOutcome A) (i : nat) (st : S) : S :=
  match o with
  | Keep | Abort _ => st
  | Nullify | Invalid _ => applyNull i st
  | Value v => apply i v st
  end.

Fixpoint applyRows (g : nat -> RowOutcome A) (lo k : nat) (st : S) : S :=
  match k with
  | O => st
  | Datatypes.S k' => applyRows g (Datatypes.S lo) k' (actState (g lo) lo st)
  end.

(** The errors handed to the invalid-time policy, in row order. *)
Fixpoint rowWarnings (g : nat -> RowOutcome A) (lo k : nat) : list error :=
  match k with
  | O => []
  | Datatypes.S k' =>
      match g lo with
      | Invalid e => e :: rowWarnings g (Datatypes.S lo) k'
      | _ => rowWarnings g (Datatypes.S lo) k'
      end
  end.

(** The error a row ends the batch call with, if it does. *)
Definition stops (strict : bool) (o : RowOutcome A) : option error :=
  match o with
  | Abort e => Some e
  | Invalid e => if strict then Some e else None
  | _ => None
  end.

(** The loop as a function: the warnings it appends and what it returns. *)
Fixpoint evalRows (strict : bool) (g : nat -> RowOutcome A) (lo k : nat) (st : S)
  : list error * (error + S) :=
  match k with
  | O => ([], inr st)
  | Datatypes.S k' =>
      match stops strict (g lo) with
      | Some e => ([], inl e)
      | None =>
          let (ws, r) := evalRows strict g (Datatypes.S lo) k' (actState (g lo) lo st) in
          (match g lo with Invalid e => e :: ws | _ => ws end, r)
      end
  end.

Definition addWarnings (es : list error) (w : World) : World :=
  {| bufAllocator := bufAllocator w; warnings := warnings w ++ es |}.

#[local] Arguments addWarnings : simpl never.

Lemma addWarnings_nil w : addWarnings [] w = w.
Proof. destruct w; unfold addWarnings; simpl; now rewrite app_nil_r. Qed.

Lemma addWarnings_cons e es w :
  addWarnings es (addWarnings [e] w) = addWarnings (e :: es) w.
Proof. unfold addWarnings; simpl. now rewrite <- app_assoc. Qed.

Lemma forRows_ext (f g : nat -> S -> M S) lo k :
  (forall i st w, (lo <= i < lo + k)%nat -> f i st w = g i st w) ->
  forall st w, forRows f lo k st w = forRows g lo k st w.
Proof.
  revert lo; induction k as [|k IH]; intros lo H st w; simpl; auto.
  unfold bind. rewrite H by lia.
  destruct (g lo st w) as [w' [e|st']]; auto.
  apply IH. intros; apply H; lia.
Qed.

Lemma forRows_rowAct g lo k st w :
  forRows (fun i s => rowAct (g i) i s) lo k st w =
  let (ws, r) := evalRows (StrictSQLMode c) g lo k st in (addWarnings ws w, r).
Proof.
  revert lo st w; induction k as [|k IH]; intros lo st w; simpl.
  - now rewrite addWarnings_nil.
  - unfold bind at 1.
    destruct (g lo) as [| |e|e|v]; simpl; unfold ret, fail.
    1, 2, 5: rewrite IH;
      match goal with |- context [evalRows ?a ?b ?c ?d ?e] =>
        destruct (evalRows a b c d e) end; reflexivity.
    + unfold bind, handleInvalidTimeError, AppendWarning, fail.
      destruct (StrictSQLMode c); simpl.
      * now rewrite addWarnings_nil.
      * rewrite IH.
        destruct (evalRows false g (Datatypes.S lo) k (applyNull lo st)) as [ws r].
        now rewrite <- addWarnings_cons.
    + now rewrite addWarnings_nil.
Qed.

Lemma evalRows_total strict g lo k st :
  (forall i, (lo <= i < lo + k)%nat -> stops strict (g i) = None) ->
  evalRows strict g lo k st = (rowWarnings g lo k, inr (applyRows g lo k st)).
Proof.
  revert lo st; induction k as [|k IH]; intros lo st H; simpl; auto.
  rewrite (H lo) by lia. rewrite IH by (intros; apply H; lia).
  destruct (g lo); reflexivity.
Qed.

Lemma evalRows_ok strict g lo k st ws st' :
  evalRows strict g lo k st = (ws, inr st') ->
  st' = applyRows g lo k st /\ ws = rowWarnings g lo k /\
  forall i, (lo <= i < lo + k)%nat -> stops strict (g i) = None.
Proof.
  revert lo st ws st'; induction k as [|k IH]; intros lo st ws st' H; simpl in *.
  - inversion H; subst. repeat split; auto. intros; lia.
  - destruct (stops strict (g lo)) as [e|] eqn:Es; [discriminate|].
    destruct (evalRows strict g (Datatypes.S lo) k (actState (g lo) lo st)) as [ws1 r] eqn:E.
    assert (Hr : r = inr st') by (inversion H; auto). subst r.
    destruct (IH _ _ _ _ E) as [H1 [H2 H3]].
    repeat split; auto.
    + inversion H; subst. destruct (g lo); reflexivity.
    + intros i Hi. destruct (Nat.eq_dec i lo) as [->|Hne]; auto. apply H3; lia.
Qed.

Lemma evalRows_err strict g lo k st ws e :
  evalRows strict g lo k st = (ws, inl e) ->
  exists j, (lo <= j < lo + k)%nat /\ stops strict (g j) = Some e /\
            (forall i, (lo <= i < j)%nat -> stops strict (g i) = None).
Proof.
  revert lo st ws; induction k as [|k IH]; intros lo st ws H; simpl in *; [discriminate|].
  destruct (stops strict (g lo)) as [e'|] eqn:Es.
  - inversion H; subst. exists lo. split; [lia|]. split; auto. intros; lia.
  - destruct (evalRows strict g (Datatypes.S lo) k (actState (g lo) lo st)) as [ws1 r] eqn:E.
    assert (Hr : r = inl e) by (inversion H; auto). subst r.
    destruct (IH _ _ _ E) as [j [Hj [Hs Hb]]].
    exists j. split; [lia|]. split; auto.
    intros i Hi. destruct (Nat.eq_dec i lo) as [->|Hne]; auto. apply Hb; lia.
Qed.

(** A row that stops the loop makes the call fail, with the error of the
    first such row. *)
Lemma evalRows_stopped strict g lo k st i e :
  (lo <= i < lo + k)%nat -> stops strict (g i) = Some e ->
  exists ws e', evalRows strict g lo k st = (ws, inl e').
Proof.
  intros Hi Hs.
  destruct (evalRows strict g lo k st) as [ws [e'|st']] eqn:E; eauto.
  apply evalRows_ok in E. destruct E as [_ [_ H]].
  rewrite H in Hs by lia. discriminate.
Qed.

(** A strict session never writes the warning sink. *)
Lemma evalRows_strict_silent g lo k st : fst (evalRows true g lo k st) = [].
Proof.
  revert lo st; induction k as [|k IH]; intros lo st; simpl; auto.
  destruct (stops true (g lo)) eqn:Es; simpl; auto.
  specialize (IH (Datatypes.S lo) (actState (g lo) lo st)).
  destruct (evalRows true g (Datatypes.S lo) k (actState (g lo) lo st)) as [ws r].
  simpl in *. subst ws.
  destruct (g lo); simpl in *; auto; discriminate.
Qed.

Lemma rowWarnings_In g lo k i e :
  (lo <= i < lo + k)%nat -> g i = Invalid e -> In e (rowWarnings g lo k).
Proof.
  revert lo; induction k as [|k IH]; intros lo Hi Hg; simpl; [lia|].
  destruct (Nat.eq_dec lo i) as [->|Hne].
  - rewrite Hg. now left.
  - assert (In e (rowWarnings g (Datatypes.S lo) k)) by (apply IH; auto; lia).
    destruct (g lo); auto. now right.
Qed.

Lemma rowWarnings_source g lo k e :
  In e (rowWarnings g lo k) -> exists i, (lo <= i < lo + k)%nat /\ g i = Invalid e.
Proof.
  revert lo; induction k as [|k IH]; intros lo H; simpl in H; [contradiction|].
  destruct (g lo) as [| |e'|e'|v] eqn:E;
    try (destruct (IH _ H) as [i [Hi Hg]]; exists i; split; auto; lia).
  destruct H as [->|H].
  - exists lo; split; auto; lia.
  - destruct (IH _ H) as [i [Hi Hg]]; exists i; split; auto; lia.
Qed.

Lemma rowWarnings_none g lo k :
  (forall i, (lo <= i < lo + k)%nat -> forall e, g i <> Invalid e) ->
  rowWarnings g lo k = [].
Proof.
  intros H. destruct (rowWarnings g lo k) as [|e l] eqn:E; auto.
  assert (Hin : In e (rowWarnings g lo k)) by (rewrite E; now left).
  apply rowWarnings_source in Hin. destruct Hin as [i [Hi Hg]].
  exfalso. eapply H; eauto.
Qed.

Lemma rowAct_result o i st w w' st' :
  rowAct o i st w = (w', inr st') -> st' = actState o i st.
Proof.
  destruct o; simpl; unfold ret, bind, handleInvalidTimeError, fail, AppendWarning;
    try (intros H; inversion H; reflexivity).
  destruct (StrictSQLMode c); intros H; inversion H; reflexivity.
Qed.

(** A loop body decides on what it reads of row [i] in the current state
    ([view i]); when no other row's step writes it, this is the row as the
    loop found it. *)
Lemma forRows_view {V} (view : nat -> S -> V) (G : nat -> V -> RowOutcome A) lo k st w :
  (forall o j i s, j <> i -> view i (actState o j s) = view i s) ->
  forRows (fun i s => rowAct (G i (view i s)) i s) lo k st w =
  forRows (fun i s => rowAct (G i (view i st)) i s) lo k st w.
Proof.
  intros Hv. revert lo st w; induction k as [|k IH]; intros lo st w; simpl; auto.
  unfold bind.
  destruct (rowAct (G lo (view lo st)) lo st w) as [w' [e|st']] eqn:E; auto.
  rewrite IH. apply forRows_ext. intros i s w0 Hi.
  apply rowAct_result in E. subst st'.
  rewrite Hv by lia. reflexivity.
Qed.

End RowLoops.

(** * Lists and columns *)

Lemma upd_length {A} (i : nat) (v : A) (l : list A) :
  List.length (upd i v l) = List.length l.
Proof.
  revert i; induction l as [|x l IH]; intros [|i]; simpl; auto.
Qed.

Lemma nth_upd_same {A} (i : nat) (v d : A) (l : list A) :
  (i < List.length l)%nat -> nth i (upd i v l) d = v.
Proof.
  revert i; induction l as [|x l IH]; intros [|i] H; simpl in *; try lia; auto.
  apply IH; lia.
Qed.

Lemma nth_upd_other {A} (i j : nat) (v d : A) (l : list A) :
  i <> j -> nth j (upd i v l) d = nth j l d.
Proof.
  revert i j; induction l as [|x l IH]; intros [|i] [|j] H; simpl; auto; try congruence.
Qed.

Lemma orBits_length (a b : list bool) : List.length (orBits a b) = List.length a.
Proof.
  revert b; induction a as [|x a IH]; intros [|y b]; simpl; auto.
Qed.

Lemma nth_orBits (a b : list bool) (i : nat) :
  (i < List.length a)%nat ->
  nth i (orBits a b) false = nth i a false || nth i b false.
Proof.
  revert b i; induction a as [|x a IH]; intros [|y b] [|i] H; simpl in *;
    try lia; auto using orb_false_r.
  apply IH; lia.
Qed.

Lemma nth_repeat_false (n i : nat) : nth i (repeat false n) false = false.
Proof.
  revert i; induction n; intros [|i]; simpl; auto.
Qed.

Lemma rows_SetNull {A} i b (c : Column A) : rows (SetNull i b c) = rows c.
Proof. unfold rows, SetNull; simpl; apply upd_length. Qed.

Lemma rows_Resize {A} (z : A) n c : rows (Resize z n c) = n.
Proof. unfold rows, Resize; simpl; apply repeat_length. Qed.

Lemma elems_Resize {A} (z : A) n c : List.length (elems (Resize z n c)) = n.
Proof.
  unfold Resize; simpl. rewrite length_firstn, length_app, repeat_length. lia.
Qed.

Lemma IsNull_Resize {A} (z : A) n c i : IsNull (Resize z n c) i = false.
Proof. unfold IsNull, Resize; simpl; apply nth_repeat_false. Qed.

Lemma rows_MergeNulls1 {A} (c : Column A) (s : list bool) :
  rows (MergeNulls c [s]) = rows c.
Proof. unfold rows, MergeNulls; simpl; apply orBits_length. Qed.

Lemma IsNull_MergeNulls1 {A} (c : Column A) (s : list bool) i :
  (i < rows c)%nat ->
  IsNull (MergeNulls c [s]) i = IsNull c i || nth i s false.
Proof. unfold IsNull, MergeNulls, rows; simpl; apply nth_orBits. Qed.

Lemma rows_MergeNulls2 {A} (c : Column A) (s t : list bool) :
  rows (MergeNulls c [s; t]) = rows c.
Proof. unfold rows, MergeNulls; simpl; now rewrite !orBits_length. Qed.

Lemma IsNull_MergeNulls2 {A} (c : Column A) (s t : list bool) i :
  (i < rows c)%nat ->
  IsNull (MergeNulls c [s; t]) i = IsNull c i || nth i s false || nth i t false.
Proof.
  unfold IsNull, MergeNulls, rows; simpl; intros H.
  rewrite nth_orBits by (now rewrite orBits_length).
  now rewrite nth_orBits.
Qed.

(** * Row loops over a column *)

Definition setRowNull {A} (i : nat) (c : Column A) : Column A := SetNull i true c.

(** The column a loop leaves when it runs to its end. *)
Definition colFinal {A} (g : nat -> RowOutcome A) (n : nat) (start : Column A) : Column A :=
  applyRows setElem setRowNull g 0 n start.

(** The loop of an evaluator as a function of its start column and of what
    each row decides. *)
Definition colEval {A} (c : SessionVars) (g : nat -> RowOutcome A) (n : nat)
    (start : Column A) : list error * (error + Column A) :=
  evalRows setElem setRowNull (StrictSQLMode c) g 0 n start.

Section ColumnLoops.

Context {A : Type}.
Variable d : A.

Let elemAt (c : Column A) (i : nat) : A := nth i (elems c) d.

Lemma actState_rows (o : RowOutcome A) i c :
  rows (actState setElem setRowNull o i c) = rows c.
Proof. destruct o; simpl; unfold setRowNull; auto using rows_SetNull. Qed.

Lemma actState_elems_length (o : RowOutcome A) i c :
  List.length (elems (actState setElem setRowNull o i c)) = List.length (elems c).
Proof. destruct o; simpl; auto using upd_length. Qed.

Lemma actState_other_null (o : RowOutcome A) i j c :
  i <> j -> IsNull (actState setElem setRowNull o i c) j = IsNull c j.
Proof.
  intros H; destruct o; simpl; auto; unfold IsNull, setRowNull, SetNull; simpl;
    now apply nth_upd_other.
Qed.

Lemma actState_other_elem (o : RowOutcome A) i j c :
  i <> j -> elemAt (actState setElem setRowNull o i c) j = elemAt c j.
Proof.
  intros H; destruct o; simpl; auto; unfold elemAt, setElem; simpl;
    now apply nth_upd_other.
Qed.

Lemma applyRows_rows (g : nat -> RowOutcome A) lo k c :
  rows (applyRows setElem setRowNull g lo k c) = rows c.
Proof.
  revert lo c; induction k as [|k IH]; intros lo c; simpl; auto.
  now rewrite IH, actState_rows.
Qed.

Lemma applyRows_elems_length (g : nat -> RowOutcome A) lo k c :
  List.length (elems (applyRows setElem setRowNull g lo k c)) = List.length (elems c).
Proof.
  revert lo c; induction k as [|k IH]; intros lo c; simpl; auto.
  now rewrite IH, actState_elems_length.
Qed.

Lemma applyRows_outside_null (g : nat -> RowOutcome A) lo k c j :
  (j < lo \/ lo + k <= j)%nat ->
  IsNull (applyRows setElem setRowNull g lo k c) j = IsNull c j.
Proof.
  revert lo c; induction k as [|k IH]; intros lo c H; simpl; auto.
  rewrite IH by lia. apply actState_other_null; lia.
Qed.

Lemma applyRows_outside_elem (g : nat -> RowOutcome A) lo k c j :
  (j < lo \/ lo + k <= j)%nat ->
  elemAt (applyRows setElem setRowNull g lo k c) j = elemAt c j.
Proof.
  revert lo c; induction k as [|k IH]; intros lo c H; simpl; auto.
  rewrite IH by lia. apply actState_other_elem; lia.
Qed.

(** Rows are independent: row [i] of the final column is what the body did
    at row [i], on the row as the loop found it. *)
Lemma applyRows_row_null (g : nat -> RowOutcome A) lo k c i :
  (lo <= i < lo + k)%nat -> (i < rows c)%nat ->
  IsNull (applyRows setElem setRowNull g lo k c) i =
  match g i with
  | Nullify | Invalid _ => true
  | _ => IsNull c i
  end.
Proof.
  revert lo c; induction k as [|k IH]; intros lo c H Hr; simpl; [lia|].
  destruct (Nat.eq_dec lo i) as [->|Hne].
  - rewrite applyRows_outside_null by lia.
    destruct (g i); simpl; auto; unfold IsNull, setRowNull, SetNull; simpl;
      apply nth_upd_same; auto.
  - rewrite IH by (rewrite ?actState_rows; lia).
    rewrite actState_other_null by auto. reflexivity.
Qed.

Lemma applyRows_row_elem (g : nat -> RowOutcome A) lo k c i :
  (lo <= i < lo + k)%nat -> (i < List.length (elems c))%nat ->
  elemAt (applyRows setElem setRowNull g lo k c) i =
  match g i with
  | Value v => v
  | _ => elemAt c i
  end.
Proof.
  revert lo c; induction k as [|k IH]; intros lo c H Hr; simpl; [lia|].
  destruct (Nat.eq_dec lo i) as [->|Hne].
  - rewrite applyRows_outside_elem by lia.
    destruct (g i); simpl; auto; unfold elemAt, setElem; simpl;
      apply nth_upd_same; auto.
  - rewrite IH by (rewrite ?actState_elems_length; lia).
    rewrite actState_other_elem by auto. reflexivity.
Qed.

Lemma colFinal_null (g : nat -> RowOutcome A) n c i :
  (i < n)%nat -> rows c = n ->
  IsNull (colFinal g n c) i =
  match g i with
  | Nullify | Invalid _ => true
  | _ => IsNull c i
  end.
Proof. intros; unfold colFinal; apply applyRows_row_null; lia. Qed.

Lemma colFinal_elem (g : nat -> RowOutcome A) n c i :
  (i < n)%nat -> List.length (elems c) = n ->
  elemAt (colFinal g n c) i =
  match g i with
  | Value v => v
  | _ => elemAt c i
  end.
Proof. intros; unfold colFinal; apply applyRows_row_elem; lia. Qed.

(** A body that tests [result.IsNull(i)] and reads [xs[i]] of the result
    column reads the row as the loop found it. *)
Lemma forRows_reads_row c (G : nat -> bool -> A -> RowOutcome A) n start w :
  forRows (fun i r => rowAct c setElem setRowNull (G i (IsNull r i) (elemAt r i)) i r)
    0 n start w =
  let (ws, r) := colEval c (fun i => G i (IsNull start i) (elemAt start i)) n start in
  (addWarnings ws w, r).
Proof.
  unfold colEval. rewrite <- forRows_rowAct.
  apply (forRows_view c setElem setRowNull
           (fun i r => (IsNull r i, elemAt r i))
           (fun i v => G i (fst v) (snd v))).
  intros o j i s Hji. now rewrite actState_other_null, actState_other_elem.
Qed.

End ColumnLoops.

(** What [colEval] says of one row. *)
Lemma colEval_ok {A} c (g : nat -> RowOutcome A) n start ws res :
  colEval c g n start = (ws, inr res) ->
  res = colFinal g n start /\ ws = rowWarnings g 0 n /\
  forall i, (i < n)%nat -> stops (StrictSQLMode c) (g i) = None.
Proof.
  intros H. apply evalRows_ok in H. destruct H as [H1 [H2 H3]].
  repeat split; auto. intros; apply H3; lia.
Qed.

Lemma colEval_total {A} c (g : nat -> RowOutcome A) n start :
  (forall i, (i < n)%nat -> stops (StrictSQLMode c) (g i) = None) ->
  colEval c g n start = (rowWarnings g 0 n, inr (colFinal g n start)).
Proof. intros H. apply evalRows_total. intros; apply H; lia. Qed.

Lemma colEval_err {A} c (g : nat -> RowOutcome A) n start ws e :
  colEval c g n start = (ws, inl e) ->
  exists j, (j < n)%nat /\ stops (StrictSQLMode c) (g j) = Some e.
Proof.
  intros H. apply evalRows_err in H. destruct H as [j [Hj [Hs _]]].
  exists j; split; auto; lia.
Qed.

Lemma colEval_stopped {A} c (g : nat -> RowOutcome A) n start i e :
  (i < n)%nat -> stops (StrictSQLMode c) (g i) = Some e ->
  exists ws e', colEval c g n start = (ws, inl e').
Proof. intros Hi Hs. eapply evalRows_stopped; eauto. lia. Qed.

(** * Scoped loans *)

Definition loanable (w : World) : Prop :=
  (List.length (onLoan (events (bufAllocator w))) < capacity (bufAllocator w))%nat.

Definition nextHandle (w : World) : nat := List.length (events (bufAllocator w)).

(** The world after a successful [get]. *)
Definition lent (w : World) : World :=
  {| bufAllocator := {| capacity := capacity (bufAllocator w);
                        events := EvGet (nextHandle w) :: events (bufAllocator w) |};
     warnings := warnings w |}.

Definition withWarnings (ws : list error) (w : World) : World :=
  {| bufAllocator := bufAllocator w; warnings := ws |}.

Lemma get_loanable et n w : loanable w -> get et n w = (lent w, inr (nextHandle w)).
Proof.
  unfold loanable, get. intros H.
  apply Nat.ltb_lt in H. now rewrite H.
Qed.

Lemma get_exhausted et n w : ~ loanable w -> get et n w = (w, inl AllocationError).
Proof.
  unfold loanable, get. intros H.
  apply Nat.ltb_nlt in H. now rewrite H.
Qed.

Lemma loanable_dec w : {loanable w} + {~ loanable w}.
Proof. unfold loanable. apply lt_dec. Qed.

Lemma VecEval_run {A} (e : Expression A) input w ws r :
  e input (warnings w) = (ws, r) -> VecEval e input w = (withWarnings ws w, r).
Proof. intros H. unfold VecEval. now rewrite H. Qed.

(** A loan, its deferred return, then the rest. *)
Lemma run_loan {B} et n (rest : nat -> M B) w :
  loanable w ->
  (h <- get et n ;; defer (put h) (rest h)) w =
  let (w2, r) := rest (nextHandle w) (lent w) in (put (nextHandle w) w2, r).
Proof.
  intros Hl. unfold bind at 1. rewrite (get_loanable _ _ _ Hl). reflexivity.
Qed.

Lemma run_arg {A B} (e : Expression A) input (K : Column A -> M B) w ws buf :
  e input (warnings w) = (ws, inr buf) ->
  (buf <- VecEval e input ;; K buf) w = K buf (withWarnings ws w).
Proof.
  intros He. unfold bind. now rewrite (VecEval_run _ _ _ _ _ He).
Qed.

(** The final world of a one-loan evaluator whose argument left the sink at
    [ws] and whose rows appended [ws']. *)
Definition afterRows (w : World) (ws ws' : list error) : World :=
  put (nextHandle w) (addWarnings ws' (withWarnings ws (lent w))).

Lemma afterRows_warnings w ws ws' : warnings (afterRows w ws ws') = ws ++ ws'.
Proof. reflexivity. Qed.

(** ** The integer evaluators with one datetime argument *)

(** The result column after [ResizeInt64(n, false)] and [MergeNulls(buf)]. *)
Definition prepared (n : nat) (result : Column Z) (src : list bool) : Column Z :=
  MergeNulls (ResizeInt64 n result) [src].

(** The row function of a loop that skips the rows already null. *)
Definition guarded {A} (start : Column A) (f : nat -> RowOutcome A) (i : nat)
  : RowOutcome A :=
  if IsNull start i then Keep else f i.

Lemma prepared_rows n result src : rows (prepared n result src) = n.
Proof. unfold prepared, ResizeInt64. now rewrite rows_MergeNulls1, rows_Resize. Qed.

Lemma prepared_elems n result src : List.length (elems (prepared n result src)) = n.
Proof. unfold prepared, ResizeInt64, MergeNulls; simpl. apply (elems_Resize 0 n result). Qed.

Lemma prepared_IsNull n result src i :
  (i < n)%nat -> IsNull (prepared n result src) i = nth i src false.
Proof.
  intros H. unfold prepared, ResizeInt64.
  rewrite IsNull_MergeNulls1 by (now rewrite rows_Resize).
  now rewrite IsNull_Resize.
Qed.

Lemma guarded_rows {A} (d : A) c (f : nat -> RowOutcome A) (body : nat -> Column A -> M (Column A))
    n start w :
  (forall i r w0, body i r w0 =
     rowAct c setElem setRowNull (if IsNull r i then Keep else f i) i r w0) ->
  forRows body 0 n start w =
  let (ws, r) := colEval c (guarded start f) n start in (addWarnings ws w, r).
Proof.
  intros Hb.
  rewrite (forRows_ext body
             (fun i r => rowAct c setElem setRowNull (if IsNull r i then Keep else f i) i r))
    by (intros; apply Hb).
  apply (forRows_reads_row d c (fun i null _ => if null then Keep else f i)).
Qed.

(** One loan, one datetime argument, the prepared result, guarded rows. *)
Lemma run_int_evaluator c (e : Expression Time) input result w ws buf
    (f : nat -> RowOutcome Z) (body : Column Time -> nat -> Column Z -> M (Column Z)) :
  loanable w ->
  e input (warnings w) = (ws, inr buf) ->
  (forall i r w0, body buf i r w0 =
     rowAct c setElem setRowNull (if IsNull r i then Keep else f i) i r w0) ->
  (h <- get ETDatetime (NumRows input) ;;
   defer (put h) (
     buf <- VecEval e input ;;
     forRows (body buf) 0 (NumRows input)
       (MergeNulls (ResizeInt64 (NumRows input) result) [nullBitmap buf]))) w =
  let start := prepared (NumRows input) result (nullBitmap buf) in
  let (ws', r) := colEval c (guarded start f) (NumRows input) start in
  (afterRows w ws ws', r).
Proof.
  intros Hl He Hb. rewrite (run_loan _ _ _ _ Hl). cbv beta.
  rewrite (run_arg e input _ (lent w) ws buf He).
  rewrite (guarded_rows 0 c f (body buf)) by auto.
  unfold prepared, afterRows.
  destruct (colEval _ _ _ _) as [ws' r]. reflexivity.
Qed.

(** The cells of the final column of such an evaluator. *)
Lemma int_final_null n result src (f : nat -> RowOutcome Z) i :
  (i < n)%nat -> nth i src false = true ->
  IsNull (colFinal (guarded (prepared n result src) f) n (prepared n result src)) i = true.
Proof.
  intros Hi Hn. rewrite colFinal_null by auto using prepared_rows.
  unfold guarded. rewrite prepared_IsNull, Hn; auto.
Qed.

Lemma int_final_value n result src (f : nat -> RowOutcome Z) i v :
  (i < n)%nat -> nth i src false = false -> f i = Value v ->
  let res := colFinal (guarded (prepared n result src) f) n (prepared n result src) in
  IsNull res i = false /\ Int64s res i = v.
Proof.
  intros Hi Hn Hf res. unfold res, Int64s.
  rewrite colFinal_null, (colFinal_elem 0) by auto using prepared_rows, prepared_elems.
  unfold guarded. rewrite !prepared_IsNull, Hn, Hf by auto.
  rewrite ?prepared_IsNull, ?Hn by auto; auto.
Qed.

Lemma int_final_invalid n result src (f : nat -> RowOutcome Z) i e :
  (i < n)%nat -> nth i src false = false -> f i = Invalid e ->
  IsNull (colFinal (guarded (prepared n result src) f) n (prepared n result src)) i = true.
Proof.
  intros Hi Hn Hf. rewrite colFinal_null by auto using prepared_rows.
  unfold guarded. rewrite prepared_IsNull, Hn, Hf; auto.
Qed.

Lemma guarded_live {A} (start : Column A) (f : nat -> RowOutcome A) i :
  IsNull start i = false -> guarded start f i = f i.
Proof. intros H. unfold guarded. now rewrite H. Qed.

Lemma guarded_stops {A} strict (start : Column A) (f : nat -> RowOutcome A) i e :
  stops strict (guarded start f i) = Some e ->
  IsNull start i = false /\ stops strict (f i) = Some e.
Proof.
  unfold guarded. destruct (IsNull start i); simpl; [discriminate|auto].
Qed.

(** The loop runs to its end when the session is not strict and no row
    aborts, or when no live row is invalid or aborts. *)
Lemma guarded_total {A} c n (start : Column A) (f : nat -> RowOutcome A) :
  (forall i, (i < n)%nat -> IsNull start i = false ->
             stops (StrictSQLMode c) (f i) = None) ->
  colEval c (guarded start f) n start =
  (rowWarnings (guarded start f) 0 n, inr (colFinal (guarded start f) n start)).
Proof.
  intros H. apply colEval_total. intros i Hi. unfold guarded.
  destruct (IsNull start i) eqn:E; auto.
Qed.

(** * MONTH and YEAR on the zero date *)

Definition wrongDate (t : Time) : error := ErrWrongValue DateTimeStr (ArgTime t).

(** The row of MONTH ([field := Month]) and of YEAR ([field := Year]). *)
Definition zeroDateRow (c : SessionVars) (field : MysqlTime -> Z) (ds : nat -> Time)
    (i : nat) : RowOutcome Z :=
  if IsZero (ds i) then
    if HasNoZeroDateMode (SQLMode c) then Invalid (wrongDate (ds i)) else Value 0
  else Value (field (CoreTime (ds i))).

Ltac run_one_loan Hl He :=
  rewrite (run_loan _ _ _ _ Hl); cbv beta zeta;
  rewrite (run_arg _ _ _ (lent _) _ _ He).

Ltac split_body :=
  intros; unfold rowAct;
  repeat match goal with
         | |- context [if ?b then _ else _] => destruct b eqn:?
         end; try reflexivity; try discriminate.

Lemma month_run b input result w ws buf :
  loanable w ->
  VecEvalTime (args b 0) input (warnings w) = (ws, inr buf) ->
  builtinMonthSig_vecEvalInt b input result w =
  let start := prepared (NumRows input) result (nullBitmap buf) in
  let (ws', r) := colEval (ctx b) (guarded start (zeroDateRow (ctx b) Month (Times buf)))
                    (NumRows input) start in
  (afterRows w ws ws', r).
Proof.
  intros Hl He. unfold builtinMonthSig_vecEvalInt. run_one_loan Hl He.
  rewrite (guarded_rows 0 (ctx b) (zeroDateRow (ctx b) Month (Times buf))).
  - unfold prepared, afterRows. destruct (colEval _ _ _ _); reflexivity.
  - unfold zeroDateRow, wrongDate. split_body.
Qed.

Lemma year_run b input result w ws buf :
  loanable w ->
  VecEvalTime (args b 0) input (warnings w) = (ws, inr buf) ->
  builtinYearSig_vecEvalInt b input result w =
  let start := prepared (NumRows input) result (nullBitmap buf) in
  let (ws', r) := colEval (ctx b) (guarded start (zeroDateRow (ctx b) Year (Times buf)))
                    (NumRows input) start in
  (afterRows w ws ws', r).
Proof.
  intros Hl He. unfold builtinYearSig_vecEvalInt. run_one_loan Hl He.
  rewrite (guarded_rows 0 (ctx b) (zeroDateRow (ctx b) Year (Times buf))).
  - unfold prepared, afterRows. destruct (colEval _ _ _ _); reflexivity.
  - unfold zeroDateRow, wrongDate. split_body.
Qed.

(** What a batch call does with a non-null row [i] that holds the zero date,
    by session mode: [ws] is the warning sink as the argument expression
    left it, [run] the final world and the returned value. *)
Definition zeroDatePolicy (c : SessionVars) (ws : list error) (ds : nat -> Time)
    (i : nat) (run : World * (error + Column Z)) : Prop :=
  (HasNoZeroDateMode (SQLMode c) = false ->
     exists res, snd run = inr res /\ IsNull res i = false /\ Int64s res i = 0 /\
                 warnings (fst run) = ws) /\
  (HasNoZeroDateMode (SQLMode c) = true -> StrictSQLMode c = false ->
     exists res, snd run = inr res /\ IsNull res i = true /\
                 In (wrongDate (ds i)) (warnings (fst run))) /\
  (HasNoZeroDateMode (SQLMode c) = true -> StrictSQLMode c = true ->
     exists j, IsZero (ds j) = true /\ snd run = inl (wrongDate (ds j)) /\
               warnings (fst run) = ws).

Lemma zeroDateRow_off c field ds i :
  HasNoZeroDateMode (SQLMode c) = false -> forall e, zeroDateRow c field ds i <> Invalid e.
Proof.
  intros H e. unfold zeroDateRow. rewrite H. destruct (IsZero (ds i)); discriminate.
Qed.

Lemma zeroDateRow_source c field ds i e :
  zeroDateRow c field ds i = Invalid e -> IsZero (ds i) = true /\ e = wrongDate (ds i).
Proof.
  unfold zeroDateRow.
  destruct (IsZero (ds i)); [|discriminate].
  destruct (HasNoZeroDateMode (SQLMode c)); [|discriminate].
  intros H; inversion H; auto.
Qed.

Lemma zeroDateRow_stops c field ds i e :
  stops (StrictSQLMode c) (zeroDateRow c field ds i) = Some e ->
  HasNoZeroDateMode (SQLMode c) = true /\ StrictSQLMode c = true /\
  IsZero (ds i) = true /\ e = wrongDate (ds i).
Proof.
  unfold zeroDateRow.
  destruct (IsZero (ds i)); [|discriminate].
  destruct (HasNoZeroDateMode (SQLMode c)); [|discriminate].
  simpl. destruct (StrictSQLMode c); [|discriminate].
  intros H; inversion H; auto.
Qed.

Lemma zeroDate_rows c field n result src ds w ws i :
  (i < n)%nat -> nth i src false = false -> IsZero (ds i) = true ->
  zeroDatePolicy c ws ds i
    (let start := prepared n result src in
     let (ws', r) := colEval c (guarded start (zeroDateRow c field ds)) n start in
     (afterRows w ws ws', r)).
Proof.
  intros Hi Hn Hz. cbv zeta.
  set (start := prepared n result src).
  set (g := guarded start (zeroDateRow c field ds)).
  assert (Hlive : IsNull start i = false) by (unfold start; rewrite prepared_IsNull; auto).
  unfold zeroDatePolicy. repeat split.
  - intros Hoff.
    assert (Hv : zeroDateRow c field ds i = Value 0)
      by (unfold zeroDateRow; now rewrite Hz, Hoff).
    unfold g. rewrite guarded_total.
    + rewrite rowWarnings_none.
      * cbn [fst snd]. eexists; split; [reflexivity|].
        destruct (int_final_value n result src _ i 0 Hi Hn Hv) as [H1 H2].
        rewrite afterRows_warnings, app_nil_r. auto.
      * intros j Hj e. unfold guarded.
        destruct (IsNull start j); [discriminate|]. now apply zeroDateRow_off.
    + intros j Hj _. destruct (stops _ _) eqn:Es; auto.
      apply zeroDateRow_stops in Es. destruct Es as [Hon _]. congruence.
  - intros Hon Hs.
    assert (Hv : zeroDateRow c field ds i = Invalid (wrongDate (ds i)))
      by (unfold zeroDateRow; now rewrite Hz, Hon).
    unfold g. rewrite guarded_total.
    + cbn [fst snd]. eexists; split; [reflexivity|]. split.
      * eapply int_final_invalid; eauto.
      * rewrite afterRows_warnings. apply in_or_app; right.
        apply rowWarnings_In with (i := i); [lia|].
        rewrite guarded_live; auto.
    + intros j Hj _. destruct (stops _ _) eqn:Es; auto.
      apply zeroDateRow_stops in Es. destruct Es as [_ [Hstrict _]]. congruence.
  - intros Hon Hs.
    assert (Hstop : stops (StrictSQLMode c) (g i) = Some (wrongDate (ds i))).
    { unfold g. rewrite guarded_live by auto. unfold zeroDateRow.
      rewrite Hz, Hon. simpl. now rewrite Hs. }
    destruct (colEval_stopped c g n start i _ Hi Hstop) as [ws' [e' E]].
    rewrite E. destruct (colEval_err _ _ _ _ _ _ E) as [j [Hj Hsj]].
    apply guarded_stops in Hsj. destruct Hsj as [_ Hsj].
    apply zeroDateRow_stops in Hsj. destruct Hsj as [_ [_ [Hzj ->]]].
    exists j. cbn [fst snd]. repeat split; auto.
    rewrite afterRows_warnings.
    assert (Hw : ws' = []); [|subst; apply app_nil_r].
    unfold colEval in E. rewrite Hs in E.
    assert (Hsil := evalRows_strict_silent setElem setRowNull g 0 n start).
    rewrite E in Hsil. exact Hsil.
Qed.

(** ** Concrete sessions and batches used by the examples *)

Definition constExpr {A} (c : Column A) : Expression A := fun _ ws => (ws, inr c).
Definition noExpr {A} : Expression A := fun _ ws => (ws, inl (ErrExternal 0)).

Definition timeArg (c : Column Time) : ExpressionI :=
  {| VecEvalInt := noExpr; VecEvalReal := noExpr;
     VecEvalTime := constExpr c; VecEvalString := noExpr |}.
Definition intArg (c : Column Z) : ExpressionI :=
  {| VecEvalInt := constExpr c; VecEvalReal := noExpr;
     VecEvalTime := noExpr; VecEvalString := noExpr |}.
Definition realArg (c : Column float) : ExpressionI :=
  {| VecEvalInt := noExpr; VecEvalReal := constExpr c;
     VecEvalTime := noExpr; VecEvalString := noExpr |}.
Definition stringArg (c : Column string) : ExpressionI :=
  {| VecEvalInt := noExpr; VecEvalReal := noExpr;
     VecEvalTime := noExpr; VecEvalString := constExpr c |}.

Definition session (noZeroDate strict : bool) : SessionVars :=
  {| SQLMode := {| NoZeroDate := noZeroDate; NoZeroInDate := false |};
     StrictSQLMode := strict |}.

Definition freshWorld : World :=
  {| bufAllocator := {| capacity := 8; events := [] |}; warnings := [] |}.

Definition emptyInts : Column Z := mkColumn [] [].

Definition dateOf (y m d : Z) : Time := mkTime (FromDate y m d 0 0 0 0) TypeDate 0.

(** A one-row batch whose datetime argument is the zero date, not null. *)
Definition zeroDateBatch : Column Time := mkColumn [false] [dateOf 0 0 0].

Definition oneRow : Chunk := {| NumRows := 1 |}.

Definition onTime (c : SessionVars) (col : Column Time) : baseBuiltinFunc :=
  {| ctx := c; args := fun _ => timeArg col |}.

Lemma freshWorld_loanable : loanable freshWorld.
Proof. unfold loanable; simpl; lia. Qed.

(** C2, amended. For every batch and every row whose datetime argument is
    non-null and equal to the literal zero date, the vectorized MONTH and YEAR
    evaluators return 0 for that row, without error or warning, when the
    session's NoZeroDate mode is off. When NoZeroDate is on, the row goes to
    the invalid-time policy: in a non-strict session the row is set null and
    the wrong-value error is appended to the warning sink, the batch call
    succeeding; in a strict session the policy is fatal and the batch call
    returns the wrong-value error of a zero-date row. *)
Theorem month_year_zero_date_policy :
  forall (b : baseBuiltinFunc) (input : Chunk) (result : Column Z) (w : World)
         (ws : list error) (buf : Column Time) (i : nat),
    loanable w ->
    VecEvalTime (args b 0) input (warnings w) = (ws, inr buf) ->
    (i < NumRows input)%nat ->
    IsNull buf i = false ->
    IsZero (Times buf i) = true ->
    zeroDatePolicy (ctx b) ws (Times buf) i (builtinMonthSig_vecEvalInt b input result w) /\
    zeroDatePolicy (ctx b) ws (Times buf) i (builtinYearSig_vecEvalInt b input result w).
Proof.
  intros b input result w ws buf i Hl He Hi Hn Hz. split.
  - rewrite (month_run _ _ _ _ _ _ Hl He). now apply zeroDate_rows.
  - rewrite (year_run _ _ _ _ _ _ Hl He). now apply zeroDate_rows.
Qed.

Lemma month_year_zero_date_policy_witness :
  loanable freshWorld /\
  IsNull zeroDateBatch 0 = false /\
  IsZero (Times zeroDateBatch 0) = true /\
  zeroDatePolicy (session true false) [] (Times zeroDateBatch) 0
    (builtinMonthSig_vecEvalInt (onTime (session true false) zeroDateBatch)
       oneRow emptyInts freshWorld) /\
  zeroDatePolicy (session true false) [] (Times zeroDateBatch) 0
    (builtinYearSig_vecEvalInt (onTime (session true false) zeroDateBatch)
       oneRow emptyInts freshWorld).
Proof.
  split; [exact freshWorld_loanable|].
  split; [reflexivity|]. split; [reflexivity|].
  apply (month_year_zero_date_policy (onTime (session true false) zeroDateBatch)
           oneRow emptyInts freshWorld [] zeroDateBatch 0).
  - exact freshWorld_loanable.
  - reflexivity.
  - simpl; lia.
  - reflexivity.
  - reflexivity.
Defined.

(** C2 as stated fails: with NoZeroDate on in a strict session, MONTH over a
    one-row batch holding the zero date returns the wrong-value error; the
    call does not succeed and nothing is appended to the warning sink. *)
Lemma month_zero_date_strict_fails :
  let b := onTime (session true true) zeroDateBatch in
  let run := builtinMonthSig_vecEvalInt b oneRow emptyInts freshWorld in
  HasNoZeroDateMode (SQLMode (ctx b)) = true /\
  IsNull zeroDateBatch 0 = false /\
  IsZero (Times zeroDateBatch 0) = true /\
  snd run = inl (wrongDate (dateOf 0 0 0)) /\
  warnings (fst run) = [] /\
  ~ (exists res, snd run = inr res /\ IsNull res 0 = true /\
                 In (wrongDate (dateOf 0 0 0)) (warnings (fst run))).
Proof.
  simpl. repeat split; try reflexivity.
  intros [res [H _]]. vm_compute in H. discriminate.
Qed.

(** * The loan discipline *)

(** A computation that leaves the allocator as it found it. *)
Definition poolStable {A} (m : M A) : Prop :=
  forall w, bufAllocator (fst (m w)) = bufAllocator w.

Lemma poolStable_ret {A} (a : A) : poolStable (ret a).
Proof. intros w; reflexivity. Qed.

Lemma poolStable_fail {A} (e : error) : poolStable (@fail A e).
Proof. intros w; reflexivity. Qed.

Lemma poolStable_bind {A B} (m : M A) (k : A -> M B) :
  poolStable m -> (forall a, poolStable (k a)) -> poolStable (bind m k).
Proof.
  intros Hm Hk w. unfold bind. specialize (Hm w).
  destruct (m w) as [w' [e|a]]; simpl in *; auto.
  rewrite Hk. auto.
Qed.

Lemma poolStable_handle c e : poolStable (handleInvalidTimeError c e).
Proof.
  intros w. unfold handleInvalidTimeError. destruct (StrictSQLMode c); reflexivity.
Qed.

Lemma poolStable_VecEval {A} (e : Expression A) input : poolStable (VecEval e input).
Proof. intros w. unfold VecEval. destruct (e input (warnings w)); reflexivity. Qed.

Lemma poolStable_forRows {S} (body : nat -> S -> M S) lo k st :
  (forall i s, poolStable (body i s)) -> poolStable (forRows body lo k st).
Proof.
  intros Hb. revert lo st; induction k as [|k IH]; intros lo st; simpl.
  - apply poolStable_ret.
  - apply poolStable_bind; auto.
Qed.

Create HintDb pool.

#[local] Hint Resolve poolStable_ret poolStable_fail poolStable_handle
  poolStable_VecEval : pool.

Ltac pool_stable :=
  repeat first
    [ apply poolStable_forRows; intros
    | apply poolStable_bind; intros
    | progress auto with pool
    | match goal with |- poolStable (if ?c then _ else _) => destruct c end
    | match goal with |- poolStable (match ?c with _ => _ end) => destruct c end
    | match goal with |- poolStable (let x := _ in _) => cbv zeta end ].

(** A loan followed by its deferred return: on every path the events of the
    call are either none (the pool was exhausted) or one [get] and one [put]
    of the same buffer, and the buffers on loan are those on loan before. *)
Lemma scoped_loan_balanced {A} et n (rest : nat -> M A) w :
  (forall h, poolStable (rest h)) ->
  let run := (h <- get et n ;; defer (put h) (rest h)) w in
  (events (bufAllocator (fst run)) = events (bufAllocator w) \/
   events (bufAllocator (fst run)) =
     EvPut (nextHandle w) :: EvGet (nextHandle w) :: events (bufAllocator w)) /\
  onLoan (events (bufAllocator (fst run))) = onLoan (events (bufAllocator w)).
Proof.
  intros Hs. unfold bind.
  destruct (loanable_dec w) as [Hl|Hl].
  - rewrite (get_loanable _ _ _ Hl). unfold defer.
    specialize (Hs (nextHandle w) (lent w)).
    destruct (rest (nextHandle w) (lent w)) as [w2 r]; simpl in *.
    rewrite Hs. simpl. split; [now right|]. now rewrite Nat.eqb_refl.
  - rewrite (get_exhausted _ _ _ Hl). simpl. auto.
Qed.

(** MONTH returns its buffer on every exit path. *)
Lemma month_loans_balanced b input result w :
  onLoan (events (bufAllocator (fst (builtinMonthSig_vecEvalInt b input result w)))) =
  onLoan (events (bufAllocator w)).
Proof.
  unfold builtinMonthSig_vecEvalInt.
  apply (scoped_loan_balanced ETDatetime (NumRows input)).
  intros h. pool_stable.
Qed.

(** So does the one-argument YEARWEEK. *)
Lemma yearweek_loans_balanced YearWeek b input result w :
  onLoan (events (bufAllocator
    (fst (builtinYearWeekWithoutModeSig_vecEvalInt YearWeek b input result w)))) =
  onLoan (events (bufAllocator w)).
Proof.
  unfold builtinYearWeekWithoutModeSig_vecEvalInt.
  apply (scoped_loan_balanced ETDatetime (NumRows input)).
  intros h. pool_stable.
Qed.

(** The two-argument YEARWEEK never calls [put]: every buffer it obtains is
    still on loan when it returns, on every exit path. *)
Lemma yearweek_mode_never_puts YearWeek b input result w :
  let run := builtinYearWeekWithModeSig_vecEvalInt YearWeek b input result w in
  forall id, countPuts id (events (bufAllocator (fst run))) =
             countPuts id (events (bufAllocator w)).
Proof.
  intros run id. unfold run, builtinYearWeekWithModeSig_vecEvalInt.
  unfold bind at 1.
  destruct (loanable_dec w) as [Hl|Hl];
    [rewrite (get_loanable _ _ _ Hl)|rewrite (get_exhausted _ _ _ Hl); reflexivity].
  unfold bind at 1.
  assert (H1 := poolStable_VecEval (VecEvalTime (args b 0)) input (lent w)).
  destruct (VecEval (VecEvalTime (args b 0)) input (lent w)) as [w1 [e|buf1]];
    simpl in H1; [simpl; now rewrite H1|].
  unfold bind at 1.
  destruct (loanable_dec w1) as [Hl1|Hl1];
    [rewrite (get_loanable _ _ _ Hl1)|rewrite (get_exhausted _ _ _ Hl1); simpl; now rewrite H1].
  match goal with |- context [bind ?m ?k (lent w1)] =>
    assert (H2 : poolStable (bind m k)) by pool_stable
  end.
  rewrite H2. simpl. now rewrite H1.
Qed.

(** A one-row batch for YEARWEEK(date, mode): 2024-01-01 and mode 0. *)
Definition newYear2024 : Column Time := mkColumn [false] [dateOf 2024 1 1].
Definition modeZero : Column Z := mkColumn [false] [0].

Definition onDateAndMode (c : SessionVars) (d : Column Time) (m : Column Z)
  : baseBuiltinFunc :=
  {| ctx := c;
     args := fun k => match k with O => timeArg d | _ => intArg m end |}.

(** C1 fails on the code. [builtinYearWeekWithModeSig.vecEvalInt] obtains two
    buffers and has no [put] for either: on the one-row batch
    YEARWEEK('2024-01-01', 0) the call succeeds, the events of the call are
    the two [get]s alone and both buffers are still on loan on return. On the
    same world MONTH and the one-argument YEARWEEK leave nothing on loan. *)
Theorem yearweek_mode_leaves_buffers_on_loan :
  forall YearWeek : MysqlTime -> Z -> Z * Z,
    let b := onDateAndMode (session false false) newYear2024 modeZero in
    let run := builtinYearWeekWithModeSig_vecEvalInt YearWeek b oneRow emptyInts freshWorld in
    (exists res, snd run = inr res) /\
    events (bufAllocator (fst run)) = [EvGet 1; EvGet 0] /\
    onLoan (events (bufAllocator (fst run))) = [1%nat; 0%nat] /\
    onLoan (events (bufAllocator
      (fst (builtinYearWeekWithoutModeSig_vecEvalInt YearWeek b oneRow emptyInts freshWorld)))) = [] /\
    onLoan (events (bufAllocator
      (fst (builtinMonthSig_vecEvalInt b oneRow emptyInts freshWorld)))) = [].
Proof.
  intros YearWeek b run. repeat split.
  - eexists. reflexivity.
Qed.

(** * YEARWEEK *)

(** The world after two loans that were not returned. *)
Definition afterTwoLoans (w : World) (ws1 ws2 ws' : list error) : World :=
  addWarnings ws' (withWarnings ws2 (lent (withWarnings ws1 (lent w)))).

Definition loanable2 (w : World) : Prop :=
  (List.length (onLoan (events (bufAllocator w))) + 1 < capacity (bufAllocator w))%nat.

Lemma loanable2_fst w : loanable2 w -> loanable w.
Proof. unfold loanable2, loanable; lia. Qed.

Lemma loanable2_snd w ws : loanable2 w -> loanable (withWarnings ws (lent w)).
Proof. unfold loanable2, loanable; simpl; lia. Qed.

Lemma run_get {B} et n (rest : nat -> M B) w :
  loanable w -> (h <- get et n ;; rest h) w = rest (nextHandle w) (lent w).
Proof.
  intros Hl. unfold bind at 1. now rewrite (get_loanable _ _ _ Hl).
Qed.

Section YearWeekClaims.

Variable YearWeek : MysqlTime -> Z -> Z * Z.

Definition yearWeekRow (ds : nat -> Time) (i : nat) : RowOutcome Z :=
  if InvalidZero (ds i) then Invalid (wrongDate (ds i))
  else Value (encodeYearWeek (YearWeek (CoreTime (ds i)) 0)).

Definition yearWeekModeRow (ds : nat -> Time) (buf2 : Column Z) (i : nat) : RowOutcome Z :=
  if IsZero (ds i) then Invalid (wrongDate (ds i))
  else Value (encodeYearWeek
                (YearWeek (CoreTime (ds i)) (if IsNull buf2 i then 0 else Int64s buf2 i))).

Lemma yearweek_run b input result w ws buf :
  loanable w ->
  VecEvalTime (args b 0) input (warnings w) = (ws, inr buf) ->
  builtinYearWeekWithoutModeSig_vecEvalInt YearWeek b input result w =
  let start := prepared (NumRows input) result (nullBitmap buf) in
  let (ws', r) := colEval (ctx b) (guarded start (yearWeekRow (Times buf)))
                    (NumRows input) start in
  (afterRows w ws ws', r).
Proof.
  intros Hl He. unfold builtinYearWeekWithoutModeSig_vecEvalInt. run_one_loan Hl He.
  rewrite (guarded_rows 0 (ctx b) (yearWeekRow (Times buf))).
  - unfold prepared, afterRows. destruct (colEval _ _ _ _); reflexivity.
  - unfold yearWeekRow, wrongDate. split_body.
Qed.

Lemma yearweek_mode_run b input result w ws1 buf1 ws2 buf2 :
  loanable2 w ->
  VecEvalTime (args b 0) input (warnings w) = (ws1, inr buf1) ->
  VecEvalInt (args b 1) input ws1 = (ws2, inr buf2) ->
  builtinYearWeekWithModeSig_vecEvalInt YearWeek b input result w =
  let start := prepared (NumRows input) result (nullBitmap buf1) in
  let (ws', r) := colEval (ctx b) (guarded start (yearWeekModeRow (Times buf1) buf2))
                    (NumRows input) start in
  (afterTwoLoans w ws1 ws2 ws', r).
Proof.
  intros Hl He1 He2. unfold builtinYearWeekWithModeSig_vecEvalInt.
  rewrite (run_get _ _ _ _ (loanable2_fst _ Hl)). cbv beta.
  rewrite (run_arg (VecEvalTime (args b 0)) input _ (lent w) ws1 buf1 He1).
  rewrite (run_get _ _ _ _ (loanable2_snd _ ws1 Hl)). cbv beta.
  rewrite (run_arg (VecEvalInt (args b 1)) input _ (lent (withWarnings ws1 (lent w))) ws2 buf2 He2).
  cbv zeta.
  rewrite (guarded_rows 0 (ctx b) (yearWeekModeRow (Times buf1) buf2)).
  - unfold prepared, afterTwoLoans. destruct (colEval _ _ _ _); reflexivity.
  - unfold yearWeekModeRow, wrongDate. split_body.
Qed.

Lemma encodeYearWeek_nonneg yw : 0 <= encodeYearWeek yw.
Proof.
  unfold encodeYearWeek. destruct yw as [year week].
  destruct (wrap64 (week + year * 100) <? 0) eqn:E.
  - unfold MaxUint32; lia.
  - apply Z.ltb_ge in E; lia.
Qed.

(** A live row with a value, in a call that returned a column. *)
Lemma guarded_value_row c n result src (f : nat -> RowOutcome Z) i v ws res :
  (i < n)%nat -> nth i src false = false -> f i = Value v ->
  colEval c (guarded (prepared n result src) f) n (prepared n result src) = (ws, inr res) ->
  IsNull res i = false /\ Int64s res i = v.
Proof.
  intros Hi Hn Hf E. apply colEval_ok in E. destruct E as [-> _].
  now apply int_final_value.
Qed.

End YearWeekClaims.

Lemma InvalidZero_IsZero t : InvalidZero t = false -> IsZero t = false.
Proof.
  unfold InvalidZero, IsZero. intros H. apply orb_false_elim in H. destruct H as [Hm _].
  rewrite Hm. now rewrite andb_false_r.
Qed.

(** The same signature with another expression as its second argument. *)
Definition withArg1 (b : baseBuiltinFunc) (e : ExpressionI) : baseBuiltinFunc :=
  {| ctx := ctx b;
     args := fun k => match k with 1%nat => e | _ => args b k end |}.

(** An instance of [YearWeek] for the examples: the week calculation of
    MySQL ([calc_week] with the year flag set), on the day number. *)
Definition calcWeekday (daynr : Z) (sundayFirst : bool) : Z :=
  goMod (daynr + 5 + (if sundayFirst then 1 else 0)) 7.

Definition weekMode (mode : Z) : Z :=
  let weekFormat := Z.land mode 7 in
  if Z.land weekFormat 1 =? 0 then Z.lxor weekFormat 4 else weekFormat.

Definition calcWeek (t : MysqlTime) (wb : Z) : Z * Z :=
  let daynr := calcDaynr (Year t) (Month t) (Day t) in
  let firstDaynr := calcDaynr (Year t) 1 1 in
  let mondayFirst := negb (Z.land wb 1 =? 0) in
  let weekYear := negb (Z.land wb 2 =? 0) in
  let firstWeekday := negb (Z.land wb 4 =? 0) in
  let weekday := calcWeekday firstDaynr (negb mondayFirst) in
  let year := Year t in
  let early := (Month t =? 1) && (Day t <=? 7 - weekday) in
  if early && negb weekYear &&
     ((firstWeekday && negb (weekday =? 0)) || (negb firstWeekday && (4 <=? weekday)))
  then (year, 0)
  else
    let weekYear := weekYear || early in
    let year' := if early then year - 1 else year in
    let firstDaynr' := if early then firstDaynr - calcDaysInYear year' else firstDaynr in
    let weekday' := if early then goMod (weekday + 53 * 7 - calcDaysInYear year') 7
                    else weekday in
    let days :=
      if (firstWeekday && negb (weekday' =? 0)) || (negb firstWeekday && (4 <=? weekday'))
      then daynr - (firstDaynr' + 7 - weekday')
      else daynr - (firstDaynr' - weekday') in
    let weekday'' := goMod (weekday' + calcDaysInYear year') 7 in
    if weekYear && (52 * 7 <=? days) &&
       ((negb firstWeekday && (weekday'' <? 4)) || (firstWeekday && (weekday'' =? 0)))
    then (year' + 1, 1)
    else (year', goDiv days 7 + 1).

Definition mysqlYearWeek (t : MysqlTime) (mode : Z) : Z * Z :=
  calcWeek t (Z.lor (weekMode mode) 2).

(** C5. For every date that is not an invalid zero and every week-numbering
    mode, the vectorized YEARWEEK evaluators give the row a non-negative
    value: [week + year*100] is computed as a signed 64-bit integer and
    replaced by the unsigned 32-bit maximum, 4294967295, whenever it is
    negative. The call returns a column whenever the session is not strict or
    no non-null row holds an invalid date. *)
Theorem yearweek_never_negative :
  forall (YearWeek : MysqlTime -> Z -> Z * Z) (b : baseBuiltinFunc) (input : Chunk)
         (result : Column Z) (w : World) (ws1 ws2 : list error)
         (buf1 : Column Time) (buf2 : Column Z) (i : nat),
    loanable2 w ->
    VecEvalTime (args b 0) input (warnings w) = (ws1, inr buf1) ->
    VecEvalInt (args b 1) input ws1 = (ws2, inr buf2) ->
    (i < NumRows input)%nat ->
    IsNull buf1 i = false ->
    InvalidZero (Times buf1 i) = false ->
    let d := CoreTime (Times buf1 i) in
    let mode := if IsNull buf2 i then 0 else Int64s buf2 i in
    let run1 := builtinYearWeekWithoutModeSig_vecEvalInt YearWeek b input result w in
    let run2 := builtinYearWeekWithModeSig_vecEvalInt YearWeek b input result w in
    (forall year week,
        encodeYearWeek (year, week) =
          (if wrap64 (week + year * 100) <? 0 then 4294967295
           else wrap64 (week + year * 100)) /\
        0 <= encodeYearWeek (year, week)) /\
    (forall res, snd run1 = inr res ->
        IsNull res i = false /\ Int64s res i = encodeYearWeek (YearWeek d 0) /\
        0 <= Int64s res i) /\
    (forall res, snd run2 = inr res ->
        IsNull res i = false /\ Int64s res i = encodeYearWeek (YearWeek d mode) /\
        0 <= Int64s res i) /\
    ((StrictSQLMode (ctx b) = false \/
      forall j, (j < NumRows input)%nat -> IsNull buf1 j = false ->
                InvalidZero (Times buf1 j) = false) ->
     (exists res, snd run1 = inr res) /\ (exists res, snd run2 = inr res)).
Proof.
  intros YearWeek b input result w ws1 ws2 buf1 buf2 i Hl He1 He2 Hi Hn Hz d mode run1 run2.
  assert (Hrun1 := yearweek_run YearWeek b input result w ws1 buf1 (loanable2_fst _ Hl) He1).
  assert (Hrun2 := yearweek_mode_run YearWeek b input result w ws1 buf1 ws2 buf2 Hl He1 He2).
  cbv zeta in Hrun1, Hrun2. fold run1 in Hrun1. fold run2 in Hrun2.
  set (start := prepared (NumRows input) result (nullBitmap buf1)) in *.
  split; [|split; [|split]].
  - intros year week. split; [reflexivity|apply encodeYearWeek_nonneg].
  - intros res Hres. rewrite Hrun1 in Hres. clear Hrun1 Hrun2.
    destruct (colEval _ _ _ _) as [ws' r] eqn:E. simpl in Hres. rewrite Hres in E.
    assert (Hf : yearWeekRow YearWeek (Times buf1) i = Value (encodeYearWeek (YearWeek d 0)))
      by (unfold yearWeekRow; now rewrite Hz).
    destruct (guarded_value_row _ _ _ _ _ i _ _ _ Hi Hn Hf E) as [H1 H2].
    rewrite H2. auto using encodeYearWeek_nonneg.
  - intros res Hres. rewrite Hrun2 in Hres. clear Hrun1 Hrun2.
    destruct (colEval _ _ _ _) as [ws' r] eqn:E. simpl in Hres. rewrite Hres in E.
    assert (Hf : yearWeekModeRow YearWeek (Times buf1) buf2 i =
                 Value (encodeYearWeek (YearWeek d mode)))
      by (unfold yearWeekModeRow; now rewrite (InvalidZero_IsZero _ Hz)).
    destruct (guarded_value_row _ _ _ _ _ i _ _ _ Hi Hn Hf E) as [H1 H2].
    rewrite H2. auto using encodeYearWeek_nonneg.
  - intros Hok. split.
    + rewrite Hrun1. fold start. rewrite guarded_total; [simpl; eauto|].
      intros j Hj Hlive. unfold start in Hlive. rewrite prepared_IsNull in Hlive by auto.
      unfold yearWeekRow. destruct Hok as [Hs|Hv].
      * rewrite Hs. destruct (InvalidZero (Times buf1 j)); reflexivity.
      * now rewrite (Hv j Hj Hlive).
    + rewrite Hrun2. fold start. rewrite guarded_total; [simpl; eauto|].
      intros j Hj Hlive. unfold start in Hlive. rewrite prepared_IsNull in Hlive by auto.
      unfold yearWeekModeRow. destruct Hok as [Hs|Hv].
      * rewrite Hs. destruct (IsZero (Times buf1 j)); reflexivity.
      * now rewrite (InvalidZero_IsZero _ (Hv j Hj Hlive)).
Qed.

Lemma yearweek_never_negative_witness :
  let b := onDateAndMode (session false false) newYear2024 modeZero in
  (exists res,
     snd (builtinYearWeekWithoutModeSig_vecEvalInt mysqlYearWeek b oneRow emptyInts freshWorld)
       = inr res /\ Int64s res 0 = 202353) /\
  (exists res,
     snd (builtinYearWeekWithModeSig_vecEvalInt mysqlYearWeek b oneRow emptyInts freshWorld)
       = inr res /\ 0 <= Int64s res 0).
Proof.
  intros b.
  destruct (yearweek_never_negative mysqlYearWeek b oneRow emptyInts freshWorld
              [] [] newYear2024 modeZero 0) as [_ [H1 [H2 H3]]];
    try reflexivity; try (unfold loanable2; simpl; lia); try (simpl; lia).
  destruct H3 as [[r1 E1] [r2 E2]]; [now left|].
  split.
  - exists r1. split; [exact E1|]. destruct (H1 r1 E1) as [_ [Hv _]]. rewrite Hv. reflexivity.
  - exists r2. split; [exact E2|]. destruct (H2 r2 E2) as [_ [_ Hv]]. exact Hv.
Defined.

(** C10. In the two-argument YEARWEEK only the nulls of the date argument
    are merged into the result: a row whose date is non-null and not the zero
    date and whose mode is NULL is not null in the result; its mode is taken
    to be 0 and it receives the value of YEARWEEK(date, 0), that is the value
    the row has when the mode argument is the non-null integer 0. *)
Theorem yearweek_null_mode_counts_as_zero :
  forall (YearWeek : MysqlTime -> Z -> Z * Z) (b : baseBuiltinFunc) (input : Chunk)
         (result : Column Z) (w : World) (ws1 ws2 : list error)
         (buf1 : Column Time) (buf2 : Column Z) (i : nat),
    loanable2 w ->
    VecEvalTime (args b 0) input (warnings w) = (ws1, inr buf1) ->
    VecEvalInt (args b 1) input ws1 = (ws2, inr buf2) ->
    (i < NumRows input)%nat ->
    IsNull buf1 i = false ->
    IsZero (Times buf1 i) = false ->
    IsNull buf2 i = true ->
    let run := builtinYearWeekWithModeSig_vecEvalInt YearWeek b input result w in
    let v := encodeYearWeek (YearWeek (CoreTime (Times buf1 i)) 0) in
    (forall res, snd run = inr res -> IsNull res i = false /\ Int64s res i = v) /\
    ((StrictSQLMode (ctx b) = false \/
      forall j, (j < NumRows input)%nat -> IsNull buf1 j = false ->
                IsZero (Times buf1 j) = false) ->
     exists res, snd run = inr res) /\
    (forall (e : ExpressionI) (ws2' : list error) (buf2' : Column Z) (res' : Column Z),
        VecEvalInt e input ws1 = (ws2', inr buf2') ->
        IsNull buf2' i = false -> Int64s buf2' i = 0 ->
        snd (builtinYearWeekWithModeSig_vecEvalInt YearWeek (withArg1 b e) input result w)
          = inr res' ->
        IsNull res' i = false /\ Int64s res' i = v).
Proof.
  intros YearWeek b input result w ws1 ws2 buf1 buf2 i Hl He1 He2 Hi Hn Hz Hm run v.
  assert (Hrun := yearweek_mode_run YearWeek b input result w ws1 buf1 ws2 buf2 Hl He1 He2).
  cbv zeta in Hrun. fold run in Hrun.
  split; [|split].
  - intros res Hres. rewrite Hrun in Hres. clear Hrun.
    destruct (colEval _ _ _ _) as [ws' r] eqn:E. simpl in Hres. rewrite Hres in E.
    assert (Hf : yearWeekModeRow YearWeek (Times buf1) buf2 i = Value v)
      by (unfold yearWeekModeRow; now rewrite Hz, Hm).
    apply (guarded_value_row _ _ _ _ _ i v _ _ Hi Hn Hf E).
  - intros Hok. rewrite Hrun. rewrite guarded_total; [simpl; eauto|].
    intros j Hj Hlive. rewrite prepared_IsNull in Hlive by auto.
    unfold yearWeekModeRow. destruct Hok as [Hs|Hv].
    + rewrite Hs. destruct (IsZero (Times buf1 j)); reflexivity.
    + now rewrite (Hv j Hj Hlive).
  - intros e ws2' buf2' res' He2' Hn' Hv' Hres.
    rewrite (yearweek_mode_run YearWeek (withArg1 b e) input result w ws1 buf1 ws2' buf2'
               Hl He1 He2') in Hres.
    cbv zeta in Hres. clear Hrun.
    destruct (colEval _ _ _ _) as [ws' r] eqn:E. simpl in Hres. rewrite Hres in E.
    assert (Hf : yearWeekModeRow YearWeek (Times buf1) buf2' i = Value v)
      by (unfold yearWeekModeRow; now rewrite Hz, Hn', Hv').
    apply (guarded_value_row _ _ _ _ _ i v _ _ Hi Hn Hf E).
Qed.

(** A one-row mode column holding NULL. *)
Definition modeNull : Column Z := mkColumn [true] [7].

Lemma yearweek_null_mode_counts_as_zero_witness :
  let b := onDateAndMode (session false false) newYear2024 modeNull in
  exists res,
    snd (builtinYearWeekWithModeSig_vecEvalInt mysqlYearWeek b oneRow emptyInts freshWorld)
      = inr res /\
    IsNull res 0 = false /\ Int64s res 0 = 202353.
Proof.
  intros b.
  destruct (yearweek_null_mode_counts_as_zero mysqlYearWeek b oneRow emptyInts freshWorld
              [] [] newYear2024 modeNull 0) as [H1 [H2 _]];
    try reflexivity; try (unfold loanable2; simpl; lia); try (simpl; lia).
  destruct H2 as [res E]; [now left|].
  exists res. split; [exact E|]. destruct (H1 res E) as [Hnull Hv].
  split; [exact Hnull|]. rewrite Hv. reflexivity.
Defined.

(** * WEEKDAY and DAYNAME *)

(** The date fields of a [MysqlTime] are unsigned in the source. *)
Definition unsignedDate (t : MysqlTime) : Prop :=
  0 <= Year t /\ 0 <= Month t /\ 0 <= Day t.

Definition weekDayRow (ds : nat -> Time) (i : nat) : RowOutcome Z :=
  if IsZero (ds i) then Invalid (wrongDate (ds i))
  else Value (goMod (Weekday (CoreTime (ds i)) + 6) 7).

Definition dayNameRow (buf : Column Time) (i : nat) : RowOutcome Z :=
  if IsNull buf i then Nullify
  else if InvalidZero (Times buf i) then Invalid (wrongDate (Times buf i))
  else Value (goMod (Weekday (CoreTime (Times buf i)) + 6) 7).

Lemma weekday_run b input result w ws buf :
  loanable w ->
  VecEvalTime (args b 0) input (warnings w) = (ws, inr buf) ->
  builtinWeekDaySig_vecEvalInt b input result w =
  let start := prepared (NumRows input) result (nullBitmap buf) in
  let (ws', r) := colEval (ctx b) (guarded start (weekDayRow (Times buf)))
                    (NumRows input) start in
  (afterRows w ws ws', r).
Proof.
  intros Hl He. unfold builtinWeekDaySig_vecEvalInt. run_one_loan Hl He.
  rewrite (guarded_rows 0 (ctx b) (weekDayRow (Times buf))).
  - unfold prepared, afterRows. destruct (colEval _ _ _ _); reflexivity.
  - unfold weekDayRow, wrongDate. split_body.
Qed.

Lemma dayname_run b input result w ws buf :
  loanable w ->
  VecEvalTime (args b 0) input (warnings w) = (ws, inr buf) ->
  builtinDayNameSig_vecEvalInt b input result w =
  let (ws', r) := colEval (ctx b) (dayNameRow buf) (NumRows input)
                    (ResizeInt64 (NumRows input) result) in
  (afterRows w ws ws', r).
Proof.
  intros Hl He. unfold builtinDayNameSig_vecEvalInt, builtinDayNameSig_vecEvalIndex.
  run_one_loan Hl He.
  rewrite (forRows_ext _ (fun i r => rowAct (ctx b) setElem setRowNull (dayNameRow buf i) i r)).
  - rewrite forRows_rowAct. unfold colEval, afterRows.
    destruct (evalRows _ _ _ _ _ _ _); reflexivity.
  - unfold dayNameRow, wrongDate, setRowNull. split_body.
Qed.

Lemma calcDaynr_pos y m d : 0 <= y -> 1 <= m -> 1 <= d -> 0 < calcDaynr y m d.
Proof.
  intros Hy Hm Hd. unfold calcDaynr, goDiv.
  replace (m =? 0) with false by (symmetry; apply Z.eqb_neq; lia).
  rewrite andb_false_r.
  destruct (m <=? 2) eqn:E; [apply Z.leb_le in E|apply Z.leb_gt in E];
    Z.to_euclidean_division_equations; lia.
Qed.

Lemma Weekday_range t :
  unsignedDate t -> Month t <> 0 -> Day t <> 0 -> 0 <= Weekday t <= 6.
Proof.
  intros [Hy [Hm Hd]] Hm0 Hd0. unfold Weekday, goMod.
  assert (H := calcDaynr_pos (Year t) (Month t) (Day t) Hy ltac:(lia) ltac:(lia)).
  Z.to_euclidean_division_equations; lia.
Qed.

Lemma InvalidZero_fields t :
  InvalidZero t = false -> Month (CoreTime t) <> 0 /\ Day (CoreTime t) <> 0.
Proof.
  unfold InvalidZero. intros H. apply orb_false_elim in H. destruct H as [Hm Hd].
  apply Z.eqb_neq in Hm, Hd. auto.
Qed.

(** C9. For every non-null date that is not an invalid zero, the vectorized
    WEEKDAY and the index computed for DAYNAME are [(Weekday(d) + 6) mod 7],
    where [Weekday] is the Sunday-first index of the library: a value in
    [0, 6], Monday (1) mapped to 0 and Sunday (0) to 6. 2024-01-01, a Monday,
    yields 0. *)
Theorem weekday_is_monday_first :
  forall (b : baseBuiltinFunc) (input : Chunk) (result : Column Z) (w : World)
         (ws : list error) (buf : Column Time) (i : nat),
    loanable w ->
    VecEvalTime (args b 0) input (warnings w) = (ws, inr buf) ->
    (i < NumRows input)%nat ->
    IsNull buf i = false ->
    InvalidZero (Times buf i) = false ->
    unsignedDate (CoreTime (Times buf i)) ->
    let wd := Weekday (CoreTime (Times buf i)) in
    let v := (wd + 6) mod 7 in
    let run1 := builtinWeekDaySig_vecEvalInt b input result w in
    let run2 := builtinDayNameSig_vecEvalInt b input result w in
    (0 <= wd <= 6 /\ 0 <= v <= 6 /\ (wd = 1 -> v = 0) /\ (wd = 0 -> v = 6)) /\
    (forall res, snd run1 = inr res -> IsNull res i = false /\ Int64s res i = v) /\
    (forall res, snd run2 = inr res -> IsNull res i = false /\ Int64s res i = v) /\
    ((StrictSQLMode (ctx b) = false \/
      forall j, (j < NumRows input)%nat -> IsNull buf j = false ->
                InvalidZero (Times buf j) = false) ->
     (exists res, snd run1 = inr res) /\ (exists res, snd run2 = inr res)) /\
    (Weekday (FromDate 2024 1 1 0 0 0 0) = 1 /\
     snd (builtinWeekDaySig_vecEvalInt (onTime (session false false) newYear2024)
            oneRow emptyInts freshWorld) = inr (mkColumn [false] [0])).
Proof.
  intros b input result w ws buf i Hl He Hi Hn Hz Hu wd v run1 run2.
  destruct (InvalidZero_fields _ Hz) as [Hm Hd].
  assert (Hwd : 0 <= wd <= 6) by (apply Weekday_range; auto).
  assert (Hv : goMod (wd + 6) 7 = v) by (unfold goMod, v; apply Z.rem_mod_nonneg; lia).
  assert (Hrun1 := weekday_run b input result w ws buf Hl He).
  assert (Hrun2 := dayname_run b input result w ws buf Hl He).
  cbv zeta in Hrun1. fold run1 in Hrun1. fold run2 in Hrun2.
  split; [|split; [|split; [|split]]].
  - split; auto. unfold v. repeat split; intros;
      try (subst wd); Z.to_euclidean_division_equations; lia.
  - intros res Hres. rewrite Hrun1 in Hres. clear Hrun1 Hrun2.
    destruct (colEval _ _ _ _) as [ws' r] eqn:E. simpl in Hres. rewrite Hres in E.
    assert (Hf : weekDayRow (Times buf) i = Value v)
      by (unfold weekDayRow; rewrite (InvalidZero_IsZero _ Hz); fold wd; now rewrite Hv).
    apply (guarded_value_row _ _ _ _ _ i v _ _ Hi Hn Hf E).
  - intros res Hres. rewrite Hrun2 in Hres. clear Hrun1 Hrun2.
    destruct (colEval _ _ _ _) as [ws' r] eqn:E. simpl in Hres. rewrite Hres in E.
    apply colEval_ok in E. destruct E as [-> _].
    assert (Hf : dayNameRow buf i = Value v)
      by (unfold dayNameRow; rewrite Hn, Hz; fold wd; now rewrite Hv).
    unfold Int64s, ResizeInt64.
    rewrite colFinal_null, (colFinal_elem 0) by auto using rows_Resize, elems_Resize.
    rewrite Hf. split; auto. apply IsNull_Resize.
  - intros Hok. split.
    + rewrite Hrun1. rewrite guarded_total; [simpl; eauto|].
      intros j Hj Hlive. rewrite prepared_IsNull in Hlive by auto.
      unfold weekDayRow. destruct Hok as [Hs|Hvalid].
      * rewrite Hs. destruct (IsZero (Times buf j)); reflexivity.
      * now rewrite (InvalidZero_IsZero _ (Hvalid j Hj Hlive)).
    + rewrite Hrun2. rewrite colEval_total; [simpl; eauto|].
      intros j Hj. unfold dayNameRow.
      destruct (IsNull buf j) eqn:En; [reflexivity|].
      destruct Hok as [Hs|Hvalid].
      * rewrite Hs. destruct (InvalidZero (Times buf j)); reflexivity.
      * now rewrite (Hvalid j Hj En).
  - split; reflexivity.
Qed.

Lemma weekday_is_monday_first_witness :
  exists res,
    snd (builtinDayNameSig_vecEvalInt (onTime (session false false) newYear2024)
           oneRow emptyInts freshWorld) = inr res /\
    IsNull res 0 = false /\ Int64s res 0 = 0.
Proof.
  destruct (weekday_is_monday_first (onTime (session false false) newYear2024)
              oneRow emptyInts freshWorld [] newYear2024 0)
    as [_ [_ [H2 [H3 _]]]];
    try reflexivity; try exact freshWorld_loanable; try (simpl; lia).
  - unfold unsignedDate; simpl; lia.
  - destruct H3 as [_ [res E]]; [now left|].
    exists res. split; [exact E|]. destruct (H2 res E) as [Hnull Hv].
    split; [exact Hnull|]. rewrite Hv. reflexivity.
Defined.

(** * PERIOD_ADD and PERIOD_DIFF *)

Definition periodAddRow (start : Column Z) (ns : nat -> Z) (i : nat) : RowOutcome Z :=
  if IsNull start i then Keep
  else if negb (validPeriod (Int64s start i)) then Abort (errIncorrectArgs "period_add")
  else
    let sumMonth := wrap64 (wrap64 (period2Month (toUint64 (Int64s start i))) + ns i) in
    Value (wrap64 (month2Period (toUint64 sumMonth))).

Definition periodDiffRow (start : Column Z) (periods : nat -> Z) (i : nat) : RowOutcome Z :=
  if IsNull start i then Keep
  else if negb (validPeriod (Int64s start i)) || negb (validPeriod (periods i))
  then Abort (errIncorrectArgs "period_diff")
  else Value (wrap64 (period2Month (toUint64 (Int64s start i)) -
                      period2Month (toUint64 (periods i)))).

Lemma loanable_withWarnings ws w : loanable w -> loanable (withWarnings ws w).
Proof. auto. Qed.

(** The final world of PERIOD_ADD and PERIOD_DIFF: the first argument is
    evaluated before the loan. *)
Definition afterPeriodRows (w : World) (ws0 ws1 ws' : list error) : World :=
  afterRows (withWarnings ws0 w) ws1 ws'.

Lemma period_add_run b input result w ws0 col0 ws1 buf :
  loanable w ->
  VecEvalInt (args b 0) input (warnings w) = (ws0, inr col0) ->
  VecEvalInt (args b 1) input ws0 = (ws1, inr buf) ->
  builtinPeriodAddSig_vecEvalInt b input result w =
  let start := MergeNulls col0 [nullBitmap buf] in
  let (ws', r) := colEval (ctx b) (periodAddRow start (Int64s buf)) (NumRows input) start in
  (afterPeriodRows w ws0 ws1 ws', r).
Proof.
  intros Hl He0 He1. unfold builtinPeriodAddSig_vecEvalInt.
  rewrite (run_arg (VecEvalInt (args b 0)) input _ w ws0 col0 He0).
  rewrite (run_loan _ _ _ _ (loanable_withWarnings ws0 w Hl)). cbv beta zeta.
  rewrite (run_arg (VecEvalInt (args b 1)) input _ (lent (withWarnings ws0 w)) ws1 buf He1).
  pose (G := fun (i : nat) (null : bool) (p : Z) =>
           if null then @Keep Z
           else if negb (validPeriod p) then Abort (errIncorrectArgs "period_add")
           else Value (wrap64 (month2Period (toUint64
                  (wrap64 (wrap64 (period2Month (toUint64 p)) + Int64s buf i)))))).
  rewrite (forRows_ext _
    (fun i r => rowAct (ctx b) setElem setRowNull (G i (IsNull r i) (nth i (elems r) 0)) i r)).
  - rewrite (forRows_reads_row 0 (ctx b) G).
    unfold afterPeriodRows, afterRows, periodAddRow, Int64s, G.
    destruct (colEval _ _ _ _); reflexivity.
  - unfold G, Int64s. split_body.
Qed.

Lemma period_diff_run b input result w ws0 col0 ws1 buf :
  loanable w ->
  VecEvalInt (args b 0) input (warnings w) = (ws0, inr col0) ->
  VecEvalInt (args b 1) input ws0 = (ws1, inr buf) ->
  builtinPeriodDiffSig_vecEvalInt b input result w =
  let start := MergeNulls col0 [nullBitmap buf] in
  let (ws', r) := colEval (ctx b) (periodDiffRow start (Int64s buf)) (NumRows input) start in
  (afterPeriodRows w ws0 ws1 ws', r).
Proof.
  intros Hl He0 He1. unfold builtinPeriodDiffSig_vecEvalInt.
  rewrite (run_arg (VecEvalInt (args b 0)) input _ w ws0 col0 He0).
  rewrite (run_loan _ _ _ _ (loanable_withWarnings ws0 w Hl)). cbv beta zeta.
  rewrite (run_arg (VecEvalInt (args b 1)) input _ (lent (withWarnings ws0 w)) ws1 buf He1).
  pose (G := fun (i : nat) (null : bool) (p : Z) =>
           if null then @Keep Z
           else if negb (validPeriod p) || negb (validPeriod (Int64s buf i))
           then Abort (errIncorrectArgs "period_diff")
           else Value (wrap64 (period2Month (toUint64 p) -
                               period2Month (toUint64 (Int64s buf i))))).
  rewrite (forRows_ext _
    (fun i r => rowAct (ctx b) setElem setRowNull (G i (IsNull r i) (nth i (elems r) 0)) i r)).
  - rewrite (forRows_reads_row 0 (ctx b) G).
    unfold afterPeriodRows, afterRows, periodDiffRow, Int64s, G.
    destruct (colEval _ _ _ _); reflexivity.
  - unfold G, Int64s. split_body.
Qed.

(** The start column of the period loops: the first argument with the nulls
    of the second merged in. *)
Lemma merged_IsNull (col0 : Column Z) (src : list bool) n i :
  rows col0 = n -> (i < n)%nat ->
  IsNull (MergeNulls col0 [src]) i = IsNull col0 i || nth i src false.
Proof. intros Hr Hi. apply IsNull_MergeNulls1. lia. Qed.

Lemma merged_Int64s (col0 : Column Z) (src : list bool) i :
  Int64s (MergeNulls col0 [src]) i = Int64s col0 i.
Proof. reflexivity. Qed.

(** A period loop fails only with its incorrect-arguments error, at a live
    row; it never hands a row to the invalid-time policy. *)
Lemma periodAddRow_stops strict start ns i e :
  stops strict (periodAddRow start ns i) = Some e ->
  e = errIncorrectArgs "period_add" /\ IsNull start i = false /\
  validPeriod (Int64s start i) = false.
Proof.
  unfold periodAddRow. destruct (IsNull start i); [discriminate|].
  destruct (validPeriod (Int64s start i)); simpl; [discriminate|].
  intros H; inversion H; auto.
Qed.

Lemma periodDiffRow_stops strict start ps i e :
  stops strict (periodDiffRow start ps i) = Some e ->
  e = errIncorrectArgs "period_diff" /\ IsNull start i = false /\
  (validPeriod (Int64s start i) = false \/ validPeriod (ps i) = false).
Proof.
  unfold periodDiffRow. destruct (IsNull start i); [discriminate|].
  destruct (validPeriod (Int64s start i)), (validPeriod (ps i)); simpl;
    try discriminate; intros H; inversion H; auto.
Qed.

Lemma periodAddRow_quiet start ns i e : periodAddRow start ns i <> Invalid e.
Proof.
  unfold periodAddRow. destruct (IsNull start i); [discriminate|].
  destruct (negb _); discriminate.
Qed.

Lemma periodDiffRow_quiet start ps i e : periodDiffRow start ps i <> Invalid e.
Proof.
  unfold periodDiffRow. destruct (IsNull start i); [discriminate|].
  destruct (_ || _); discriminate.
Qed.

(** A two-row batch for PERIOD_ADD(P, N): row 0 holds the ill-shaped period
    13 next to a NULL delta, row 1 holds 200001 and 1. *)
Definition periodsBatch : Column Z := mkColumn [false; false] [13; 200001].
Definition deltasBatch : Column Z := mkColumn [true; false] [0; 1].
Definition twoRows : Chunk := {| NumRows := 2 |}.

Definition onInts (c : SessionVars) (a0 a1 : Column Z) : baseBuiltinFunc :=
  {| ctx := c; args := fun k => match k with O => intArg a0 | _ => intArg a1 end |}.

(** C4. PERIOD_ADD and PERIOD_DIFF fail the whole batch call with their
    incorrect-arguments error when a period argument of a row without NULL
    fails the validity check; the NULLs are looked at first: a row with a
    NULL argument is set null, its periods are not checked and it raises no
    error, whatever they are. *)
Theorem period_validity_checked_after_nulls :
  forall (b : baseBuiltinFunc) (input : Chunk) (result : Column Z) (w : World)
         (ws0 ws1 : list error) (col0 buf : Column Z),
    loanable w ->
    VecEvalInt (args b 0) input (warnings w) = (ws0, inr col0) ->
    VecEvalInt (args b 1) input ws0 = (ws1, inr buf) ->
    rows col0 = NumRows input ->
    let n := NumRows input in
    let live i := IsNull col0 i = false /\ IsNull buf i = false in
    let hasNull i := IsNull col0 i = true \/ IsNull buf i = true in
    let runAdd := builtinPeriodAddSig_vecEvalInt b input result w in
    let runDiff := builtinPeriodDiffSig_vecEvalInt b input result w in
    ((exists i, (i < n)%nat /\ live i /\ validPeriod (Int64s col0 i) = false) ->
     snd runAdd = inl (errIncorrectArgs "period_add")) /\
    ((forall i, (i < n)%nat -> live i -> validPeriod (Int64s col0 i) = true) ->
     exists res, snd runAdd = inr res /\
                 forall i, (i < n)%nat -> hasNull i -> IsNull res i = true) /\
    ((exists i, (i < n)%nat /\ live i /\
                (validPeriod (Int64s col0 i) = false \/ validPeriod (Int64s buf i) = false)) ->
     snd runDiff = inl (errIncorrectArgs "period_diff")) /\
    ((forall i, (i < n)%nat -> live i ->
                validPeriod (Int64s col0 i) = true /\ validPeriod (Int64s buf i) = true) ->
     exists res, snd runDiff = inr res /\
                 forall i, (i < n)%nat -> hasNull i -> IsNull res i = true).
Proof.
  intros b input result w ws0 ws1 col0 buf Hl He0 He1 Hrows n live hasNull runAdd runDiff.
  assert (HA := period_add_run b input result w ws0 col0 ws1 buf Hl He0 He1).
  assert (HD := period_diff_run b input result w ws0 col0 ws1 buf Hl He0 He1).
  cbv zeta in HA, HD. fold runAdd in HA. fold runDiff in HD. fold n in HA, HD.
  set (start := MergeNulls col0 [nullBitmap buf]) in *.
  assert (Hnull : forall i, (i < n)%nat -> IsNull start i = IsNull col0 i || IsNull buf i)
    by (intros; apply (merged_IsNull col0 (nullBitmap buf) n); auto).
  assert (Hstart : rows start = n)
    by (unfold start; now rewrite rows_MergeNulls1).
  split; [|split; [|split]].
  - intros [i [Hi [[Hn0 Hn1] Hbad]]]. rewrite HA. clear HA HD.
    assert (Hs : stops (StrictSQLMode (ctx b)) (periodAddRow start (Int64s buf) i) =
                 Some (errIncorrectArgs "period_add")).
    { unfold periodAddRow. rewrite (Hnull i Hi), Hn0, Hn1. simpl.
      unfold start. rewrite merged_Int64s, Hbad. reflexivity. }
    destruct (colEval_stopped _ _ n start i _ Hi Hs) as [ws' [e' E]]. rewrite E.
    destruct (colEval_err _ _ _ _ _ _ E) as [j [_ Hj]].
    apply periodAddRow_stops in Hj. destruct Hj as [-> _]. reflexivity.
  - intros Hvalid. rewrite HA. clear HA HD. rewrite colEval_total.
    + eexists; split; [reflexivity|]. intros i Hi Hn.
      rewrite colFinal_null by auto.
      assert (Hni : IsNull start i = true)
        by (rewrite (Hnull i Hi); destruct Hn as [-> | ->]; auto using orb_true_r).
      unfold periodAddRow. now rewrite Hni.
    + intros i Hi. unfold periodAddRow. destruct (IsNull start i) eqn:En; [reflexivity|].
      rewrite (Hnull i Hi) in En. apply orb_false_elim in En.
      unfold start. rewrite merged_Int64s, (Hvalid i Hi En). reflexivity.
  - intros [i [Hi [[Hn0 Hn1] Hbad]]]. rewrite HD. clear HA HD.
    assert (Hs : stops (StrictSQLMode (ctx b)) (periodDiffRow start (Int64s buf) i) =
                 Some (errIncorrectArgs "period_diff")).
    { unfold periodDiffRow. rewrite (Hnull i Hi), Hn0, Hn1. simpl.
      unfold start. rewrite merged_Int64s.
      destruct Hbad as [-> | ->]; simpl; auto.
      destruct (validPeriod (Int64s col0 i)); reflexivity. }
    destruct (colEval_stopped _ _ n start i _ Hi Hs) as [ws' [e' E]]. rewrite E.
    destruct (colEval_err _ _ _ _ _ _ E) as [j [_ Hj]].
    apply periodDiffRow_stops in Hj. destruct Hj as [-> _]. reflexivity.
  - intros Hvalid. rewrite HD. clear HA HD. rewrite colEval_total.
    + eexists; split; [reflexivity|]. intros i Hi Hn.
      rewrite colFinal_null by auto.
      assert (Hni : IsNull start i = true)
        by (rewrite (Hnull i Hi); destruct Hn as [-> | ->]; auto using orb_true_r).
      unfold periodDiffRow. now rewrite Hni.
    + intros i Hi. unfold periodDiffRow. destruct (IsNull start i) eqn:En; [reflexivity|].
      rewrite (Hnull i Hi) in En. apply orb_false_elim in En.
      unfold start. rewrite merged_Int64s.
      destruct (Hvalid i Hi En) as [-> ->]. reflexivity.
Qed.

Lemma period_validity_checked_after_nulls_witness :
  validPeriod (Int64s periodsBatch 0) = false /\
  IsNull deltasBatch 0 = true /\
  exists res,
    snd (builtinPeriodAddSig_vecEvalInt (onInts (session false false) periodsBatch deltasBatch)
           twoRows emptyInts freshWorld) = inr res /\
    IsNull res 0 = true /\ IsNull res 1 = false /\ Int64s res 1 = 200002.
Proof.
  split; [reflexivity|]. split; [reflexivity|].
  destruct (period_validity_checked_after_nulls
              (onInts (session false false) periodsBatch deltasBatch)
              twoRows emptyInts freshWorld [] [] periodsBatch deltasBatch)
    as [_ [H _]]; try reflexivity; try exact freshWorld_loanable.
  destruct H as [res [E Hnull]].
  - intros [|[|i]] Hi [H0 H1]; try reflexivity; try discriminate. simpl in Hi. lia.
  - exists res. split; [exact E|]. split.
    + apply Hnull; [simpl; lia|]. right. reflexivity.
    + vm_compute in E. inversion E. split; reflexivity.
Defined.

(** * The round trip of periods *)

Lemma wrap64_small z : - 2 ^ 63 <= z < 2 ^ 63 -> wrap64 z = z.
Proof.
  intros H. unfold wrap64.
  rewrite Z.mod_small by (change (2 ^ 64) with (2 ^ 63 + 2 ^ 63); lia). lia.
Qed.

Lemma toUint64_small z : 0 <= z < 2 ^ 64 -> toUint64 z = z.
Proof. intros H. unfold toUint64. now apply Z.mod_small. Qed.

Lemma validPeriod_shape p :
  validPeriod p = true -> 0 <= p <= 999999 /\ 1 <= p mod 100 <= 12.
Proof.
  unfold validPeriod, goMod. intros H. apply negb_true_iff in H.
  repeat (apply orb_false_elim in H; destruct H as [H ?]).
  apply Z.ltb_ge in H. apply Z.eqb_neq in H2. apply Z.ltb_ge in H1, H0.
  rewrite Z.rem_mod_nonneg in H1, H2 by lia.
  assert (0 <= p mod 100 < 100) by (apply Z.mod_pos_bound; lia). lia.
Qed.

Lemma validPeriod_intro p :
  0 <= p <= 999999 -> 1 <= p mod 100 <= 12 -> validPeriod p = true.
Proof.
  intros Hp Hm. unfold validPeriod, goMod. rewrite Z.rem_mod_nonneg by lia.
  apply negb_true_iff.
  replace (p <? 0) with false by (symmetry; apply Z.ltb_ge; lia).
  replace (p mod 100 =? 0) with false by (symmetry; apply Z.eqb_neq; lia).
  replace (12 <? p mod 100) with false by (symmetry; apply Z.ltb_ge; lia).
  replace (999999 <? p) with false by (symmetry; apply Z.ltb_ge; lia).
  reflexivity.
Qed.

(** The month index of a well-shaped period. *)
Lemma period2Month_valid p :
  validPeriod p = true ->
  exists y, period2Month p = y * 12 + p mod 100 - 1 /\ 100 <= y <= 9999.
Proof.
  intros H. apply validPeriod_shape in H. destruct H as [Hp Hm].
  unfold period2Month.
  replace (p =? 0) with false
    by (symmetry; apply Z.eqb_neq; intro; subst;
        Z.to_euclidean_division_equations; lia).
  assert (Hy : 0 <= p / 100 <= 9999) by (Z.to_euclidean_division_equations; lia).
  destruct (p / 100 <? 70) eqn:E1; [apply Z.ltb_lt in E1|apply Z.ltb_ge in E1].
  - exists (p / 100 + 2000). rewrite toUint64_small by lia. lia.
  - destruct (p / 100 <? 100) eqn:E2; [apply Z.ltb_lt in E2|apply Z.ltb_ge in E2].
    + exists (p / 100 + 1900). rewrite toUint64_small by lia. lia.
    + exists (p / 100). rewrite toUint64_small by lia. lia.
Qed.

(** From a month index within the years 100..9999 to its period and back. *)
Lemma month2Period_in_range m :
  1200 <= m < 120000 ->
  month2Period m = m / 12 * 100 + m mod 12 + 1 /\
  validPeriod (month2Period m) = true /\
  period2Month (month2Period m) = m.
Proof.
  intros Hm.
  assert (Hq : 100 <= m / 12 <= 9999) by (Z.to_euclidean_division_equations; lia).
  assert (Hr : 0 <= m mod 12 < 12) by (apply Z.mod_pos_bound; lia).
  assert (E : month2Period m = m / 12 * 100 + m mod 12 + 1).
  { unfold month2Period.
    replace (m =? 0) with false by (symmetry; apply Z.eqb_neq; lia).
    replace (m / 12 <? 70) with false by (symmetry; apply Z.ltb_ge; lia).
    replace (m / 12 <? 100) with false by (symmetry; apply Z.ltb_ge; lia).
    apply toUint64_small. lia. }
  rewrite E. set (p := m / 12 * 100 + m mod 12 + 1).
  assert (Hpm : p mod 100 = m mod 12 + 1).
  { unfold p. rewrite <- Z.add_assoc, Z.add_comm, Z.mod_add by lia.
    apply Z.mod_small. lia. }
  assert (Hpd : p / 100 = m / 12).
  { unfold p. rewrite <- Z.add_assoc, Z.add_comm, Z.div_add by lia.
    rewrite Z.div_small by lia. lia. }
  split; [reflexivity|]. split.
  - apply validPeriod_intro; unfold p in *; lia.
  - unfold period2Month.
    replace (p =? 0) with false by (symmetry; apply Z.eqb_neq; unfold p; lia).
    rewrite Hpd, Hpm.
    replace (m / 12 <? 70) with false by (symmetry; apply Z.ltb_ge; lia).
    replace (m / 12 <? 100) with false by (symmetry; apply Z.ltb_ge; lia).
    rewrite toUint64_small by lia.
    rewrite (Z.div_mod m 12) at 3 by lia. lia.
Qed.

(** PERIOD_ADD then PERIOD_DIFF on one row. *)
Lemma period_round_trip_row p n :
  validPeriod p = true ->
  1200 <= period2Month p + n < 120000 ->
  let r := wrap64 (month2Period (toUint64 (wrap64 (wrap64 (period2Month (toUint64 p)) + n)))) in
  validPeriod r = true /\
  wrap64 (period2Month (toUint64 r) - period2Month (toUint64 p)) = n.
Proof.
  intros Hv Hrange r.
  destruct (period2Month_valid p Hv) as [y [Hp2m Hy]].
  destruct (validPeriod_shape p Hv) as [Hp Hm].
  assert (Hm0 : 0 <= period2Month p < 120000) by lia.
  assert (Er : r = month2Period (period2Month p + n)).
  { unfold r. rewrite (toUint64_small p) by lia.
    rewrite (wrap64_small (period2Month p)) by lia.
    rewrite (wrap64_small (period2Month p + n)) by lia.
    rewrite (toUint64_small (period2Month p + n)) by lia.
    destruct (month2Period_in_range _ Hrange) as [E _]. rewrite E.
    apply wrap64_small.
    assert (0 <= (period2Month p + n) mod 12 < 12) by (apply Z.mod_pos_bound; lia).
    assert (100 <= (period2Month p + n) / 12 <= 9999)
      by (Z.to_euclidean_division_equations; lia).
    lia. }
  destruct (month2Period_in_range _ Hrange) as [E [Hvr Hback]].
  rewrite Er. split; auto.
  destruct (validPeriod_shape _ Hvr) as [Hr _].
  rewrite (toUint64_small (month2Period _)) by lia.
  rewrite (toUint64_small p) by lia.
  rewrite Hback. rewrite wrap64_small by lia. lia.
Qed.

(** A builtin call used as an argument expression: its evaluator runs with
    its own allocator and shares the statement's warning sink. *)
Definition scalarFunction (f : Chunk -> Column Z -> M (Column Z)) (pool : Allocator)
  : ExpressionI :=
  {| VecEvalInt := fun input ws =>
       let (w', r) := f input emptyInts {| bufAllocator := pool; warnings := ws |} in
       (warnings w', r);
     VecEvalReal := noExpr;
     VecEvalTime := noExpr;
     VecEvalString := noExpr |}.

(** PERIOD_DIFF(PERIOD_ADD(P, N), P) *)
Definition periodAddOf (c : SessionVars) (P N : ExpressionI) : baseBuiltinFunc :=
  {| ctx := c; args := fun k => match k with O => P | _ => N end |}.

Definition periodDiffOfAdd (c : SessionVars) (P N : ExpressionI) (pool : Allocator)
  : baseBuiltinFunc :=
  {| ctx := c;
     args := fun k =>
       match k with
       | O => scalarFunction (builtinPeriodAddSig_vecEvalInt (periodAddOf c P N)) pool
       | _ => P
       end |}.

Lemma colFinal_value (g : nat -> RowOutcome Z) n c i v :
  (i < n)%nat -> rows c = n -> List.length (elems c) = n -> g i = Value v ->
  IsNull (colFinal g n c) i = IsNull c i /\ Int64s (colFinal g n c) i = v.
Proof.
  intros Hi Hr He Hg. unfold Int64s.
  rewrite colFinal_null, (colFinal_elem 0) by auto. now rewrite Hg.
Qed.

(** What PERIOD_ADD returns when every row without NULL holds a valid
    period. *)
Lemma period_add_total c P N input result w Pcol Ncol :
  loanable w ->
  VecEvalInt P input (warnings w) = (warnings w, inr Pcol) ->
  VecEvalInt N input (warnings w) = (warnings w, inr Ncol) ->
  rows Pcol = NumRows input ->
  (forall i, (i < NumRows input)%nat -> IsNull Pcol i = false -> IsNull Ncol i = false ->
             validPeriod (Int64s Pcol i) = true) ->
  let start := MergeNulls Pcol [nullBitmap Ncol] in
  let run := builtinPeriodAddSig_vecEvalInt (periodAddOf c P N) input result w in
  warnings (fst run) = warnings w /\
  snd run = inr (colFinal (periodAddRow start (Int64s Ncol)) (NumRows input) start).
Proof.
  intros Hl HP HN Hrows Hvalid start run. unfold run.
  rewrite (period_add_run (periodAddOf c P N) input result w _ Pcol _ Ncol Hl HP HN).
  cbv zeta. fold start. rewrite colEval_total.
  - rewrite rowWarnings_none by (intros; apply periodAddRow_quiet).
    simpl. split; [apply app_nil_r|reflexivity].
  - intros i Hi. unfold periodAddRow. destruct (IsNull start i) eqn:En; [reflexivity|].
    unfold start in En. rewrite (merged_IsNull _ _ _ _ Hrows Hi) in En.
    apply orb_false_elim in En. destruct En as [E0 E1].
    unfold start. rewrite merged_Int64s, (Hvalid i Hi E0 E1). reflexivity.
Qed.

(** C3, amended. For every valid period P and every month delta N such that
    the month index of P plus N stays within the years 100 to 9999 (the
    result is then again a well-shaped YYYYMM period), evaluating
    PERIOD_DIFF(PERIOD_ADD(P, N), P) on a row without NULL yields exactly
    N. *)
Theorem period_diff_of_period_add :
  forall (c : SessionVars) (P N : ExpressionI) (input : Chunk) (result : Column Z)
         (w : World) (pool : Allocator) (Pcol Ncol : Column Z),
    loanable w ->
    loanable {| bufAllocator := pool; warnings := warnings w |} ->
    VecEvalInt P input (warnings w) = (warnings w, inr Pcol) ->
    VecEvalInt N input (warnings w) = (warnings w, inr Ncol) ->
    rows Pcol = NumRows input ->
    List.length (elems Pcol) = NumRows input ->
    (forall i, (i < NumRows input)%nat -> IsNull Pcol i = false -> IsNull Ncol i = false ->
               validPeriod (Int64s Pcol i) = true /\
               1200 <= period2Month (Int64s Pcol i) + Int64s Ncol i < 120000) ->
    exists res,
      snd (builtinPeriodDiffSig_vecEvalInt (periodDiffOfAdd c P N pool) input result w)
        = inr res /\
      forall i, (i < NumRows input)%nat -> IsNull Pcol i = false -> IsNull Ncol i = false ->
                IsNull res i = false /\ Int64s res i = Int64s Ncol i.
Proof.
  intros c P N input result w pool Pcol Ncol Hl Hlp HP HN Hrows Helems Hok.
  set (n := NumRows input) in *.
  set (startA := MergeNulls Pcol [nullBitmap Ncol]).
  set (R := colFinal (periodAddRow startA (Int64s Ncol)) n startA).
  assert (HstartA : rows startA = n) by (unfold startA; now rewrite rows_MergeNulls1).
  assert (HnullA : forall i, (i < n)%nat -> IsNull startA i = IsNull Pcol i || IsNull Ncol i)
    by (intros; apply (merged_IsNull Pcol (nullBitmap Ncol) n); auto).
  (* the inner call *)
  assert (Hinner : VecEvalInt (args (periodDiffOfAdd c P N pool) 0) input (warnings w) =
                   (warnings w, inr R)).
  { simpl.
    destruct (period_add_total c P N input emptyInts
                {| bufAllocator := pool; warnings := warnings w |} Pcol Ncol Hlp HP HN Hrows)
      as [Hw Hr].
    - intros i Hi H0 H1. apply (Hok i Hi H0 H1).
    - destruct (builtinPeriodAddSig_vecEvalInt _ _ _ _) as [w' r]. simpl in Hw, Hr.
      rewrite Hw, Hr. reflexivity. }
  assert (HR : rows R = n) by (unfold R, colFinal; now rewrite applyRows_rows).
  assert (HRnull : forall i, (i < n)%nat -> IsNull R i = IsNull Pcol i || IsNull Ncol i).
  { intros i Hi. unfold R. rewrite colFinal_null by auto.
    unfold periodAddRow. destruct (IsNull startA i) eqn:En; rewrite <- (HnullA i Hi);
      [auto|]. destruct (negb _); auto. }
  assert (HRval : forall i, (i < n)%nat -> IsNull Pcol i = false -> IsNull Ncol i = false ->
            Int64s R i = wrap64 (month2Period (toUint64 (wrap64
              (wrap64 (period2Month (toUint64 (Int64s Pcol i))) + Int64s Ncol i))))).
  { intros i Hi H0 H1. unfold R, Int64s.
    rewrite (colFinal_elem 0) by (auto; unfold startA; simpl; auto).
    unfold periodAddRow. rewrite (HnullA i Hi), H0, H1. simpl.
    unfold startA. rewrite merged_Int64s.
    destruct (Hok i Hi H0 H1) as [-> _]. reflexivity. }
  (* the outer call *)
  rewrite (period_diff_run (periodDiffOfAdd c P N pool) input result w _ R _ Pcol Hl Hinner HP).
  cbv zeta. fold n.
  set (startD := MergeNulls R [nullBitmap Pcol]).
  assert (HnullD : forall i, (i < n)%nat -> IsNull startD i = IsNull Pcol i || IsNull Ncol i).
  { intros i Hi. unfold startD. rewrite (merged_IsNull R (nullBitmap Pcol) n) by auto.
    rewrite (HRnull i Hi). fold (IsNull Pcol i).
    destruct (IsNull Pcol i), (IsNull Ncol i); reflexivity. }
  assert (Hrow : forall i, (i < n)%nat -> IsNull Pcol i = false -> IsNull Ncol i = false ->
            periodDiffRow startD (Int64s Pcol) i = Value (Int64s Ncol i)).
  { intros i Hi H0 H1. unfold periodDiffRow.
    rewrite (HnullD i Hi), H0, H1. simpl.
    unfold startD. rewrite merged_Int64s, (HRval i Hi H0 H1).
    destruct (Hok i Hi H0 H1) as [Hv Hrange].
    destruct (period_round_trip_row _ _ Hv Hrange) as [Hvr Hback].
    rewrite Hvr, Hv. simpl. now rewrite Hback. }
  rewrite colEval_total.
  - eexists; split; [reflexivity|]. intros i Hi H0 H1.
    destruct (colFinal_value (periodDiffRow startD (Int64s Pcol)) n startD i (Int64s Ncol i))
      as [Hn Hv]; auto.
    + unfold startD. now rewrite rows_MergeNulls1.
    + unfold startD, R, colFinal. simpl. now rewrite applyRows_elems_length.
    + split; auto. rewrite Hn, (HnullD i Hi), H0, H1. reflexivity.
  - intros i Hi. destruct (IsNull startD i) eqn:En.
    + unfold periodDiffRow. now rewrite En.
    + rewrite (HnullD i Hi) in En. apply orb_false_elim in En. destruct En as [E0 E1].
      now rewrite (Hrow i Hi E0 E1).
Qed.

(** PERIOD_DIFF(PERIOD_ADD(202401, 14), 202401) *)
Definition onePeriod (p : Z) : Column Z := mkColumn [false] [p].

Definition freshPool : Allocator := {| capacity := 8; events := [] |}.

Lemma period_diff_of_period_add_witness :
  validPeriod 202401 = true /\
  1200 <= period2Month 202401 + 14 < 120000 /\
  exists res,
    snd (builtinPeriodDiffSig_vecEvalInt
           (periodDiffOfAdd (session false false)
              (intArg (onePeriod 202401)) (intArg (onePeriod 14)) freshPool)
           oneRow emptyInts freshWorld) = inr res /\
    IsNull res 0 = false /\ Int64s res 0 = 14.
Proof.
  split; [reflexivity|]. split; [vm_compute; split; congruence|].
  destruct (period_diff_of_period_add (session false false)
              (intArg (onePeriod 202401)) (intArg (onePeriod 14))
              oneRow emptyInts freshWorld freshPool (onePeriod 202401) (onePeriod 14))
    as [res [E H]]; try reflexivity; try exact freshWorld_loanable.
  - intros [|i] Hi _ _; [|simpl in Hi; lia].
    split; [reflexivity|vm_compute; split; congruence].
  - exists res. split; [exact E|]. apply (H 0%nat); [simpl; lia|reflexivity|reflexivity].
Defined.

(** C3 as stated fails. With P = 200001 and N = -24001 the sum of month
    indices is negative and wraps around as an unsigned integer: PERIOD_ADD
    returns an ill-shaped period and PERIOD_DIFF fails the batch call. With
    P = 200001 and N = -23400 the sum falls in year 50, which PERIOD_ADD
    renders as the period 205001: PERIOD_DIFF then yields 600, not N. *)
Lemma period_round_trip_fails :
  validPeriod 200001 = true /\
  snd (builtinPeriodDiffSig_vecEvalInt
         (periodDiffOfAdd (session false false)
            (intArg (onePeriod 200001)) (intArg (onePeriod (-24001))) freshPool)
         oneRow emptyInts freshWorld) = inl (errIncorrectArgs "period_diff") /\
  snd (builtinPeriodAddSig_vecEvalInt
         (periodAddOf (session false false)
            (intArg (onePeriod 200001)) (intArg (onePeriod (-23400))))
         oneRow emptyInts freshWorld) = inr (mkColumn [false] [205001]) /\
  snd (builtinPeriodDiffSig_vecEvalInt
         (periodDiffOfAdd (session false false)
            (intArg (onePeriod 200001)) (intArg (onePeriod (-23400))) freshPool)
         oneRow emptyInts freshWorld) = inr (mkColumn [false] [600]) /\
  600 <> -23400.
Proof.
  split; [reflexivity|]. split; [vm_compute; reflexivity|].
  split; [vm_compute; reflexivity|]. split; [vm_compute; reflexivity|]. lia.
Qed.

(** * TIMESTAMPADD *)


Definition appendValue (i : nat) (s : string) (c : Column string) : Column string :=
  AppendString s c.
Definition appendNull (i : nat) (c : Column string) : Column string := AppendNull c.

Definition loanable3 (w : World) : Prop :=
  (List.length (onLoan (events (bufAllocator w))) + 2 < capacity (bufAllocator w))%nat.

Lemma snd_run_loan {B} et n (rest : nat -> M B) w :
  loanable w ->
  snd ((h <- get et n ;; defer (put h) (rest h)) w) = snd (rest (nextHandle w) (lent w)).
Proof.
  intros Hl. rewrite (run_loan _ _ _ _ Hl).
  destruct (rest (nextHandle w) (lent w)); reflexivity.
Qed.

(** Rows appended one after the other to an empty column. *)
Section AppendLoops.

Variable g : nat -> RowOutcome string.

Let final := applyRows appendValue appendNull g.

Lemma appended_rows lo k st :
  (forall j, (lo <= j < lo + k)%nat -> g j <> Keep /\ forall e, g j <> Abort e) ->
  rows (final lo k st) = (rows st + k)%nat /\
  List.length (elems (final lo k st)) = (List.length (elems st) + k)%nat.
Proof.
  unfold final. revert lo st; induction k as [|k IH]; intros lo st H; simpl.
  - split; lia.
  - destruct (IH (Datatypes.S lo) (actState appendValue appendNull (g lo) lo st))
      as [H1 H2]; [intros; apply H; lia|].
    rewrite H1, H2. destruct (H lo ltac:(lia)) as [Hk Ha].
    destruct (g lo) as [| |e|e|v]; simpl; unfold rows, appendNull, appendValue; simpl;
      rewrite ?length_app; simpl; try (split; lia).
    + congruence.
    + exfalso. eapply Ha; eauto.
Qed.

Lemma appended_prefix lo k st j :
  (j < rows st)%nat -> rows st = List.length (elems st) ->
  IsNull (final lo k st) j = IsNull st j /\
  GetString (final lo k st) j = GetString st j.
Proof.
  unfold final. revert lo st; induction k as [|k IH]; intros lo st Hj Hlen; simpl; auto.
  destruct (IH (Datatypes.S lo) (actState appendValue appendNull (g lo) lo st)) as [H1 H2].
  - destruct (g lo); simpl; unfold rows, appendNull, appendValue in *; simpl;
      rewrite ?length_app; simpl; lia.
  - destruct (g lo); simpl; unfold rows, appendNull, appendValue in *; simpl;
      rewrite ?length_app; simpl; lia.
  - rewrite H1, H2. unfold rows in *.
    destruct (g lo); simpl; unfold IsNull, GetString, appendNull, appendValue; simpl;
      rewrite ?app_nth1 by lia; auto.
Qed.

Lemma appended_cell lo k st i :
  (forall j, (lo <= j < lo + k)%nat -> g j <> Keep /\ forall e, g j <> Abort e) ->
  rows st = lo -> List.length (elems st) = lo ->
  (lo <= i < lo + k)%nat ->
  IsNull (final lo k st) i = (match g i with Value _ => false | _ => true end) /\
  GetString (final lo k st) i = (match g i with Value s => s | _ => EmptyString end).
Proof.
  unfold final. revert lo st; induction k as [|k IH]; intros lo st H Hr He Hi; simpl; [lia|].
  destruct (H lo ltac:(lia)) as [Hk Ha].
  assert (Hrows : rows (actState appendValue appendNull (g lo) lo st) = Datatypes.S lo /\
                  List.length (elems (actState appendValue appendNull (g lo) lo st)) =
                    Datatypes.S lo).
  { destruct (g lo) as [| |e|e|v]; simpl; unfold rows, appendNull, appendValue in *; simpl;
      rewrite ?length_app; simpl; try (split; lia).
    - congruence.
    - exfalso. eapply Ha; eauto. }
  destruct Hrows as [Hr' He'].
  destruct (Nat.eq_dec lo i) as [->|Hne].
  - destruct (appended_prefix (Datatypes.S i) k
                (actState appendValue appendNull (g i) i st) i) as [H1 H2];
      try lia.
    unfold final in H1, H2. rewrite H1, H2. unfold rows in Hr.
    destruct (g i) as [| |e|e|v]; simpl;
      unfold IsNull, GetString, appendNull, appendValue; simpl;
      rewrite ?app_nth2 by lia; rewrite ?Hr, ?He, ?Nat.sub_diag; simpl; auto.
    + congruence.
    + exfalso. eapply Ha; eauto.
  - apply IH; auto; try lia. intros; apply H; lia.
Qed.

End AppendLoops.



Section TimestampAddClaims.

Variable GoTimeT : Type.
Variable GoTime : MysqlTime -> error + GoTimeT.
Variable Add : GoTimeT -> Z -> GoTimeT.
Variable AddDate : GoTimeT -> Z -> Z -> Z -> GoTimeT.
Variable FromGoTime : GoTimeT -> MysqlTime.
Variable resolveType : TimeType -> string -> TimeType.
Variable Check : Time -> option error.
Variable TimeString : Time -> string.

Let addUnit := timestampAddUnit GoTimeT Add AddDate.

(** The row of TIMESTAMPADD. *)
Definition timestampAddRow (buf : Column string) (buf1 : Column Z) (buf2 : Column Time)
    (i : nat) : RowOutcome string :=
  if IsNull buf i || IsNull buf1 i || IsNull buf2 i then Nullify
  else
    let unit := GetString buf i in
    let arg := Times buf2 i in
    match GoTime (CoreTime arg) with
    | inl err => Abort err
    | inr tm1 =>
        match addUnit unit (Int64s buf1 i) tm1 with
        | None => Abort (ErrWrongValue TimeStr (ArgString unit))
        | Some (tb, fsp) =>
            let r := mkTime (FromGoTime tb) (resolveType (Type_ arg) unit) fsp in
            match Check r with
            | Some err => Invalid err
            | None => Value (TimeString r)
            end
        end
    end.

Lemma timestampadd_run b input result w ws0 buf ws1 buf1 ws2 buf2 :
  loanable3 w ->
  VecEvalString (args b 0) input (warnings w) = (ws0, inr buf) ->
  VecEvalInt (args b 1) input ws0 = (ws1, inr buf1) ->
  VecEvalTime (args b 2) input ws1 = (ws2, inr buf2) ->
  snd (builtinTimestampAddSig_vecEvalString GoTimeT GoTime Add AddDate FromGoTime
         resolveType Check TimeString b input result w) =
  snd (evalRows appendValue appendNull (StrictSQLMode (ctx b))
         (timestampAddRow buf buf1 buf2) 0 (NumRows input) (mkColumn [] [])).
Proof.
  intros Hl He0 He1 He2. unfold builtinTimestampAddSig_vecEvalString.
  cbv zeta.
  rewrite snd_run_loan by (unfold loanable3, loanable in *; lia).
  rewrite (run_arg (VecEvalString (args b 0)) input _ (lent w) ws0 buf He0).
  rewrite snd_run_loan by (unfold loanable3, loanable in *; simpl; lia).
  rewrite (run_arg (VecEvalInt (args b 1)) input _ (lent (withWarnings ws0 (lent w)))
             ws1 buf1 He1).
  rewrite snd_run_loan by (unfold loanable3, loanable in *; simpl; lia).
  rewrite (run_arg (VecEvalTime (args b 2)) input _
             (lent (withWarnings ws1 (lent (withWarnings ws0 (lent w))))) ws2 buf2 He2).
  rewrite (forRows_ext _
    (fun i r => rowAct (ctx b) appendValue appendNull (timestampAddRow buf buf1 buf2 i) i r)).
  - rewrite forRows_rowAct. unfold ReserveString.
    destruct (evalRows _ _ _ _ _ _ _); reflexivity.
  - intros i st w0 _. unfold timestampAddRow, addUnit, appendValue, appendNull, rowAct.
    destruct (IsNull buf i || IsNull buf1 i || IsNull buf2 i); [reflexivity|].
    cbv zeta. destruct (GoTime (CoreTime (Times buf2 i))) as [err|tm1]; [reflexivity|].
    destruct (timestampAddUnit GoTimeT Add AddDate (GetString buf i) (Int64s buf1 i) tm1)
      as [[tb fsp]|]; [|reflexivity].
    destruct (Check _); reflexivity.
Qed.

Lemma timestampAddRow_appends buf buf1 buf2 strict j :
  stops strict (timestampAddRow buf buf1 buf2 j) = None ->
  timestampAddRow buf buf1 buf2 j <> Keep /\
  forall e, timestampAddRow buf buf1 buf2 j <> Abort e.
Proof.
  unfold timestampAddRow.
  destruct (IsNull buf j || IsNull buf1 j || IsNull buf2 j); [split; discriminate|].
  cbv zeta. destruct (GoTime _) as [err|tm1]; [discriminate|].
  destruct (addUnit _ _ tm1) as [[tb fsp]|]; [|discriminate].
  destruct (Check _); split; discriminate.
Qed.

End TimestampAddClaims.

(** A small clock standing for Go's [time] package and the conversions of
    package [types] in the examples: a time is the count of microseconds
    since the start of day number 0. *)
Definition clockOf (t : MysqlTime) : Z :=
  (((calcDaynr (Year t) (Month t) (Day t) * 24 + Hour t) * 60 + Minute t) * 60 + Second t)
  * 1000000 + Microsecond t.

Definition clockTime (z : Z) : MysqlTime :=
  let day := z / 86400000000 in
  let rest := z mod 86400000000 in
  let '(y, m, d) := getDateFromDaynr day in
  FromDate y m d (rest / 3600000000) (rest / 60000000 mod 60) (rest / 1000000 mod 60)
    (rest mod 1000000).

Definition clockAdd (tm : Z) (ns : Z) : Z := tm + ns / 1000.

Definition clockAddDate (tm : Z) (years months days : Z) : Z :=
  let t := clockTime tm in
  let mi := (Year t + years) * 12 + (Month t - 1) + months in
  (calcDaynr (mi / 12) (mi mod 12 + 1) 1 + (Day t - 1) + days) * 86400000000
  + tm mod 86400000000.

Definition clockResolveType (tp : TimeType) (unit : string) : TimeType :=
  match tp with
  | TypeDate =>
      if existsb (String.eqb unit) ["MICROSECOND"; "SECOND"; "MINUTE"; "HOUR"]%string
      then TypeDatetime else TypeDate
  | _ => tp
  end.

Fixpoint padded (width : nat) (z : Z) : string :=
  match width with
  | O => EmptyString
  | Datatypes.S w' =>
      padded w' (z / 10) ++ String (Ascii.ascii_of_nat (48 + Z.to_nat (z mod 10))) EmptyString
  end.

Definition clockString (t : Time) : string :=
  let c := CoreTime t in
  let date := (padded 4 (Year c) ++ "-" ++ padded 2 (Month c) ++ "-" ++ padded 2 (Day c))%string in
  match Type_ t with
  | TypeDate => date
  | _ =>
      (date ++ " " ++ padded 2 (Hour c) ++ ":" ++ padded 2 (Minute c) ++ ":" ++
       padded 2 (Second c) ++
       (if (Fsp t =? 0)%Z then ""
        else "." ++ padded (Z.to_nat (Fsp t)) (Microsecond c / 10 ^ (6 - Fsp t))%Z))%string
  end.

Definition clockTimestampAdd :=
  builtinTimestampAddSig_vecEvalString Z (fun t => inr (clockOf t)) clockAdd clockAddDate
    clockTime clockResolveType (fun _ => None) clockString.





Lemma freshWorld_loanable3 : loanable3 freshWorld.
Proof. unfold loanable3; simpl; lia. Qed.





(** * The calendar *)

(** Calendar dates, stepped one day at a time. *)
Definition daysIn (year month : Z) : Z :=
  if month =? 2 then (if isLeapYear year then 29 else 28)
  else nth (Z.to_nat (month - 1)) daysInMonth 0.

Definition nextDay (date : Z * Z * Z) : Z * Z * Z :=
  let '(y, m, d) := date in
  if d <? daysIn y m then (y, m, d + 1)
  else if m <? 12 then (y, m + 1, 1)
  else (y + 1, 1, 1).

Definition advance (k : nat) (date : Z * Z * Z) : Z * Z * Z := Nat.iter k nextDay date.

Definition validDate (date : Z * Z * Z) : Prop :=
  let '(y, m, d) := date in 1 <= y /\ 1 <= m <= 12 /\ 1 <= d <= daysIn y m.

Definition daynrOf (date : Z * Z * Z) : Z :=
  let '(y, m, d) := date in calcDaynr y m d.

(** The leap days counted by the day number up to a year. *)
Definition leapTerm (z : Z) : Z := z / 4 - (z / 100 + 1) * 3 / 4.

Lemma isLeapYear_spec y :
  1 <= y ->
  isLeapYear y = true <->
  (y mod 4 = 0 /\ (y mod 100 <> 0 \/ y mod 400 = 0)).
Proof.
  intros Hy. unfold isLeapYear.
  rewrite andb_true_iff, orb_true_iff, negb_true_iff, andb_true_iff, negb_true_iff.
  rewrite !Z.eqb_eq, !Z.eqb_neq. intuition lia.
Qed.

Lemma leapTerm_step y :
  1 <= y -> leapTerm y = leapTerm (y - 1) + (if isLeapYear y then 1 else 0).
Proof.
  intros Hy. unfold leapTerm. destruct (isLeapYear y) eqn:El.
  - apply isLeapYear_spec in El; [|lia]. destruct El as [H4 H].
    assert (E1 : y / 4 = (y - 1) / 4 + 1) by (Z.div_mod_to_equations; lia).
    assert (E2 : (y / 100 + 1) * 3 / 4 = ((y - 1) / 100 + 1) * 3 / 4).
    { destruct H as [H|H].
      - replace ((y - 1) / 100) with (y / 100) by (Z.div_mod_to_equations; lia).
        reflexivity.
      - Z.div_mod_to_equations; lia. }
    lia.
  - assert (Hn : ~ (y mod 4 = 0 /\ (y mod 100 <> 0 \/ y mod 400 = 0)))
      by (rewrite <- isLeapYear_spec by lia; congruence).
    destruct (Z.eq_dec (y mod 4) 0) as [H4|H4].
    + assert (H100 : y mod 100 = 0) by lia.
      assert (H400 : y mod 400 <> 0) by lia.
      assert (E1 : y / 4 = (y - 1) / 4 + 1) by (Z.div_mod_to_equations; lia).
      assert (E2 : (y / 100 + 1) * 3 / 4 = ((y - 1) / 100 + 1) * 3 / 4 + 1)
        by (Z.div_mod_to_equations; lia).
      lia.
    + assert (E1 : y / 4 = (y - 1) / 4) by (Z.div_mod_to_equations; lia).
      assert (E2 : y / 100 = (y - 1) / 100) by (Z.div_mod_to_equations; lia).
      rewrite E1, E2. lia.
Qed.

Lemma goDiv_nonneg a b : 0 <= a -> 0 < b -> goDiv a b = a / b.
Proof. intros. unfold goDiv. apply Z.quot_div_nonneg; lia. Qed.

Lemma calcDaynr_early y m d :
  1 <= y -> 1 <= m <= 2 ->
  calcDaynr y m d = 365 * y + 31 * (m - 1) + d + leapTerm (y - 1).
Proof.
  intros Hy Hm. unfold calcDaynr, leapTerm, goDiv.
  replace (m =? 0) with false by (symmetry; apply Z.eqb_neq; lia).
  replace (m <=? 2) with true by (symmetry; apply Z.leb_le; lia).
  rewrite andb_false_r. cbv zeta.
  assert (0 <= (y - 1) / 100) by (apply Z.div_pos; lia).
  rewrite (Z.quot_div_nonneg (y - 1) 100), (Z.quot_div_nonneg (y - 1) 4) by lia.
  rewrite Z.quot_div_nonneg by lia. lia.
Qed.

Lemma calcDaynr_late y m d :
  1 <= y -> 3 <= m ->
  calcDaynr y m d = 365 * y + 31 * (m - 1) + d - (m * 4 + 23) / 10 + leapTerm y.
Proof.
  intros Hy Hm. unfold calcDaynr, leapTerm, goDiv.
  replace (m =? 0) with false by (symmetry; apply Z.eqb_neq; lia).
  replace (m <=? 2) with false by (symmetry; apply Z.leb_gt; lia).
  rewrite andb_false_r. cbv zeta.
  assert (0 <= y / 100) by (apply Z.div_pos; lia).
  rewrite (Z.quot_div_nonneg y 100), (Z.quot_div_nonneg y 4) by lia.
  rewrite (Z.quot_div_nonneg (m * 4 + 23) 10) by lia.
  rewrite Z.quot_div_nonneg by lia. lia.
Qed.

Lemma daysIn_table y :
  daysIn y 1 = 31 /\ daysIn y 2 = (if isLeapYear y then 29 else 28) /\
  daysIn y 3 = 31 /\ daysIn y 4 = 30 /\ daysIn y 5 = 31 /\ daysIn y 6 = 30 /\
  daysIn y 7 = 31 /\ daysIn y 8 = 31 /\ daysIn y 9 = 30 /\ daysIn y 10 = 31 /\
  daysIn y 11 = 30 /\ daysIn y 12 = 31.
Proof. repeat split; reflexivity. Qed.

Ltac month_cases m :=
  let H := fresh "Hcases" in
  assert (m = 1 \/ m = 2 \/ m = 3 \/ m = 4 \/ m = 5 \/ m = 6 \/
          m = 7 \/ m = 8 \/ m = 9 \/ m = 10 \/ m = 11 \/ m = 12) as H by lia;
  destruct H as [?|[?|[?|[?|[?|[?|[?|[?|[?|[?|[?|?]]]]]]]]]]]; subst m.

(** Comparisons of numerals, decided. *)
Ltac decide_consts :=
  repeat match goal with
         | |- context [?a <? ?b] =>
             let r := eval vm_compute in (a <? b) in
             match r with
             | true => change (a <? b) with true
             | false => change (a <? b) with false
             end
         | |- context [Z.pos ?p + 1] =>
             let r := eval vm_compute in (Z.pos p + 1) in
             change (Z.pos p + 1) with r
         end; cbv iota.

Ltac daynr_arith :=
  repeat first [rewrite calcDaynr_early by lia | rewrite calcDaynr_late by lia];
  Z.div_mod_to_equations; lia.

Lemma calcDaynr_nextDay date :
  validDate date ->
  validDate (nextDay date) /\ daynrOf (nextDay date) = daynrOf date + 1.
Proof.
  destruct date as [[y m] d]. unfold validDate, nextDay, daynrOf. intros [Hy [Hm Hd]].
  assert (Hstep := leapTerm_step y Hy).
  assert (Hnext : leapTerm (y + 1 - 1) = leapTerm y) by (f_equal; lia).
  destruct (daysIn_table y) as (T1 & T2 & T3 & T4 & T5 & T6 & T7 & T8 & T9 & T10 & T11 & T12).
  destruct (daysIn_table (y + 1)) as (N1 & _).
  month_cases m;
    rewrite ?T1, ?T2, ?T3, ?T4, ?T5, ?T6, ?T7, ?T8, ?T9, ?T10, ?T11, ?T12 in *;
    try (destruct (isLeapYear y));
    match goal with
    | |- context [d <? ?k] =>
        destruct (d <? k) eqn:E; [apply Z.ltb_lt in E|apply Z.ltb_ge in E]
    end;
    decide_consts;
    rewrite ?T1, ?T2, ?T3, ?T4, ?T5, ?T6, ?T7, ?T8, ?T9, ?T10, ?T11, ?T12, ?N1;
    (split; [lia|daynr_arith]).
Qed.

Lemma advance_daynr k date :
  validDate date ->
  validDate (advance k date) /\ daynrOf (advance k date) = daynrOf date + Z.of_nat k.
Proof.
  intros Hv. induction k as [|k [IH1 IH2]]; simpl.
  - split; auto. lia.
  - destruct (calcDaynr_nextDay _ IH1) as [H1 H2]. split; auto.
    unfold advance in *. rewrite H2, IH2. lia.
Qed.

(** The day number of 1 January. *)
Definition yearStart (y : Z) : Z := 365 * y + 1 + leapTerm (y - 1).

Lemma yearStart_step y : 1 <= y -> yearStart (y + 1) = yearStart y + calcDaysInYear y.
Proof.
  intros Hy. unfold yearStart, calcDaysInYear.
  replace (y + 1 - 1) with y by lia.
  rewrite (leapTerm_step y Hy). destruct (isLeapYear y); lia.
Qed.

(** The day of the year of a valid date: its day number counted from
    1 January. *)
Lemma dayOfYear_range y m d :
  validDate (y, m, d) ->
  yearStart y <= calcDaynr y m d <= yearStart y + calcDaysInYear y - 1.
Proof.
  unfold validDate. intros [Hy [Hm Hd]]. unfold yearStart, calcDaysInYear.
  assert (Hstep := leapTerm_step y Hy).
  destruct (daysIn_table y) as (T1 & T2 & T3 & T4 & T5 & T6 & T7 & T8 & T9 & T10 & T11 & T12).
  month_cases m;
    rewrite ?T1, ?T2, ?T3, ?T4, ?T5, ?T6, ?T7, ?T8, ?T9, ?T10, ?T11, ?T12 in *;
    destruct (isLeapYear y); daynr_arith.
Qed.

Lemma year_estimate y n :
  1 <= y <= 10000 ->
  yearStart y <= n < yearStart (y + 1) ->
  let q := n * 100 / 36525 in
  1 <= q /\ (q = y \/ q = y - 1).
Proof.
  intros Hy Hn q. unfold yearStart, leapTerm in Hn.
  replace (y + 1 - 1) with y in Hn by lia.
  assert (Hlo : 36525 * (y - 1) <= n * 100) by (Z.div_mod_to_equations; lia).
  assert (Hhi : n * 100 < 36525 * (y + 1)) by (Z.div_mod_to_equations; lia).
  assert (H366 : 366 <= n) by (Z.div_mod_to_equations; lia).
  unfold q. clear Hn. Z.div_mod_to_equations. lia.
Qed.

Lemma skipYears_exact fuel y doy :
  doy <= calcDaysInYear y -> skipYears fuel y doy = (y, doy).
Proof.
  intros H. destruct fuel; simpl; auto.
  replace (calcDaysInYear y <? doy) with false by (symmetry; apply Z.ltb_ge; lia).
  reflexivity.
Qed.

(** Branches on comparisons, decided by arithmetic. *)
Ltac decide_branches :=
  repeat match goal with
         | |- context [?a <=? ?b] =>
             first [ replace (a <=? b) with true by (symmetry; apply Z.leb_le; lia)
                   | replace (a <=? b) with false by (symmetry; apply Z.leb_gt; lia) ]
         | |- context [?a <? ?b] =>
             first [ replace (a <? b) with true by (symmetry; apply Z.ltb_lt; lia)
                   | replace (a <? b) with false by (symmetry; apply Z.ltb_ge; lia) ]
         | |- context [?a =? ?b] =>
             first [ replace (a =? b) with true by (symmetry; apply Z.eqb_eq; lia)
                   | replace (a =? b) with false by (symmetry; apply Z.eqb_neq; lia) ]
         end.

Lemma monthOfDay y m d doy :
  validDate (y, m, d) ->
  doy = calcDaynr y m d - yearStart y + 1 ->
  let leap := (calcDaysInYear y =? 366) && (31 + 28 <? doy) in
  let doy' := if leap then doy - 1 else doy in
  let leapDay := if leap && (doy' =? 31 + 28) then 1 else 0 in
  let (month, rest) := skipMonths daysInMonth 1 doy' in
  (y, month, rest + leapDay) = (y, m, d).
Proof.
  unfold validDate. intros [Hy [Hm Hd]] Hdoy.
  assert (Hstep := leapTerm_step y Hy).
  unfold yearStart in Hdoy. unfold calcDaysInYear.
  destruct (daysIn_table y) as (T1 & T2 & T3 & T4 & T5 & T6 & T7 & T8 & T9 & T10 & T11 & T12).
  month_cases m;
    rewrite ?T1, ?T2, ?T3, ?T4, ?T5, ?T6, ?T7, ?T8, ?T9, ?T10, ?T11, ?T12 in *;
    first [rewrite calcDaynr_early in Hdoy by lia | rewrite calcDaynr_late in Hdoy by lia];
    destruct (isLeapYear y);
    match type of Hdoy with
    | context [?a / ?b] =>
        let r := eval vm_compute in (a / b) in change (a / b) with r in Hdoy
    | _ => idtac
    end;
    cbv zeta; unfold skipMonths, daysInMonth;
    decide_branches; cbv iota; simpl andb; cbv iota;
    decide_branches; cbv iota; simpl andb; cbv iota;
    decide_branches; cbv iota;
    try (repeat f_equal; lia).
  all: destruct (Z.ltb_spec 59 doy); cbv iota; simpl andb; cbv iota;
    decide_branches; cbv iota; repeat f_equal; lia.
Qed.

(** The date of a day number is the date the number was computed from. *)
Lemma getDateFromDaynr_calcDaynr y m d :
  validDate (y, m, d) -> y <= 10000 -> calcDaynr y m d < 3652500 ->
  getDateFromDaynr (calcDaynr y m d) = (y, m, d).
Proof.
  intros Hv Hy Hn.
  assert (Hy1 : 1 <= y) by (destruct Hv; auto).
  destruct (dayOfYear_range y m d Hv) as [Hlo Hhi].
  set (n := calcDaynr y m d) in *.
  assert (Hnext : n < yearStart (y + 1)) by (rewrite yearStart_step by lia; lia).
  destruct (year_estimate y n ltac:(lia) ltac:(lia)) as [Hq1 Hq].
  assert (H366 : 366 <= n).
  { unfold yearStart, leapTerm in Hlo. Z.div_mod_to_equations; lia. }
  unfold getDateFromDaynr.
  replace (n <=? 365) with false by (symmetry; apply Z.leb_gt; lia).
  replace (3652500 <=? n) with false by (symmetry; apply Z.leb_gt; lia).
  cbv zeta beta iota. simpl orb. cbv iota.
  set (q := n * 100 / 36525) in *.
  assert (Hdoy0 : n - q * 365 - (q - 1) / 4 + ((q - 1) / 100 + 1) * 3 / 4 =
                  n - yearStart q + 1)
    by (unfold yearStart, leapTerm; lia).
  rewrite Hdoy0.
  assert (Hskip : skipYears (Z.to_nat ((n - yearStart q + 1) / 365)) q (n - yearStart q + 1) =
                  (y, n - yearStart y + 1)).
  { destruct Hq as [->| ->].
    - apply skipYears_exact. lia.
    - assert (Hs := yearStart_step (y - 1) ltac:(lia)).
      replace (y - 1 + 1) with y in Hs by lia.
      assert (Hbig : 365 <= calcDaysInYear (y - 1) <= 366)
        by (unfold calcDaysInYear; destruct (isLeapYear (y - 1)); lia).
      assert (Hfuel : 1 <= (n - yearStart (y - 1) + 1) / 365)
        by (apply Z.div_le_lower_bound; lia).
      destruct (Z.to_nat ((n - yearStart (y - 1) + 1) / 365)) as [|fuel] eqn:Ef; [lia|].
      simpl.
      replace (calcDaysInYear (y - 1) <? n - yearStart (y - 1) + 1) with true
        by (symmetry; apply Z.ltb_lt; lia).
      replace (y - 1 + 1) with y by lia.
      rewrite skipYears_exact by lia. f_equal. lia. }
  rewrite Hskip.
  assert (Hmd := monthOfDay y m d (n - yearStart y + 1) Hv eq_refl).
  cbv zeta in Hmd. destruct (skipMonths _ _ _) as [month rest]. exact Hmd.
Qed.

(** * MAKEDATE *)

Definition windowedYear (year : Z) : Z :=
  if year <? 70 then year + 2000 else if year <? 100 then year + 1900 else year.

Definition dateOfTriple (date : Z * Z * Z) : Time :=
  let '(y, m, d) := date in mkTime (FromDate y m d 0 0 0 0) TypeDate 0.

Definition makeDateRow (years days : nat -> Z) (i : nat) : RowOutcome Time :=
  if (days i <=? 0) || (years i <? 0) || (9999 <? years i) then Nullify
  else
    let year := if years i <? 70 then wrap64 (years i + 2000)
                else if years i <? 100 then wrap64 (years i + 1900)
                else years i in
    let startTime := mkTime (FromDate year 1 1 0 0 0 0) TypeDate 0 in
    let retTimestamp := TimestampDiff_DAY ZeroDate startTime in
    if retTimestamp =? 0 then Invalid (wrongDate startTime)
    else
      let ret_ := TimeFromDays (wrap64 (retTimestamp + days i - 1)) in
      if IsZero ret_ || (9999 <? Year (CoreTime ret_)) then Nullify
      else Value ret_.

Definition makeDateStart (n : nat) (result : Column Time) (buf1 buf2 : Column Z)
  : Column Time :=
  MergeNulls (ResizeTime n result) [nullBitmap buf1; nullBitmap buf2].

Lemma makedate_run b input result w ws1 buf1 ws2 buf2 :
  loanable2 w ->
  VecEvalInt (args b 0) input (warnings w) = (ws1, inr buf1) ->
  VecEvalInt (args b 1) input ws1 = (ws2, inr buf2) ->
  snd (builtinMakeDateSig_vecEvalTime b input result w) =
  snd (colEval (ctx b)
         (guarded (makeDateStart (NumRows input) result buf1 buf2)
            (makeDateRow (Int64s buf1) (Int64s buf2)))
         (NumRows input) (makeDateStart (NumRows input) result buf1 buf2)).
Proof.
  intros Hl He1 He2. unfold builtinMakeDateSig_vecEvalTime. cbv zeta.
  rewrite snd_run_loan by (apply loanable2_fst; auto).
  rewrite (run_arg (VecEvalInt (args b 0)) input _ (lent w) ws1 buf1 He1).
  rewrite snd_run_loan by (apply loanable2_snd; auto).
  rewrite (run_arg (VecEvalInt (args b 1)) input _ (lent (withWarnings ws1 (lent w)))
             ws2 buf2 He2).
  rewrite (guarded_rows zeroTime (ctx b) (makeDateRow (Int64s buf1) (Int64s buf2))).
  - unfold makeDateStart. destruct (colEval _ _ _ _); reflexivity.
  - intros i r w0. unfold makeDateRow, wrongDate, rowAct, setRowNull.
    destruct (IsNull r i); [reflexivity|].
    destruct ((Int64s buf2 i <=? 0) || (Int64s buf1 i <? 0) || (9999 <? Int64s buf1 i));
      [reflexivity|].
    cbv zeta. destruct (TimestampDiff_DAY _ _ =? 0); [reflexivity|].
    destruct (IsZero _ || _); reflexivity.
Qed.

Lemma makeDateStart_rows n result buf1 buf2 : rows (makeDateStart n result buf1 buf2) = n.
Proof. unfold makeDateStart, ResizeTime. now rewrite rows_MergeNulls2, rows_Resize. Qed.

Lemma makeDateStart_elems n result buf1 buf2 :
  List.length (elems (makeDateStart n result buf1 buf2)) = n.
Proof. unfold makeDateStart, ResizeTime, MergeNulls; simpl. apply (elems_Resize zeroTime). Qed.

Lemma makeDateStart_IsNull n result buf1 buf2 i :
  (i < n)%nat ->
  IsNull (makeDateStart n result buf1 buf2) i = IsNull buf1 i || IsNull buf2 i.
Proof.
  intros Hi. unfold makeDateStart, ResizeTime.
  rewrite IsNull_MergeNulls2 by (now rewrite rows_Resize).
  now rewrite IsNull_Resize.
Qed.

(** The day offset of 1 January of a year from the zero date. *)
Lemma TimestampDiff_DAY_jan1 year :
  1 <= year ->
  TimestampDiff_DAY ZeroDate (mkTime (FromDate year 1 1 0 0 0 0) TypeDate 0) = yearStart year.
Proof.
  intros Hy. unfold TimestampDiff_DAY, ZeroDate, ZeroTime. simpl CoreTime.
  cbn [Year Month Day Hour Minute Second Microsecond].
  change (calcDaynr 0 0 0) with 0.
  rewrite calcDaynr_early by lia. fold (yearStart year).
  replace (365 * year + 31 * (1 - 1) + 1 + leapTerm (year - 1)) with (yearStart year)
    by (unfold yearStart; lia).
  unfold goDiv.
  replace ((yearStart year * 86400 + 0 * 3600 + 0 * 60 + 0) * 1000000 + 0 -
           ((0 * 86400 + 0 * 3600 + 0 * 60 + 0) * 1000000 + 0))
    with (yearStart year * 86400 * 1000000) by lia.
  rewrite Z.quot_mul by lia. apply Z.quot_mul. lia.
Qed.

Lemma yearStart_mono y k : 1 <= y -> 0 <= k -> yearStart y + 365 * k <= yearStart (y + k).
Proof.
  intros Hy Hk. revert k Hk.
  apply (natlike_ind (fun k => yearStart y + 365 * k <= yearStart (y + k))).
  - replace (y + 0) with y by lia. lia.
  - intros k Hk IH. replace (y + Z.succ k) with (y + k + 1) by lia.
    rewrite yearStart_step by lia.
    unfold calcDaysInYear. destruct (isLeapYear (y + k)); lia.
Qed.

Lemma yearStart_10000 : yearStart 10000 = 3652425.
Proof. reflexivity. Qed.

Lemma windowedYear_range y : 0 <= y <= 9999 -> 100 <= windowedYear y <= 9999.
Proof.
  intros H. unfold windowedYear.
  destruct (y <? 70) eqn:E1; [apply Z.ltb_lt in E1; lia|apply Z.ltb_ge in E1].
  destruct (y <? 100) eqn:E2; [apply Z.ltb_lt in E2; lia|apply Z.ltb_ge in E2; lia].
Qed.

Lemma IsZero_dateOfTriple y m d : 1 <= m -> IsZero (dateOfTriple (y, m, d)) = false.
Proof.
  intros Hm. unfold IsZero, dateOfTriple. simpl.
  replace (m =? 0) with false by (symmetry; apply Z.eqb_neq; lia).
  now rewrite andb_false_r.
Qed.

(** What MAKEDATE does with one row, on the calendar. *)
Lemma makeDateRow_calendar years days i :
  days i < 2 ^ 63 ->
  let year := years i in
  let dayCount := days i in
  ((dayCount <= 0 \/ year < 0 \/ 9999 < year) ->
   makeDateRow years days i = Nullify) /\
  (0 < dayCount -> 0 <= year <= 9999 ->
   let target := advance (Z.to_nat (dayCount - 1)) (windowedYear year, 1, 1) in
   (9999 < fst (fst target) -> makeDateRow years days i = Nullify) /\
   (fst (fst target) <= 9999 -> makeDateRow years days i = Value (dateOfTriple target))).
Proof.
  intros Hmax year dayCount. fold dayCount in Hmax. split.
  - intros H. unfold makeDateRow. fold year dayCount.
    replace ((dayCount <=? 0) || (year <? 0) || (9999 <? year)) with true; auto.
    symmetry. rewrite !orb_true_iff, Z.leb_le, !Z.ltb_lt. tauto.
  - intros Hd Hy target.
    assert (Hw := windowedYear_range year Hy).
    assert (Hguard : (dayCount <=? 0) || (year <? 0) || (9999 <? year) = false).
    { rewrite !orb_false_iff, Z.leb_gt, !Z.ltb_ge. lia. }
    assert (Hyear : (if year <? 70 then wrap64 (year + 2000)
                     else if year <? 100 then wrap64 (year + 1900) else year)
                    = windowedYear year).
    { unfold windowedYear. rewrite !wrap64_small by lia. reflexivity. }
    assert (Hvalid : validDate (windowedYear year, 1, 1))
      by (unfold validDate, daysIn; simpl; lia).
    destruct (advance_daynr (Z.to_nat (dayCount - 1)) _ Hvalid) as [Hvt Hnr].
    fold target in Hvt, Hnr.
    assert (Hstart : daynrOf (windowedYear year, 1, 1) = yearStart (windowedYear year))
      by (unfold daynrOf, yearStart; rewrite calcDaynr_early by lia; lia).
    rewrite Hstart, Z2Nat.id in Hnr by lia.
    assert (H366 : 366 <= yearStart (windowedYear year))
      by (unfold yearStart, leapTerm; Z.div_mod_to_equations; lia).
    destruct target as [[Y M] D] eqn:Et. simpl fst.
    destruct (dayOfYear_range Y M D Hvt) as [Hlo Hhi].
    unfold daynrOf in Hnr. rewrite Hnr in Hlo, Hhi.
    assert (HY : 1 <= Y) by (destruct Hvt; auto).
    assert (HM : 1 <= M) by (destruct Hvt as [_ [? _]]; lia).
    assert (Hrow : makeDateRow years days i =
              let ret_ := TimeFromDays
                            (wrap64 (yearStart (windowedYear year) + dayCount - 1)) in
              if IsZero ret_ || (9999 <? Year (CoreTime ret_)) then Nullify else Value ret_).
    { unfold makeDateRow. fold year dayCount. rewrite Hguard. cbv zeta.
      rewrite Hyear, TimestampDiff_DAY_jan1 by lia.
      replace (yearStart (windowedYear year) =? 0) with false
        by (symmetry; apply Z.eqb_neq; lia).
      reflexivity. }
    rewrite Hrow. cbv zeta.
    set (N := yearStart (windowedYear year) + dayCount - 1) in *.
    assert (HnrN : calcDaynr Y M D = N) by (unfold N; lia).
    assert (Hbound : yearStart (windowedYear year) <= 3652425).
    { assert (Hm := yearStart_mono (windowedYear year) (10000 - windowedYear year)
                      ltac:(lia) ltac:(lia)).
      replace (windowedYear year + (10000 - windowedYear year)) with 10000 in Hm by lia.
      rewrite yearStart_10000 in Hm. lia. }
    split.
    + intros Hbig.
      assert (Hfar : 3652425 <= N).
      { assert (Hm := yearStart_mono 10000 (Y - 10000) ltac:(lia) ltac:(lia)).
        replace (10000 + (Y - 10000)) with Y in Hm by lia.
        rewrite yearStart_10000 in Hm. lia. }
      destruct (Z_lt_ge_dec N (2 ^ 63)) as [Hfit|Hover].
      * rewrite wrap64_small by lia. unfold TimeFromDays.
        replace (N <? 0) with false by (symmetry; apply Z.ltb_ge; lia).
        destruct (Z_lt_ge_dec N 3652500) as [Hin|Hout].
        -- assert (HY10 : Y <= 10000).
           { destruct (Z_le_gt_dec Y 10000); auto.
             assert (Hm := yearStart_mono 10000 (Y - 10000) ltac:(lia) ltac:(lia)).
             replace (10000 + (Y - 10000)) with Y in Hm by lia.
             rewrite yearStart_10000 in Hm. lia. }
           rewrite <- HnrN, getDateFromDaynr_calcDaynr by (auto; lia).
           simpl. replace (9999 <? Y) with true by (symmetry; apply Z.ltb_lt; lia).
           now rewrite orb_true_r.
        -- unfold getDateFromDaynr.
           replace (3652500 <=? N) with true by (symmetry; apply Z.leb_le; lia).
           rewrite orb_true_r. reflexivity.
      * assert (Hneg : wrap64 N < 0).
        { unfold wrap64.
          replace (N + 2 ^ 63) with (N - 2 ^ 63 + 1 * 2 ^ 64) by lia.
          rewrite Z.mod_add by lia. rewrite Z.mod_small by lia. lia. }
        unfold TimeFromDays.
        replace (wrap64 N <? 0) with true by (symmetry; apply Z.ltb_lt; lia).
        reflexivity.
    + intros Hsmall.
      assert (Hnear : N < 3652425).
      { assert (Hm := yearStart_mono (Y + 1) (10000 - (Y + 1)) ltac:(lia) ltac:(lia)).
        replace (Y + 1 + (10000 - (Y + 1))) with 10000 in Hm by lia.
        rewrite yearStart_10000, yearStart_step in Hm by lia. lia. }
      rewrite wrap64_small by lia. unfold TimeFromDays.
      replace (N <? 0) with false by (symmetry; apply Z.ltb_ge; lia).
      rewrite <- HnrN, getDateFromDaynr_calcDaynr by (auto; lia).
      change (mkTime (FromDate Y M D 0 0 0 0) TypeDate 0) with (dateOfTriple (Y, M, D)).
      rewrite IsZero_dateOfTriple by lia. simpl.
      replace (9999 <? Y) with false by (symmetry; apply Z.ltb_ge; lia).
      reflexivity.
Qed.

(** MAKEDATE never hands a row to the invalid-time policy: 1 January of a
    year from 100 to 9999 is never at offset 0. *)
Lemma makeDateRow_total strict years days i :
  stops strict (makeDateRow years days i) = None.
Proof.
  unfold makeDateRow.
  destruct ((days i <=? 0) || (years i <? 0) || (9999 <? years i)) eqn:Hg; [reflexivity|].
  rewrite !orb_false_iff, Z.leb_gt, !Z.ltb_ge in Hg.
  assert (Hy : 0 <= years i <= 9999) by lia.
  assert (Hw := windowedYear_range (years i) Hy).
  assert (Hyear : (if years i <? 70 then wrap64 (years i + 2000)
                   else if years i <? 100 then wrap64 (years i + 1900) else years i)
                  = windowedYear (years i)).
  { unfold windowedYear. rewrite !wrap64_small by lia. reflexivity. }
  cbv zeta. rewrite Hyear, TimestampDiff_DAY_jan1 by lia.
  assert (H366 : 366 <= yearStart (windowedYear (years i)))
    by (unfold yearStart, leapTerm; Z.div_mod_to_equations; lia).
  replace (yearStart (windowedYear (years i)) =? 0) with false
    by (symmetry; apply Z.eqb_neq; lia).
  destruct (IsZero _ || _); reflexivity.
Qed.

(** A two-row batch for MAKEDATE(year, dayCount): (2024, 60) and (2024, 0). *)
Definition yearsBatch : Column Z := mkColumn [false; false] [2024; 2024].
Definition dayCountsBatch : Column Z := mkColumn [false; false] [60; 0].
Definition emptyTimes : Column Time := mkColumn [] [].

(** C6. For every row of MAKEDATE(year, dayCount) without NULL: the row is
    set null, without error, whenever dayCount <= 0 or year is outside
    [0, 9999]; years 0 to 69 stand for 2000 to 2069 and years 70 to 99 for
    1970 to 1999; otherwise the result is the calendar date reached by
    advancing dayCount - 1 days from 1 January of that year, and the row is
    set null when that date lies beyond year 9999. The batch call itself
    never fails on a row. MAKEDATE(2024, 60) is 2024-02-29 and
    MAKEDATE(2024, 0) is null. *)
Theorem makedate_is_the_day_of_the_year :
  forall (b : baseBuiltinFunc) (input : Chunk) (result : Column Time) (w : World)
         (ws1 ws2 : list error) (buf1 buf2 : Column Z) (i : nat),
    loanable2 w ->
    VecEvalInt (args b 0) input (warnings w) = (ws1, inr buf1) ->
    VecEvalInt (args b 1) input ws1 = (ws2, inr buf2) ->
    (i < NumRows input)%nat ->
    IsNull buf1 i = false -> IsNull buf2 i = false ->
    Int64s buf2 i < 2 ^ 63 ->
    let year := Int64s buf1 i in
    let dayCount := Int64s buf2 i in
    exists res,
      snd (builtinMakeDateSig_vecEvalTime b input result w) = inr res /\
      ((dayCount <= 0 \/ year < 0 \/ 9999 < year) -> IsNull res i = true) /\
      (0 < dayCount -> 0 <= year <= 9999 ->
       windowedYear year =
         (if year <? 70 then year + 2000 else if year <? 100 then year + 1900 else year) /\
       let target := advance (Z.to_nat (dayCount - 1)) (windowedYear year, 1, 1) in
       (9999 < fst (fst target) -> IsNull res i = true) /\
       (fst (fst target) <= 9999 ->
        IsNull res i = false /\ Times res i = dateOfTriple target)).
Proof.
  intros b input result w ws1 ws2 buf1 buf2 i Hl He1 He2 Hi Hn1 Hn2 Hmax year dayCount.
  rewrite (makedate_run b input result w ws1 buf1 ws2 buf2 Hl He1 He2).
  set (n := NumRows input) in *.
  set (start := makeDateStart n result buf1 buf2).
  set (f := makeDateRow (Int64s buf1) (Int64s buf2)).
  rewrite guarded_total by (intros; apply makeDateRow_total).
  eexists. split; [reflexivity|].
  assert (Hlive : IsNull start i = false)
    by (unfold start; rewrite makeDateStart_IsNull, Hn1, Hn2; auto).
  assert (Hg : guarded start f i = f i) by (apply guarded_live; auto).
  destruct (makeDateRow_calendar (Int64s buf1) (Int64s buf2) i Hmax) as [Hnull Hdate].
  fold f year dayCount in Hnull, Hdate.
  assert (Hr : rows start = n) by apply makeDateStart_rows.
  assert (He : List.length (elems start) = n) by apply makeDateStart_elems.
  split.
  - intros Hbad. rewrite colFinal_null, Hg, (Hnull Hbad) by auto. reflexivity.
  - intros Hd Hy. split; [reflexivity|].
    destruct (Hdate Hd Hy) as [Hfar Hnear]. cbv zeta. split.
    + intros Hbig. rewrite colFinal_null, Hg, (Hfar Hbig) by auto. reflexivity.
    + intros Hsmall. unfold Times.
      rewrite colFinal_null, (colFinal_elem zeroTime), Hg, (Hnear Hsmall) by auto.
      auto.
Qed.

Lemma makedate_is_the_day_of_the_year_witness :
  exists res,
    snd (builtinMakeDateSig_vecEvalTime (onInts (session false false) yearsBatch dayCountsBatch)
           twoRows emptyTimes freshWorld) = inr res /\
    IsNull res 0 = false /\ Times res 0 = dateOf 2024 2 29 /\
    IsNull res 1 = true.
Proof.
  destruct (makedate_is_the_day_of_the_year
              (onInts (session false false) yearsBatch dayCountsBatch)
              twoRows emptyTimes freshWorld [] [] yearsBatch dayCountsBatch 0
              ltac:(unfold loanable2; simpl; lia) eq_refl eq_refl
              ltac:(simpl; lia) eq_refl eq_refl eq_refl)
    as [res [E [_ H0]]].
  destruct (makedate_is_the_day_of_the_year
              (onInts (session false false) yearsBatch dayCountsBatch)
              twoRows emptyTimes freshWorld [] [] yearsBatch dayCountsBatch 1
              ltac:(unfold loanable2; simpl; lia) eq_refl eq_refl
              ltac:(simpl; lia) eq_refl eq_refl eq_refl)
    as [res' [E' [H1 _]]].
  rewrite E in E'. inversion E'; subst res'.
  exists res. split; [exact E|].
  destruct (H0 eq_refl ltac:(vm_compute; split; congruence)) as [_ [_ Hnear]].
  destruct (Hnear ltac:(vm_compute; congruence)) as [Hnn Hv].
  split; [exact Hnn|]. split.
  - rewrite Hv. reflexivity.
  - apply H1. left. vm_compute. congruence.
Defined.

(** * SEC_TO_TIME *)

(** The magnitude of the input, its whole seconds, the fraction the loop
    calls [demical], and the hour component [seconds / 3600]. *)
Definition magnitude (x : float) : float :=
  if PrimFloat.ltb x 0 then PrimFloat.abs x else x.

Definition wholeSeconds (x : float) : Z := int64OfFloat (magnitude x).

Definition fraction (x : float) : float :=
  PrimFloat.sub (magnitude x) (floatOfInt64 (wholeSeconds x)).

Definition hourComponent (x : float) : Z := goDiv (wholeSeconds x) 3600.

(** The text [838:59:59], with a minus sign for a negative input. *)
Definition ceilingText (isNegative : bool) : DurationText :=
  mkDurationText (if isNegative then "-"%string else EmptyString) 838 59 59%float.

(** An instance of [ParseDuration] for the examples: the nanoseconds the
    text denotes, with no rounding to the precision and no range check. *)
Definition textNanos (t : DurationText) (fsp : Z) : error + Z :=
  let whole := (hour t * 3600 + minute t * 60) * 1000000000 in
  let nanos := whole + int64OfFloat (PrimFloat.mul (secondDemical t) 1000000000) in
  inr (if String.eqb (negative t) "-" then - nanos else nanos).

Definition onReal (c : SessionVars) (col : Column float) : baseBuiltinFunc :=
  {| ctx := c; args := fun _ => realArg col |}.

Definition emptyDurations : Column Z := mkColumn [] [].

(** One-row batches: a whole number of seconds with hour component 838, the
    first whole number of seconds with hour component 839, and half a second
    more. *)
Definition below839 : Column float := mkColumn [false] [3020000%float].
Definition first839 : Column float := mkColumn [false] [3020400%float].
Definition minus839 : Column float := mkColumn [false] [(-3020400)%float].
Definition halfPast839 : Column float := mkColumn [false] [3020400.5%float].

Lemma secToTimeText_fields x :
  secToTimeText x =
  let seconds := wholeSeconds x in
  let sign := if PrimFloat.ltb x 0 then "-"%string else EmptyString in
  if 838 <? hourComponent x
  then mkDurationText sign 838 59 (PrimFloat.add (floatOfInt64 59) (fraction x))
  else mkDurationText sign (hourComponent x) (goDiv (goMod seconds 3600) 60)
         (PrimFloat.add (floatOfInt64 (goMod seconds 60)) (fraction x)).
Proof.
  unfold secToTimeText, hourComponent, fraction, wholeSeconds, magnitude. cbv zeta.
  destruct (838 <? _); reflexivity.
Qed.

(** Above the ceiling the hours, the minutes and the sign of the text are
    those of [838:59:59]; its seconds are 59 plus the fraction of the
    input. *)
Lemma secToTimeText_clamped x :
  838 < hourComponent x ->
  secToTimeText x =
  mkDurationText (negative (ceilingText (PrimFloat.ltb x 0))) 838 59
    (PrimFloat.add 59 (fraction x)).
Proof.
  intros H. rewrite secToTimeText_fields. cbv zeta.
  apply Z.ltb_lt in H. rewrite H. unfold ceilingText. simpl negative.
  reflexivity.
Qed.

Lemma secToTimeText_ceiling x :
  838 < hourComponent x -> fraction x = 0%float ->
  secToTimeText x = ceilingText (PrimFloat.ltb x 0).
Proof.
  intros H Hf. rewrite (secToTimeText_clamped x H), Hf. reflexivity.
Qed.

Section SecToTimeClaims.

Variable ParseDuration : DurationText -> Z -> error + Z.

Definition secToTimeRow (tpDecimal : Z) (xs : nat -> float) (i : nat) : RowOutcome Z :=
  match ParseDuration (secToTimeText (xs i)) tpDecimal with
  | inl err => Abort err
  | inr duration => Value duration
  end.

Lemma sectotime_run b tpDecimal input result w ws buf :
  loanable w ->
  VecEvalReal (args b 0) input (warnings w) = (ws, inr buf) ->
  builtinSecToTimeSig_vecEvalDuration ParseDuration b tpDecimal input result w =
  let start := prepared (NumRows input) result (nullBitmap buf) in
  let (ws', r) := colEval (ctx b) (guarded start (secToTimeRow tpDecimal (Float64s buf)))
                    (NumRows input) start in
  (afterRows w ws ws', r).
Proof.
  intros Hl He. unfold builtinSecToTimeSig_vecEvalDuration. run_one_loan Hl He.
  rewrite (guarded_rows 0 (ctx b) (secToTimeRow tpDecimal (Float64s buf))).
  - unfold prepared, afterRows. destruct (colEval _ _ _ _); reflexivity.
  - intros i r w0. unfold secToTimeRow, rowAct.
    destruct (IsNull r i); [reflexivity|].
    destruct (ParseDuration _ _); reflexivity.
Qed.

End SecToTimeClaims.

(** C7, amended. For every non-null row of SEC_TO_TIME whose input is a whole
    number of seconds (the fraction the loop computes is zero) with an hour
    component above 838, that is a magnitude of at least 3020400 seconds, the
    text handed to the duration parser is exactly [838:59:59] with a minus
    sign for a negative input: a batch call that returns gives the row the
    duration the parser reads from that text, the call returns when the
    parser accepts the text of every non-null row, and it fails when the
    parser rejects the text of this row. SEC_TO_TIME(3020400) and
    SEC_TO_TIME(-3020400) give the texts [838:59:59] and [-838:59:59];
    3020000 seconds have the hour component 838, which is not above the
    ceiling, and give the text [838:53:20]. *)
Theorem sec_to_time_whole_seconds_clamp :
  forall (ParseDuration : DurationText -> Z -> error + Z) (b : baseBuiltinFunc)
         (tpDecimal : Z) (input : Chunk) (result : Column Z) (w : World)
         (ws : list error) (buf : Column float) (i : nat),
    loanable w ->
    VecEvalReal (args b 0) input (warnings w) = (ws, inr buf) ->
    (i < NumRows input)%nat ->
    IsNull buf i = false ->
    838 < hourComponent (Float64s buf i) ->
    fraction (Float64s buf i) = 0%float ->
    let x := Float64s buf i in
    let text := ceilingText (PrimFloat.ltb x 0) in
    let run := builtinSecToTimeSig_vecEvalDuration ParseDuration b tpDecimal input result w in
    secToTimeText x = text /\
    (forall res, snd run = inr res ->
       IsNull res i = false /\ ParseDuration text tpDecimal = inr (Int64s res i)) /\
    ((forall j, (j < NumRows input)%nat -> IsNull buf j = false ->
        exists d, ParseDuration (secToTimeText (Float64s buf j)) tpDecimal = inr d) ->
     exists res, snd run = inr res) /\
    (forall err, ParseDuration text tpDecimal = inl err -> exists err', snd run = inl err') /\
    (hourComponent 3020400 = 839 /\
     secToTimeText 3020400 = ceilingText false /\
     secToTimeText (-3020400) = ceilingText true /\
     hourComponent 3020000 = 838 /\
     secToTimeText 3020000 = mkDurationText EmptyString 838 53 20).
Proof.
  intros ParseDuration b tpDecimal input result w ws buf i Hl He Hi Hn Hh Hf x text run.
  assert (Htext : secToTimeText x = text) by (apply secToTimeText_ceiling; assumption).
  assert (Hrun := sectotime_run ParseDuration b tpDecimal input result w ws buf Hl He).
  cbv zeta in Hrun. fold run in Hrun.
  set (n := NumRows input) in *.
  set (start := prepared n result (nullBitmap buf)) in *.
  set (f := secToTimeRow ParseDuration tpDecimal (Float64s buf)) in *.
  assert (Hlive : IsNull start i = false)
    by (unfold start; rewrite prepared_IsNull by auto; exact Hn).
  assert (Hrow : f i = match ParseDuration text tpDecimal with
                       | inl err => Abort err
                       | inr d => Value d
                       end)
    by (unfold f, secToTimeRow; fold x; now rewrite Htext).
  split; [exact Htext|]. split; [|split; [|split]].
  - intros res Hres. rewrite Hrun in Hres.
    destruct (colEval _ _ _ _) as [ws' r] eqn:E. simpl in Hres. rewrite Hres in E.
    destruct (colEval_ok _ _ _ _ _ _ E) as [_ [_ Hstop]].
    specialize (Hstop i Hi). rewrite (guarded_live _ _ _ Hlive), Hrow in Hstop.
    destruct (ParseDuration text tpDecimal) as [err|d] eqn:Ep; [discriminate|].
    destruct (guarded_value_row _ _ _ _ _ i d _ _ Hi Hn Hrow E) as [Hnull Hv].
    split; [exact Hnull|]. now rewrite Hv.
  - intros Hall. rewrite Hrun. rewrite guarded_total; [simpl; eauto|].
    intros j Hj Hlivej. unfold start in Hlivej. rewrite prepared_IsNull in Hlivej by auto.
    destruct (Hall j Hj Hlivej) as [d Hd]. unfold f, secToTimeRow. now rewrite Hd.
  - intros err Hp. rewrite Hrun.
    destruct (colEval_stopped (ctx b) (guarded start f) n start i err Hi) as [ws' [err' E]].
    + rewrite (guarded_live _ _ _ Hlive), Hrow, Hp. reflexivity.
    + rewrite E. simpl. eauto.
  - repeat split; reflexivity.
Qed.

Lemma sec_to_time_whole_seconds_clamp_witness :
  secToTimeText 3020400 = ceilingText false /\
  exists res,
    snd (builtinSecToTimeSig_vecEvalDuration textNanos (onReal (session false false) first839)
           0 oneRow emptyDurations freshWorld) = inr res /\
    IsNull res 0 = false /\ Int64s res 0 = 3020399 * 1000000000.
Proof.
  destruct (sec_to_time_whole_seconds_clamp textNanos (onReal (session false false) first839)
              0 oneRow emptyDurations freshWorld [] first839 0
              freshWorld_loanable eq_refl (le_n 1) eq_refl eq_refl eq_refl)
    as [Htext [Hres [Htotal _]]].
  split; [exact Htext|].
  destruct Htotal as [res E].
  - intros j Hj _. eexists. reflexivity.
  - exists res. split; [exact E|].
    destruct (Hres res E) as [Hnull Hv]. split; [exact Hnull|].
    assert (Hc : textNanos (ceilingText false) 0 = inr (3020399 * 1000000000))
      by reflexivity.
    change (textNanos (ceilingText false) 0 = inr (Int64s res 0)) in Hv.
    congruence.
Defined.

(** C7 as stated fails. SEC_TO_TIME(3020000), the example of the claim, has
    the hour component 838 and is not clamped: the text is [838:53:20], and
    read as it stands the row is 3020000 seconds, not the ceiling
    [838:59:59]. Above the ceiling the fraction of the input stays in the
    text: 3020400.5 seconds give the seconds [59.5], a text that is not
    [838:59:59] and denotes a larger duration. *)
Theorem sec_to_time_clamp_fails :
  (hourComponent 3020000 = 838 /\
   secToTimeText 3020000 = mkDurationText EmptyString 838 53 20 /\
   secToTimeText 3020000 <> ceilingText false /\
   snd (builtinSecToTimeSig_vecEvalDuration textNanos (onReal (session false false) below839)
          0 oneRow emptyDurations freshWorld)
     = inr (mkColumn [false] [3020000 * 1000000000])) /\
  (hourComponent 3020400.5 = 839 /\
   secToTimeText 3020400.5 = mkDurationText EmptyString 838 59 59.5 /\
   secToTimeText 3020400.5 <> ceilingText false /\
   snd (builtinSecToTimeSig_vecEvalDuration textNanos (onReal (session false false) halfPast839)
          0 oneRow emptyDurations freshWorld)
     = inr (mkColumn [false] [3020399 * 1000000000 + 500000000])).
Proof.
  split; (split; [reflexivity|]); (split; [reflexivity|]); (split; [|reflexivity]).
  - intros H. apply (f_equal minute) in H. vm_compute in H. discriminate.
  - intros H. apply (f_equal (fun t => PrimFloat.eqb (secondDemical t) 59)) in H.
    vm_compute in H. discriminate.
Qed.

(** * Further evaluators of the file *)

(** ** QUARTER, DAYOFWEEK and DAYOFMONTH *)

Definition builtinQuarterSig_vecEvalInt (b : baseBuiltinFunc) (input : Chunk)
    (result : Column Z) : M (Column Z) :=
  let n := NumRows input in
  h <- get ETDatetime n ;;
  defer (put h) (
    buf <- VecEval (VecEvalTime (args b 0)) input ;;
    let result := ResizeInt64 n result in
    let result := MergeNulls result [nullBitmap buf] in
    let ds := Times buf in
    forRows (fun i result =>
      if IsNull result i then ret result
      else
        let date := ds i in
        if IsZero date then
          handleInvalidTimeError (ctx b) (ErrWrongValue DateTimeStr (ArgTime date)) ;;;
          ret (SetNull i true result)
        else ret (setElem i (goDiv (Month (CoreTime date) + 2) 3) result))
      0 n result).

Definition builtinDayOfWeekSig_vecEvalInt (b : baseBuiltinFunc) (input : Chunk)
    (result : Column Z) : M (Column Z) :=
  let n := NumRows input in
  h <- get ETDatetime n ;;
  defer (put h) (
    buf <- VecEval (VecEvalTime (args b 0)) input ;;
    let result := ResizeInt64 n result in
    let result := MergeNulls result [nullBitmap buf] in
    let ds := Times buf in
    forRows (fun i result =>
      if IsNull result i then ret result
      else if InvalidZero (ds i) then
        handleInvalidTimeError (ctx b) (ErrWrongValue DateTimeStr (ArgTime (ds i))) ;;;
        ret (SetNull i true result)
      else ret (setElem i (Weekday (CoreTime (ds i)) + 1) result))
      0 n result).

Definition builtinDayOfMonthSig_vecEvalInt (b : baseBuiltinFunc) (input : Chunk)
    (result : Column Z) : M (Column Z) :=
  let n := NumRows input in
  h <- get ETDatetime n ;;
  defer (put h) (
    buf <- VecEval (VecEvalTime (args b 0)) input ;;
    let result := ResizeInt64 n result in
    let result := MergeNulls result [nullBitmap buf] in
    let ds := Times buf in
    forRows (fun i result =>
      if IsNull result i then ret result
      else if IsZero (ds i) then
        if HasNoZeroDateMode (SQLMode (ctx b)) then
          handleInvalidTimeError (ctx b) (ErrWrongValue DateTimeStr (ArgTime (ds i))) ;;;
          ret (SetNull i true result)
        else ret (setElem i 0 result)
      else ret (setElem i (Day (CoreTime (ds i))) result))
      0 n result).


(** ** DATE, LAST_DAY and the date literal *)

(** [times := result.Times()] is the storage of [result]: [times[i]] reads
    the row as the loop has left it. *)
Definition builtinDateSig_vecEvalTime (b : baseBuiltinFunc) (input : Chunk)
    (result : Column Time) : M (Column Time) :=
  result <- VecEval (VecEvalTime (args b 0)) input ;;
  forRows (fun i result =>
    let t := Times result i in
    if IsNull result i then ret result
    else if IsZero t then
      handleInvalidTimeError (ctx b) (ErrWrongValue DateTimeStr (ArgTime t)) ;;;
      ret (SetNull i true result)
    else
      let tm := CoreTime t in
      ret (setElem i (mkTime (FromDate (Year tm) (Month tm) (Day tm) 0 0 0 0) TypeDate (Fsp t))
             result))
    0 (List.length (elems result)) result.

Section LastDay.

(** [types.GetLastDay(year, month)], declared in package [types]. *)
Variable GetLastDay : Z -> Z -> Z.

Definition builtinLastDaySig_vecEvalTime (b : baseBuiltinFunc) (input : Chunk)
    (result : Column Time) : M (Column Time) :=
  let n := NumRows input in
  result <- VecEval (VecEvalTime (args b 0)) input ;;
  forRows (fun i result =>
    let t := Times result i in
    if IsNull result i then ret result
    else if InvalidZero t then
      handleInvalidTimeError (ctx b) (ErrWrongValue DateTimeStr (ArgTime t)) ;;;
      ret (SetNull i true result)
    else
      let tm := CoreTime t in
      let year := Year tm in
      let month := Month tm in
      let lastDay := GetLastDay year month in
      ret (setElem i (mkTime (FromDate year month lastDay 0 0 0 0) TypeDate DefaultFsp) result))
    0 n result.

End LastDay.

(** [builtinDateLiteralSig]: the signature of a date literal carries the
    literal. *)
Record builtinDateLiteralSig := {
  baseOfLiteral : baseBuiltinFunc;
  literal : Time
}.

Definition HasNoZeroInDateMode (m : SQLModeFlags) : bool := NoZeroInDate m.

Definition builtinDateLiteralSig_vecEvalTime (b : builtinDateLiteralSig) (input : Chunk)
    (result : Column Time) : M (Column Time) :=
  let n := NumRows input in
  let mode := SQLMode (ctx (baseOfLiteral b)) in
  if HasNoZeroDateMode mode && IsZero (literal b) then
    fail (ErrWrongValue DateTimeStr (ArgTime (literal b)))
  else if HasNoZeroInDateMode mode &&
          (InvalidZero (literal b) && negb (IsZero (literal b))) then
    fail (ErrWrongValue DateTimeStr (ArgTime (literal b)))
  else
    let result := ResizeTime n result in
    forRows (fun i result => ret (setElem i (literal b) result))
      0 (List.length (elems result)) result.


(** ** GET_FORMAT *)

Section GetFormat.

(** The format and location names the two [switch]es compare with are
    constants declared elsewhere in package [expression]. *)
Variables dateFormat datetimeFormat timestampFormat timeFormat : string.
Variables usaLocation jisLocation isoLocation eurLocation internalLocation : string.

Definition builtinGetFormatSig_getFormat (format location : string) : string :=
  let res := EmptyString in
  if String.eqb format dateFormat then
    if String.eqb location usaLocation then "%m.%d.%Y"
    else if String.eqb location jisLocation then "%Y-%m-%d"
    else if String.eqb location isoLocation then "%Y-%m-%d"
    else if String.eqb location eurLocation then "%d.%m.%Y"
    else if String.eqb location internalLocation then "%Y%m%d"
    else res
  else if String.eqb format datetimeFormat || String.eqb format timestampFormat then
    if String.eqb location usaLocation then "%Y-%m-%d %H.%i.%s"
    else if String.eqb location jisLocation then "%Y-%m-%d %H:%i:%s"
    else if String.eqb location isoLocation then "%Y-%m-%d %H:%i:%s"
    else if String.eqb location eurLocation then "%Y-%m-%d %H.%i.%s"
    else if String.eqb location internalLocation then "%Y%m%d%H%i%s"
    else res
  else if String.eqb format timeFormat then
    if String.eqb location usaLocation then "%h:%i:%s %p"
    else if String.eqb location jisLocation then "%H:%i:%s"
    else if String.eqb location isoLocation then "%H:%i:%s"
    else if String.eqb location eurLocation then "%H.%i.%s"
    else if String.eqb location internalLocation then "%H%i%s"
    else res
  else res.

Definition builtinGetFormatSig_vecEvalString (b : baseBuiltinFunc) (input : Chunk)
    (result : Column string) : M (Column string) :=
  let n := NumRows input in
  h0 <- get ETString n ;;
  defer (put h0) (
    buf0 <- VecEval (VecEvalString (args b 0)) input ;;
    h1 <- get ETString n ;;
    defer (put h1) (
      buf1 <- VecEval (VecEvalString (args b 1)) input ;;
      let result := ReserveString n result in
      forRows (fun i result =>
        if IsNull buf0 i || IsNull buf1 i then ret (AppendNull result)
        else
          let format := GetString buf0 i in
          let location := GetString buf1 i in
          let res := builtinGetFormatSig_getFormat format location in
          ret (AppendString res result))
        0 n result)).

End GetFormat.

(** ** MONTHNAME and DAYNAME as strings *)

Section Names.

(** [types.MonthNames] and [types.WeekdayNames], the tables of names
    declared in package [types]. *)
Variable MonthNames : list string.
Variable WeekdayNames : list string.

Definition builtinMonthNameSig_vecEvalString (b : baseBuiltinFunc) (input : Chunk)
    (result : Column string) : M (Column string) :=
  let n := NumRows input in
  h <- get ETDatetime n ;;
  defer (put h) (
    buf <- VecEval (VecEvalTime (args b 0)) input ;;
    let result := ReserveString n result in
    let ds := Times buf in
    forRows (fun i result =>
      if IsNull buf i then ret (AppendNull result)
      else
        let mon := Month (CoreTime (ds i)) in
        if (IsZero (ds i) && HasNoZeroDateMode (SQLMode (ctx b))) || (mon <? 0) ||
           (Z.of_nat (List.length MonthNames) <? mon) then
          handleInvalidTimeError (ctx b) (ErrWrongValue DateTimeStr (ArgTime (ds i))) ;;;
          ret (AppendNull result)
        else if (mon =? 0) || IsZero (ds i) then ret (AppendNull result)
        else ret (AppendString (nth (Z.to_nat (mon - 1)) MonthNames EmptyString) result))
      0 n result).

Definition builtinDayNameSig_vecEvalString (b : baseBuiltinFunc) (input : Chunk)
    (result : Column string) : M (Column string) :=
  let n := NumRows input in
  let result := ReserveString n result in
  builtinDayNameSig_vecEvalIndex b input
    (fun i res result => AppendString (nth (Z.to_nat res) WeekdayNames EmptyString) result)
    (fun i result => AppendNull result)
    result.

End Names.

(** ** WEEK with a mode *)

Section Week.

(** [MysqlTime.Week(mode)], declared in package [types]. *)
Variable Week : MysqlTime -> Z -> Z.

(** Each [defer] of this function stands after the evaluation of the
    argument and its error check. *)
Definition builtinWeekWithModeSig_vecEvalInt (b : baseBuiltinFunc) (input : Chunk)
    (result : Column Z) : M (Column Z) :=
  let n := NumRows input in
  h1 <- get ETDatetime n ;;
  buf1 <- VecEval (VecEvalTime (args b 0)) input ;;
  defer (put h1) (
    h2 <- get ETInt n ;;
    buf2 <- VecEval (VecEvalInt (args b 1)) input ;;
    defer (put h2) (
      let result := ResizeInt64 n result in
      let ds := Times buf1 in
      let ms := Int64s buf2 in
      forRows (fun i result =>
        if IsNull buf1 i then ret (SetNull i true result)
        else
          let date := ds i in
          if IsZero date then
            handleInvalidTimeError (ctx b) (ErrWrongValue DateTimeStr (ArgTime date)) ;;;
            ret (SetNull i true result)
          else if IsNull buf2 i then ret (SetNull i true result)
          else
            let mode := ms i in
            let week := Week (CoreTime date) mode in
            ret (setElem i week result))
        0 n result)).

End Week.

(** ** MICROSECOND *)

Section Durations.

(** The method [VecEvalDuration] of the [Expression] interface: a column of
    durations in nanoseconds. *)
Variable VecEvalDuration : ExpressionI -> Expression Z.

(** [time.Second] and [time.Microsecond], in nanoseconds. *)
Definition time_Second : Z := 1000000000.
Definition time_Microsecond : Z := 1000.

Definition GoDurations (c : Column Z) (i : nat) : Z := nth i (elems c) 0.

Definition builtinMicroSecondSig_vecEvalInt (b : baseBuiltinFunc) (input : Chunk)
    (result : Column Z) : M (Column Z) :=
  let n := NumRows input in
  h <- get ETDuration n ;;
  defer (put h) (
    buf <- VecEval (VecEvalDuration (args b 0)) input ;;
    let result := ResizeInt64 n result in
    let result := MergeNulls result [nullBitmap buf] in
    let ds := GoDurations buf in
    forRows (fun i result =>
      if IsNull result i then ret result
      else ret (setElem i (goDiv (goMod (ds i) time_Second) time_Microsecond) result))
      0 n result).

End Durations.

(** ** DATEDIFF *)

(** [err = f(...)]: the error of a call is kept in a variable, [nil] when
    the call succeeds, and the function goes on. *)
Definition errorOf (m : M unit) : M (option error) :=
  fun w => let (w', r) := m w in
           (w', inr (match r with inl e => Some e | inr _ => None end)).

Section DateDiff.

(** [types.DateDiff], declared in package [types]. *)
Variable DateDiff : MysqlTime -> MysqlTime -> Z.

(** The variable [err] of the function is [nil] whenever a row is looked
    at: every assignment to it is followed by [if err != nil { return err }]. *)
Definition builtinDateDiffSig_vecEvalInt (b : baseBuiltinFunc) (input : Chunk)
    (result : Column Z) : M (Column Z) :=
  let n := NumRows input in
  h0 <- get ETDatetime n ;;
  defer (put h0) (
    buf0 <- VecEval (VecEvalTime (args b 0)) input ;;
    h1 <- get ETDatetime n ;;
    defer (put h1) (
      buf1 <- VecEval (VecEvalTime (args b 1)) input ;;
      let result := ResizeInt64 n result in
      let result := MergeNulls result [nullBitmap buf0; nullBitmap buf1] in
      let args0 := Times buf0 in
      let args1 := Times buf1 in
      forRows (fun i result =>
        if IsNull result i then ret result
        else
          let invalidArg0 := InvalidZero (args0 i) in
          let invalidArg1 := InvalidZero (args1 i) in
          if invalidArg0 || invalidArg1 then
            err <- (if invalidArg0
                    then errorOf (handleInvalidTimeError (ctx b)
                                    (ErrWrongValue DateTimeStr (ArgTime (args0 i))))
                    else ret None) ;;
            err <- (if invalidArg1
                    then errorOf (handleInvalidTimeError (ctx b)
                                    (ErrWrongValue DateTimeStr (ArgTime (args1 i))))
                    else ret err) ;;
            match err with
            | Some e => fail e
            | None => ret (SetNull i true result)
            end
          else ret (setElem i (DateDiff (CoreTime (args0 i)) (CoreTime (args1 i))) result))
        0 n result)).

End DateDiff.

(** ** TO_DAYS and TO_SECONDS *)

Section ToDays.

(** [types.TimestampDiff(unit, t1, t2)], declared in package [types]. *)
Variable TimestampDiff : string -> Time -> Time -> Z.

Definition builtinToDaysSig_vecEvalInt (b : baseBuiltinFunc) (input : Chunk)
    (result : Column Z) : M (Column Z) :=
  let n := NumRows input in
  h <- get ETDatetime n ;;
  defer (put h) (
    buf <- VecEval (VecEvalTime (args b 0)) input ;;
    let result := ResizeInt64 n result in
    let result := MergeNulls result [nullBitmap buf] in
    let ds := Times buf in
    forRows (fun i result =>
      if IsNull result i then ret result
      else
        let arg := ds i in
        let ret_ := TimestampDiff "DAY" ZeroDate arg in
        if ret_ =? 0 then
          handleInvalidTimeError (ctx b) (ErrWrongValue DateTimeStr (ArgTime arg)) ;;;
          ret (SetNull i true result)
        else ret (setElem i ret_ result))
      0 n result).

Definition builtinToSecondsSig_vecEvalInt (b : baseBuiltinFunc) (input : Chunk)
    (result : Column Z) : M (Column Z) :=
  let n := NumRows input in
  h <- get ETDatetime n ;;
  defer (put h) (
    buf <- VecEval (VecEvalTime (args b 0)) input ;;
    let result := ResizeInt64 n result in
    let result := MergeNulls result [nullBitmap buf] in
    let ds := Times buf in
    forRows (fun i result =>
      if IsNull result i then ret result
      else
        let arg := ds i in
        let ret_ := TimestampDiff "SECOND" ZeroDate arg in
        if ret_ =? 0 then
          handleInvalidTimeError (ctx b) (ErrWrongValue DateTimeStr (ArgTime arg)) ;;;
          ret (SetNull i true result)
        else ret (setElem i ret_ result))
      0 n result).

End ToDays.

(** * QUARTER and DAYOFWEEK *)

(** What a run of an integer evaluator over guarded rows says of its rows:
    the rows that were null at the start, the rows given a value, the rows
    handed to the invalid-time policy, and when the call returns. *)
Lemma int_evaluator_rows c n result src (f : nat -> RowOutcome Z)
    (run : World * (error + Column Z)) :
  snd run = snd (colEval c (guarded (prepared n result src) f) n (prepared n result src)) ->
  (forall res, snd run = inr res ->
     rows res = n /\
     forall i, (i < n)%nat ->
       (nth i src false = true -> IsNull res i = true) /\
       (forall v, nth i src false = false -> f i = Value v ->
                  IsNull res i = false /\ Int64s res i = v) /\
       (forall e, nth i src false = false -> f i = Invalid e -> IsNull res i = true)) /\
  ((forall i, (i < n)%nat -> nth i src false = false ->
              stops (StrictSQLMode c) (f i) = None) ->
   exists res, snd run = inr res).
Proof.
  intros ->. split.
  - intros res Hres.
    destruct (colEval _ _ _ _) as [ws' r] eqn:E. simpl in Hres. rewrite Hres in E.
    apply colEval_ok in E. destruct E as [-> _]. split.
    + unfold colFinal. rewrite applyRows_rows. apply prepared_rows.
    + intros i Hi. split; [|split].
      * intros Hn. now apply int_final_null.
      * intros v Hn Hf. now apply int_final_value.
      * intros e Hn Hf. eapply int_final_invalid; eauto.
  - intros Hok. rewrite guarded_total; [simpl; eauto|].
    intros i Hi Hlive. rewrite prepared_IsNull in Hlive by auto. auto.
Qed.

(** The result of a run given as [let (ws', r) := colEval ... in (w', r)]. *)
Ltac result_of Hrun :=
  rewrite Hrun; cbv zeta; destruct (colEval _ _ _ _); reflexivity.

Definition quarterRow (ds : nat -> Time) (i : nat) : RowOutcome Z :=
  if IsZero (ds i) then Invalid (wrongDate (ds i))
  else Value (goDiv (Month (CoreTime (ds i)) + 2) 3).

Definition dayOfWeekRow (ds : nat -> Time) (i : nat) : RowOutcome Z :=
  if InvalidZero (ds i) then Invalid (wrongDate (ds i))
  else Value (Weekday (CoreTime (ds i)) + 1).

Lemma quarter_run b input result w ws buf :
  loanable w ->
  VecEvalTime (args b 0) input (warnings w) = (ws, inr buf) ->
  builtinQuarterSig_vecEvalInt b input result w =
  let start := prepared (NumRows input) result (nullBitmap buf) in
  let (ws', r) := colEval (ctx b) (guarded start (quarterRow (Times buf)))
                    (NumRows input) start in
  (afterRows w ws ws', r).
Proof.
  intros Hl He. unfold builtinQuarterSig_vecEvalInt. run_one_loan Hl He.
  rewrite (guarded_rows 0 (ctx b) (quarterRow (Times buf))).
  - unfold prepared, afterRows. destruct (colEval _ _ _ _); reflexivity.
  - unfold quarterRow, wrongDate. split_body.
Qed.

Lemma dayofweek_run b input result w ws buf :
  loanable w ->
  VecEvalTime (args b 0) input (warnings w) = (ws, inr buf) ->
  builtinDayOfWeekSig_vecEvalInt b input result w =
  let start := prepared (NumRows input) result (nullBitmap buf) in
  let (ws', r) := colEval (ctx b) (guarded start (dayOfWeekRow (Times buf)))
                    (NumRows input) start in
  (afterRows w ws ws', r).
Proof.
  intros Hl He. unfold builtinDayOfWeekSig_vecEvalInt. run_one_loan Hl He.
  rewrite (guarded_rows 0 (ctx b) (dayOfWeekRow (Times buf))).
  - unfold prepared, afterRows. destruct (colEval _ _ _ _); reflexivity.
  - unfold dayOfWeekRow, wrongDate. split_body.
Qed.

(** X1. QUARTER of a non-null date that is not the zero date, with a month
    [m] in [0, 12], is the number [q] in [0, 4] with [3q - 2 <= m <= 3q]:
    months 1-3 give 1, 4-6 give 2, 7-9 give 3, 10-12 give 4, and a date with
    month 0 gives 0. The result has one row per input row, a null argument
    row is a null result row, and the call returns whenever the session is
    not strict or no non-null row holds the zero date. *)
Theorem quarter_of_the_month :
  forall (b : baseBuiltinFunc) (input : Chunk) (result : Column Z) (w : World)
         (ws : list error) (buf : Column Time) (i : nat),
    loanable w ->
    VecEvalTime (args b 0) input (warnings w) = (ws, inr buf) ->
    (i < NumRows input)%nat ->
    IsNull buf i = false ->
    IsZero (Times buf i) = false ->
    0 <= Month (CoreTime (Times buf i)) <= 12 ->
    let m := Month (CoreTime (Times buf i)) in
    let run := builtinQuarterSig_vecEvalInt b input result w in
    (forall res, snd run = inr res ->
       rows res = NumRows input /\
       IsNull res i = false /\
       0 <= Int64s res i <= 4 /\ 3 * Int64s res i - 2 <= m <= 3 * Int64s res i /\
       (forall j, (j < NumRows input)%nat -> IsNull buf j = true -> IsNull res j = true)) /\
    ((StrictSQLMode (ctx b) = false \/
      forall j, (j < NumRows input)%nat -> IsNull buf j = false ->
                IsZero (Times buf j) = false) ->
     exists res, snd run = inr res).
Proof.
  intros b input result w ws buf i Hl He Hi Hn Hz Hm m run.
  destruct (int_evaluator_rows (ctx b) (NumRows input) result (nullBitmap buf)
              (quarterRow (Times buf)) run) as [Hrows Htotal];
    [unfold run; result_of (quarter_run b input result w ws buf Hl He)|].
  split.
  - intros res Hres. destruct (Hrows res Hres) as [Hr Hcells].
    destruct (Hcells i Hi) as [_ [Hv _]].
    destruct (Hv (goDiv (m + 2) 3) Hn) as [Hnull Hval];
      [unfold quarterRow; now rewrite Hz|].
    split; [exact Hr|]. split; [exact Hnull|]. rewrite Hval.
    assert (Hq : 0 <= goDiv (m + 2) 3 <= 4 /\
                 3 * goDiv (m + 2) 3 - 2 <= m <= 3 * goDiv (m + 2) 3)
      by (unfold goDiv; fold m in Hm; Z.to_euclidean_division_equations; lia).
    destruct Hq as [Hq1 Hq2]. split; [exact Hq1|]. split; [exact Hq2|].
    intros j Hj Hnj. now apply (Hcells j Hj).
  - intros Hok. apply Htotal. intros j Hj Hlive. unfold quarterRow.
    destruct Hok as [Hs|Hv].
    + rewrite Hs. destruct (IsZero (Times buf j)); reflexivity.
    + now rewrite (Hv j Hj Hlive).
Qed.

(** The last day of 2024, a Tuesday in the fourth quarter. *)
Definition newYearsEve2024 : Column Time := mkColumn [false] [dateOf 2024 12 31].

Lemma quarter_of_the_month_witness :
  exists res,
    snd (builtinQuarterSig_vecEvalInt (onTime (session false false) newYearsEve2024)
           oneRow emptyInts freshWorld) = inr res /\
    Int64s res 0 = 4.
Proof.
  destruct (quarter_of_the_month (onTime (session false false) newYearsEve2024)
              oneRow emptyInts freshWorld [] newYearsEve2024 0
              freshWorld_loanable eq_refl (le_n 1) eq_refl eq_refl
              ltac:(simpl; lia)) as [Hres Htotal].
  destruct Htotal as [res E]; [now left|].
  exists res. split; [exact E|].
  destruct (Hres res E) as [_ [_ [_ [Hq _]]]].
  change (Month (CoreTime (Times newYearsEve2024 0))) with 12 in Hq. lia.
Defined.

(** X2. DAYOFWEEK of a non-null date that is not an invalid zero is the
    Sunday-first index of the library plus one, a value in [1, 7] with
    Sunday 1 and Saturday 7; on the same argument WEEKDAY (Monday 0) and
    DAYOFWEEK are tied by [DAYOFWEEK = (WEEKDAY + 1) mod 7 + 1]. *)
Theorem dayofweek_and_weekday :
  forall (b : baseBuiltinFunc) (input : Chunk) (result result' : Column Z) (w : World)
         (ws : list error) (buf : Column Time) (i : nat),
    loanable w ->
    VecEvalTime (args b 0) input (warnings w) = (ws, inr buf) ->
    (i < NumRows input)%nat ->
    IsNull buf i = false ->
    InvalidZero (Times buf i) = false ->
    unsignedDate (CoreTime (Times buf i)) ->
    let run := builtinDayOfWeekSig_vecEvalInt b input result w in
    (forall res, snd run = inr res ->
       IsNull res i = false /\
       Int64s res i = Weekday (CoreTime (Times buf i)) + 1 /\
       1 <= Int64s res i <= 7 /\
       forall res', snd (builtinWeekDaySig_vecEvalInt b input result' w) = inr res' ->
         Int64s res i = (Int64s res' i + 1) mod 7 + 1) /\
    ((StrictSQLMode (ctx b) = false \/
      forall j, (j < NumRows input)%nat -> IsNull buf j = false ->
                InvalidZero (Times buf j) = false) ->
     exists res, snd run = inr res).
Proof.
  intros b input result result' w ws buf i Hl He Hi Hn Hz Hu run.
  destruct (InvalidZero_fields _ Hz) as [Hmo Hda].
  assert (Hwd := Weekday_range _ Hu Hmo Hda).
  destruct (int_evaluator_rows (ctx b) (NumRows input) result (nullBitmap buf)
              (dayOfWeekRow (Times buf)) run) as [Hrows Htotal];
    [unfold run; result_of (dayofweek_run b input result w ws buf Hl He)|].
  split.
  - intros res Hres. destruct (Hrows res Hres) as [_ Hcells].
    destruct (Hcells i Hi) as [_ [Hv _]].
    destruct (Hv _ Hn ltac:(unfold dayOfWeekRow; now rewrite Hz)) as [Hnull Hval].
    split; [exact Hnull|]. split; [exact Hval|]. split; [lia|].
    intros res' Hres'.
    destruct (int_evaluator_rows (ctx b) (NumRows input) result' (nullBitmap buf)
                (weekDayRow (Times buf)) (builtinWeekDaySig_vecEvalInt b input result' w))
      as [Hrows' _]; [result_of (weekday_run b input result' w ws buf Hl He)|].
    destruct (Hrows' res' Hres') as [_ Hcells'].
    destruct (Hcells' i Hi) as [_ [Hv' _]].
    destruct (Hv' _ Hn ltac:(unfold weekDayRow; now rewrite (InvalidZero_IsZero _ Hz)))
      as [_ Hval'].
    rewrite Hval, Hval'. unfold goMod.
    Z.to_euclidean_division_equations; lia.
  - intros Hok. apply Htotal. intros j Hj Hlive. unfold dayOfWeekRow.
    destruct Hok as [Hs|Hv].
    + rewrite Hs. destruct (InvalidZero (Times buf j)); reflexivity.
    + now rewrite (Hv j Hj Hlive).
Qed.

Lemma dayofweek_and_weekday_witness :
  exists res,
    snd (builtinDayOfWeekSig_vecEvalInt (onTime (session false false) newYear2024)
           oneRow emptyInts freshWorld) = inr res /\
    Int64s res 0 = 2.
Proof.
  destruct (dayofweek_and_weekday (onTime (session false false) newYear2024)
              oneRow emptyInts emptyInts freshWorld [] newYear2024 0
              freshWorld_loanable eq_refl (le_n 1) eq_refl eq_refl
              ltac:(unfold unsignedDate; simpl; lia)) as [Hres Htotal].
  destruct Htotal as [res E]; [now left|].
  exists res. split; [exact E|].
  destruct (Hres res E) as [_ [Hv _]]. rewrite Hv. reflexivity.
Defined.

(** * DATE, LAST_DAY and the date literal *)

(** The date of a datetime: [FromDate(year, month, day, 0, 0, 0, 0)] as a
    DATE of the same precision. *)
Definition dateOnly (t : Time) : Time :=
  let tm := CoreTime t in
  mkTime (FromDate (Year tm) (Month tm) (Day tm) 0 0 0 0) TypeDate (Fsp t).

Definition dateRow (i : nat) (null : bool) (t : Time) : RowOutcome Time :=
  if null then Keep
  else if IsZero t then Invalid (wrongDate t) else Value (dateOnly t).

Definition lastDayOf (GetLastDay : Z -> Z -> Z) (t : Time) : Time :=
  let tm := CoreTime t in
  mkTime (FromDate (Year tm) (Month tm) (GetLastDay (Year tm) (Month tm)) 0 0 0 0)
    TypeDate DefaultFsp.

Definition lastDayRow (GetLastDay : Z -> Z -> Z) (i : nat) (null : bool) (t : Time)
  : RowOutcome Time :=
  if null then Keep
  else if InvalidZero t then Invalid (wrongDate t) else Value (lastDayOf GetLastDay t).

(** A column is well formed when it has one element per row. *)
Definition wellFormed {A} (c : Column A) : Prop := List.length (elems c) = rows c.

Lemma column_ext {A} (d : A) (c1 c2 : Column A) :
  rows c1 = rows c2 -> List.length (elems c1) = List.length (elems c2) ->
  (forall i, (i < rows c1)%nat -> IsNull c1 i = IsNull c2 i) ->
  (forall i, (i < List.length (elems c1))%nat -> nth i (elems c1) d = nth i (elems c2) d) ->
  c1 = c2.
Proof.
  destruct c1 as [n1 e1], c2 as [n2 e2]. unfold rows, IsNull; simpl.
  intros Hr He Hn Hv. f_equal.
  - apply (nth_ext _ _ false false); auto.
  - apply (nth_ext _ _ d d); auto.
Qed.

(** An evaluator that evaluates its argument into the result column and
    rewrites the rows in place. *)
Lemma in_place_run c (e : Expression Time) input w ws buf (n : Column Time -> nat)
    (G : nat -> bool -> Time -> RowOutcome Time)
    (body : nat -> Column Time -> M (Column Time)) :
  e input (warnings w) = (ws, inr buf) ->
  (forall i r w0, body i r w0 =
     rowAct c setElem setRowNull (G i (IsNull r i) (Times r i)) i r w0) ->
  (result <- VecEval e input ;; forRows body 0 (n result) result) w =
  let (ws', r) := colEval c (fun i => G i (IsNull buf i) (Times buf i)) (n buf) buf in
  (addWarnings ws' (withWarnings ws w), r).
Proof.
  intros He Hb.
  rewrite (run_arg e input (fun result => forRows body 0 (n result) result) w ws buf He).
  rewrite (forRows_ext body
             (fun i r => rowAct c setElem setRowNull (G i (IsNull r i) (Times r i)) i r))
    by (intros; apply Hb).
  apply (forRows_reads_row zeroTime c G).
Qed.

Lemma date_run b input result w ws buf :
  VecEvalTime (args b 0) input (warnings w) = (ws, inr buf) ->
  builtinDateSig_vecEvalTime b input result w =
  let (ws', r) := colEval (ctx b) (fun i => dateRow i (IsNull buf i) (Times buf i))
                    (List.length (elems buf)) buf in
  (addWarnings ws' (withWarnings ws w), r).
Proof.
  intros He. unfold builtinDateSig_vecEvalTime.
  apply (in_place_run (ctx b) _ input w ws buf (fun r => List.length (elems r)) dateRow); auto.
  intros i r w0. unfold dateRow, dateOnly, wrongDate, setRowNull. cbv zeta. split_body.
Qed.

Lemma lastday_run GetLastDay b input result w ws buf :
  VecEvalTime (args b 0) input (warnings w) = (ws, inr buf) ->
  builtinLastDaySig_vecEvalTime GetLastDay b input result w =
  let (ws', r) := colEval (ctx b)
                    (fun i => lastDayRow GetLastDay i (IsNull buf i) (Times buf i))
                    (NumRows input) buf in
  (addWarnings ws' (withWarnings ws w), r).
Proof.
  intros He. unfold builtinLastDaySig_vecEvalTime.
  apply (in_place_run (ctx b) _ input w ws buf (fun _ => NumRows input)
           (lastDayRow GetLastDay)); auto.
  intros i r w0. unfold lastDayRow, lastDayOf, wrongDate, setRowNull. cbv zeta. split_body.
Qed.

(** What a run of an in-place evaluator says of its rows. *)
Lemma in_place_rows c (G : nat -> bool -> Time -> RowOutcome Time) n buf ws'
    (res : Column Time) :
  rows buf = n -> List.length (elems buf) = n ->
  colEval c (fun i => G i (IsNull buf i) (Times buf i)) n buf = (ws', inr res) ->
  rows res = n /\ List.length (elems res) = n /\
  forall i, (i < n)%nat ->
    IsNull res i = match G i (IsNull buf i) (Times buf i) with
                   | Nullify | Invalid _ => true
                   | _ => IsNull buf i
                   end /\
    Times res i = match G i (IsNull buf i) (Times buf i) with
                  | Value v => v
                  | _ => Times buf i
                  end.
Proof.
  intros Hr He E. apply colEval_ok in E. destruct E as [-> _].
  split; [|split].
  - unfold colFinal. now rewrite applyRows_rows.
  - unfold colFinal. now rewrite applyRows_elems_length.
  - intros i Hi. split.
    + apply (colFinal_null (fun i => G i (IsNull buf i) (Times buf i))); auto.
    + unfold Times.
      apply (colFinal_elem zeroTime (fun i => G i (IsNull buf i) (nth i (elems buf) zeroTime)));
        auto.
Qed.

(** Rows that are kept or given the value they hold leave the column as it
    is, and nothing is said to the warning sink. *)
Lemma in_place_fixed c (G : nat -> bool -> Time -> RowOutcome Time) n (res : Column Time) :
  rows res = n -> List.length (elems res) = n ->
  (forall j, (j < n)%nat ->
     G j (IsNull res j) (Times res j) = Keep \/
     G j (IsNull res j) (Times res j) = Value (Times res j)) ->
  colEval c (fun i => G i (IsNull res i) (Times res i)) n res = ([], inr res).
Proof.
  intros Hr Hl Hquiet.
  rewrite colEval_total
    by (intros j Hj; destruct (Hquiet j Hj) as [-> | ->]; reflexivity).
  rewrite rowWarnings_none
    by (intros j Hj e; destruct (Hquiet j ltac:(lia)) as [-> | ->]; discriminate).
  f_equal. f_equal. apply (column_ext zeroTime).
  - unfold colFinal. now rewrite applyRows_rows.
  - unfold colFinal. now rewrite applyRows_elems_length.
  - unfold colFinal at 1. rewrite applyRows_rows. intros j Hj. rewrite Hr in Hj.
    rewrite (colFinal_null (fun i => G i (IsNull res i) (Times res i))) by auto.
    destruct (Hquiet j Hj) as [-> | ->]; reflexivity.
  - unfold colFinal at 1. rewrite applyRows_elems_length. intros j Hj. rewrite Hl in Hj.
    rewrite (colFinal_elem zeroTime (fun i => G i (IsNull res i) (Times res i))) by auto.
    destruct (Hquiet j Hj) as [-> | ->]; reflexivity.
Qed.

Lemma addWarnings_none w : addWarnings [] (withWarnings (warnings w) w) = w.
Proof. destruct w; unfold addWarnings, withWarnings; simpl; now rewrite app_nil_r. Qed.

(** X3. DATE evaluates its argument straight into the result column and
    borrows no scratch buffer. A non-null row that is not the zero value
    keeps its year, month and day, has its time of day set to zero and its
    type to DATE, and keeps the fractional precision of the argument; a null
    row stays null and the row count is that of the argument. The call
    returns whenever the session is not strict or no non-null row is the
    zero value. *)
Theorem date_keeps_the_calendar_day :
  forall (b : baseBuiltinFunc) (input : Chunk) (result : Column Time) (w : World)
         (ws : list error) (buf : Column Time) (i : nat),
    VecEvalTime (args b 0) input (warnings w) = (ws, inr buf) ->
    wellFormed buf ->
    (i < rows buf)%nat ->
    IsNull buf i = false ->
    IsZero (Times buf i) = false ->
    let t := Times buf i in
    let run := builtinDateSig_vecEvalTime b input result w in
    bufAllocator (fst run) = bufAllocator w /\
    (forall res, snd run = inr res ->
       rows res = rows buf /\
       IsNull res i = false /\
       CoreTime (Times res i) =
         FromDate (Year (CoreTime t)) (Month (CoreTime t)) (Day (CoreTime t)) 0 0 0 0 /\
       Type_ (Times res i) = TypeDate /\
       Fsp (Times res i) = Fsp t /\
       (forall j, (j < rows buf)%nat -> IsNull buf j = true -> IsNull res j = true)) /\
    ((StrictSQLMode (ctx b) = false \/
      forall j, (j < rows buf)%nat -> IsNull buf j = false -> IsZero (Times buf j) = false) ->
     exists res, snd run = inr res).
Proof.
  intros b input result w ws buf i He Hwf Hi Hn Hz t run.
  assert (Hrun := date_run b input result w ws buf He). fold run in Hrun.
  unfold wellFormed in Hwf. rewrite Hwf in Hrun.
  split; [|split].
  - rewrite Hrun. destruct (colEval _ _ _ _); reflexivity.
  - intros res Hres. rewrite Hrun in Hres.
    destruct (colEval _ _ _ _) as [ws' r] eqn:E. simpl in Hres. rewrite Hres in E.
    destruct (in_place_rows _ dateRow _ _ _ _ eq_refl Hwf E) as [Hr [_ Hcells]].
    split; [exact Hr|].
    destruct (Hcells i Hi) as [Hnull Hval].
    unfold dateRow in Hnull, Hval. rewrite Hn, Hz in Hnull, Hval.
    rewrite Hval. repeat split; auto.
    intros j Hj Hnj. destruct (Hcells j Hj) as [Hnull' _].
    unfold dateRow in Hnull'. now rewrite Hnj in Hnull'.
  - intros Hok. rewrite Hrun. rewrite colEval_total; [simpl; eauto|].
    intros j Hj. unfold dateRow.
    destruct (IsNull buf j) eqn:Enj; [reflexivity|].
    destruct Hok as [Hs|Hv].
    + rewrite Hs. destruct (IsZero (Times buf j)); reflexivity.
    + now rewrite (Hv j Hj Enj).
Qed.

Definition datetimeOf (y m d h mi s : Z) (fsp : Z) : Time :=
  mkTime (FromDate y m d h mi s 0) TypeDatetime fsp.

(** 2024-02-10 13:45:30 at precision 3, and a null row. *)
Definition afternoonBatch : Column Time :=
  mkColumn [false; true] [datetimeOf 2024 2 10 13 45 30 3; zeroTime].

Lemma date_keeps_the_calendar_day_witness :
  exists res,
    snd (builtinDateSig_vecEvalTime (onTime (session false true) afternoonBatch)
           twoRows (mkColumn [] []) freshWorld) = inr res /\
    Times res 0 = mkTime (FromDate 2024 2 10 0 0 0 0) TypeDate 3 /\
    IsNull res 1 = true.
Proof.
  destruct (date_keeps_the_calendar_day (onTime (session false true) afternoonBatch)
              twoRows (mkColumn [] []) freshWorld [] afternoonBatch 0
              eq_refl eq_refl (Nat.lt_0_succ 1) eq_refl eq_refl) as [_ [Hres Htotal]].
  destruct Htotal as [res E].
  - right. intros [|[|j]] Hj Hnj.
    + reflexivity.
    + discriminate.
    + unfold rows in Hj; simpl in Hj; lia.
  - exists res. split; [exact E|].
    destruct (Hres res E) as [_ [_ [Hc [Ht [Hf Hnulls]]]]].
    split; [|apply (Hnulls 1%nat); [unfold rows; simpl; lia|reflexivity]].
    destruct (Times res 0) as [c ty f]. simpl in Hc, Ht, Hf. now subst.
Defined.

(** X4. DATE is idempotent on a batch in which no non-null row holds a time
    of day on the zero date: when DATE returns a column, DATE over that
    column returns the same column, in any session, and appends no
    warning. *)
Theorem date_is_idempotent :
  forall (b b' : baseBuiltinFunc) (input : Chunk) (result result' : Column Time)
         (w w' : World) (ws : list error) (buf res : Column Time),
    VecEvalTime (args b 0) input (warnings w) = (ws, inr buf) ->
    wellFormed buf ->
    (forall j, (j < rows buf)%nat -> IsNull buf j = false ->
               IsZero (Times buf j) = false -> IsZero (dateOnly (Times buf j)) = false) ->
    snd (builtinDateSig_vecEvalTime b input result w) = inr res ->
    VecEvalTime (args b' 0) input (warnings w') = (warnings w', inr res) ->
    builtinDateSig_vecEvalTime b' input result' w' = (w', inr res).
Proof.
  intros b b' input result result' w w' ws buf res He Hwf Hd Hres He'.
  rewrite (date_run b input result w ws buf He) in Hres.
  unfold wellFormed in Hwf. rewrite Hwf in Hres.
  destruct (colEval _ _ _ _) as [ws1 r] eqn:E. simpl in Hres. rewrite Hres in E.
  destruct (in_place_rows _ dateRow _ _ _ _ eq_refl Hwf E) as [Hr [Hl Hcells]].
  rewrite (date_run b' input result' w' (warnings w') res He'). rewrite Hl.
  rewrite (in_place_fixed (ctx b') dateRow (rows buf) res Hr Hl).
  - now rewrite addWarnings_none.
  - intros j Hj. destruct (Hcells j Hj) as [Hnull Hval]. unfold dateRow in *.
    destruct (IsNull buf j) eqn:Enj; [rewrite Hnull; now left|].
    destruct (IsZero (Times buf j)) eqn:Ez; [rewrite Hnull; now left|].
    rewrite Hnull, Hval, (Hd j Hj Enj Ez). right. reflexivity.
Qed.

(** The column DATE returns on [afternoonBatch]. *)
Definition afternoonDates : Column Time :=
  mkColumn [false; true] [mkTime (FromDate 2024 2 10 0 0 0 0) TypeDate 3; zeroTime].

Lemma date_is_idempotent_witness :
  builtinDateSig_vecEvalTime (onTime (session true true) afternoonDates)
    twoRows (mkColumn [] []) freshWorld = (freshWorld, inr afternoonDates).
Proof.
  apply (date_is_idempotent (onTime (session false true) afternoonBatch)
           (onTime (session true true) afternoonDates)
           twoRows (mkColumn [] []) (mkColumn [] []) freshWorld freshWorld []
           afternoonBatch afternoonDates eq_refl eq_refl).
  - intros [|[|j]] Hj Hnj Hz; [reflexivity|discriminate|unfold rows in Hj; simpl in Hj; lia].
  - reflexivity.
  - reflexivity.
Defined.

(** X5. LAST_DAY gives a non-null date that is not an invalid zero the year
    and month it has and the day [GetLastDay(year, month)], as a DATE of the
    default precision with no time of day, whatever the type and precision
    of the argument; a null row stays null. The call returns whenever the
    session is not strict or no non-null row is an invalid zero. *)
Theorem last_day_of_the_month :
  forall (GetLastDay : Z -> Z -> Z) (b : baseBuiltinFunc) (input : Chunk)
         (result : Column Time) (w : World) (ws : list error) (buf : Column Time) (i : nat),
    VecEvalTime (args b 0) input (warnings w) = (ws, inr buf) ->
    wellFormed buf ->
    rows buf = NumRows input ->
    (i < NumRows input)%nat ->
    IsNull buf i = false ->
    InvalidZero (Times buf i) = false ->
    let t := CoreTime (Times buf i) in
    let run := builtinLastDaySig_vecEvalTime GetLastDay b input result w in
    (forall res, snd run = inr res ->
       rows res = NumRows input /\
       IsNull res i = false /\
       Times res i =
         mkTime (FromDate (Year t) (Month t) (GetLastDay (Year t) (Month t)) 0 0 0 0)
           TypeDate DefaultFsp /\
       (forall j, (j < NumRows input)%nat -> IsNull buf j = true -> IsNull res j = true)) /\
    ((StrictSQLMode (ctx b) = false \/
      forall j, (j < NumRows input)%nat -> IsNull buf j = false ->
                InvalidZero (Times buf j) = false) ->
     exists res, snd run = inr res).
Proof.
  intros GetLastDay b input result w ws buf i He Hwf Hrows Hi Hn Hz t run.
  assert (Hrun := lastday_run GetLastDay b input result w ws buf He). fold run in Hrun.
  unfold wellFormed in Hwf. rewrite Hrows in Hwf.
  split.
  - intros res Hres. rewrite Hrun in Hres.
    destruct (colEval _ _ _ _) as [ws' r] eqn:E. simpl in Hres. rewrite Hres in E.
    destruct (in_place_rows _ (lastDayRow GetLastDay) _ _ _ _ Hrows Hwf E)
      as [Hr [_ Hcells]].
    split; [exact Hr|].
    destruct (Hcells i Hi) as [Hnull Hval].
    unfold lastDayRow in Hnull, Hval. rewrite Hn, Hz in Hnull, Hval.
    repeat split; auto.
    intros j Hj Hnj. destruct (Hcells j Hj) as [Hnull' _].
    unfold lastDayRow in Hnull'. now rewrite Hnj in Hnull'.
  - intros Hok. rewrite Hrun. rewrite colEval_total; [simpl; eauto|].
    intros j Hj. unfold lastDayRow.
    destruct (IsNull buf j) eqn:Enj; [reflexivity|].
    destruct Hok as [Hs|Hv].
    + rewrite Hs. destruct (InvalidZero (Times buf j)); reflexivity.
    + now rewrite (Hv j Hj Enj).
Qed.

(** A datetime of February 2024 and a date with month 0. *)
Definition februaryBatch : Column Time :=
  mkColumn [false; false] [datetimeOf 2024 2 10 13 45 30 3; dateOf 2024 0 10].

Lemma last_day_of_the_month_witness :
  exists res,
    snd (builtinLastDaySig_vecEvalTime daysIn (onTime (session false false) februaryBatch)
           twoRows (mkColumn [] []) freshWorld) = inr res /\
    Times res 0 = dateOf 2024 2 29.
Proof.
  destruct (last_day_of_the_month daysIn (onTime (session false false) februaryBatch)
              twoRows (mkColumn [] []) freshWorld [] februaryBatch 0
              eq_refl eq_refl eq_refl (Nat.lt_0_succ 1) eq_refl eq_refl) as [Hres Htotal].
  destruct Htotal as [res E]; [now left|].
  exists res. split; [exact E|].
  destruct (Hres res E) as [_ [_ [Hv _]]]. rewrite Hv. reflexivity.
Defined.

(** X6. On the column a LAST_DAY call returned, DATE returns the same column
    and appends no warning, in any session; so does LAST_DAY itself when
    [GetLastDay] is not zero for the year and month of any row that is
    neither null nor an invalid zero. *)
Theorem last_day_is_a_date_and_a_last_day :
  forall (GetLastDay : Z -> Z -> Z) (b b' : baseBuiltinFunc) (input : Chunk)
         (result result' : Column Time) (w w' : World) (ws : list error)
         (buf res : Column Time),
    VecEvalTime (args b 0) input (warnings w) = (ws, inr buf) ->
    wellFormed buf ->
    rows buf = NumRows input ->
    snd (builtinLastDaySig_vecEvalTime GetLastDay b input result w) = inr res ->
    VecEvalTime (args b' 0) input (warnings w') = (warnings w', inr res) ->
    builtinDateSig_vecEvalTime b' input result' w' = (w', inr res) /\
    ((forall j, (j < NumRows input)%nat -> IsNull buf j = false ->
                InvalidZero (Times buf j) = false ->
                GetLastDay (Year (CoreTime (Times buf j))) (Month (CoreTime (Times buf j))) <> 0) ->
     builtinLastDaySig_vecEvalTime GetLastDay b' input result' w' = (w', inr res)).
Proof.
  intros GetLastDay b b' input result result' w w' ws buf res He Hwf Hrows Hres He'.
  rewrite (lastday_run GetLastDay b input result w ws buf He) in Hres.
  unfold wellFormed in Hwf. rewrite Hrows in Hwf.
  destruct (colEval _ _ _ _) as [ws1 r] eqn:E. simpl in Hres. rewrite Hres in E.
  destruct (in_place_rows _ (lastDayRow GetLastDay) _ _ _ _ Hrows Hwf E)
    as [Hr [Hl Hcells]].
  assert (Hshape : forall j, (j < NumRows input)%nat ->
            IsNull res j = true \/
            (IsNull buf j = false /\ InvalidZero (Times buf j) = false /\
             IsNull res j = false /\ Times res j = lastDayOf GetLastDay (Times buf j))).
  { intros j Hj. destruct (Hcells j Hj) as [Hnull Hval]. unfold lastDayRow in *.
    destruct (IsNull buf j) eqn:Enj; [now left|].
    destruct (InvalidZero (Times buf j)) eqn:Ez; [now left|].
    right. auto. }
  split.
  - rewrite (date_run b' input result' w' (warnings w') res He'). rewrite Hl.
    rewrite (in_place_fixed (ctx b') dateRow (NumRows input) res Hr Hl).
    + now rewrite addWarnings_none.
    + intros j Hj. unfold dateRow.
      destruct (Hshape j Hj) as [-> | [Hnb [Hzb [-> Hv]]]]; [now left|].
      right. rewrite Hv. apply InvalidZero_fields in Hzb. destruct Hzb as [Hm _].
      unfold IsZero, lastDayOf. simpl.
      apply Z.eqb_neq in Hm. rewrite Hm. rewrite andb_false_r. reflexivity.
  - intros Hnz.
    rewrite (lastday_run GetLastDay b' input result' w' (warnings w') res He').
    rewrite (in_place_fixed (ctx b') (lastDayRow GetLastDay) (NumRows input) res Hr Hl).
    + now rewrite addWarnings_none.
    + intros j Hj. unfold lastDayRow.
      destruct (Hshape j Hj) as [-> | [Hnb [Hzb [-> Hv]]]]; [now left|].
      right. rewrite Hv. specialize (Hnz j Hj Hnb Hzb).
      apply InvalidZero_fields in Hzb. destruct Hzb as [Hm _].
      unfold InvalidZero, lastDayOf. simpl.
      apply Z.eqb_neq in Hm, Hnz. rewrite Hm, Hnz. reflexivity.
Qed.

(** The column LAST_DAY returns on [februaryBatch] in a session that is not
    strict: the second row, an invalid zero, is null. *)
Definition februaryLastDays : Column Time :=
  mkColumn [false; true] [dateOf 2024 2 29; dateOf 2024 0 10].

Lemma last_day_is_a_date_and_a_last_day_witness :
  builtinDateSig_vecEvalTime (onTime (session true true) februaryLastDays)
    twoRows (mkColumn [] []) freshWorld = (freshWorld, inr februaryLastDays) /\
  builtinLastDaySig_vecEvalTime daysIn (onTime (session true true) februaryLastDays)
    twoRows (mkColumn [] []) freshWorld = (freshWorld, inr februaryLastDays).
Proof.
  destruct (last_day_is_a_date_and_a_last_day daysIn
              (onTime (session false false) februaryBatch)
              (onTime (session true true) februaryLastDays)
              twoRows (mkColumn [] []) (mkColumn [] []) freshWorld freshWorld []
              februaryBatch februaryLastDays eq_refl eq_refl eq_refl eq_refl eq_refl)
    as [Hdate Hlast].
  split; [exact Hdate|]. apply Hlast.
  intros [|[|j]] Hj Hnj Hz; [vm_compute; discriminate|discriminate|simpl in Hj; lia].
Defined.

(** A loop that gives every row a value. *)
Lemma fill_rows {A} (c : SessionVars) (f : nat -> A) n (start : Column A) w :
  forRows (fun i r => ret (setElem i (f i) r)) 0 n start w =
  (w, inr (colFinal (fun i => Value (f i)) n start)).
Proof.
  rewrite (forRows_ext _
             (fun i r => rowAct c setElem setRowNull (Value (f i)) i r))
    by reflexivity.
  rewrite (forRows_rowAct c setElem setRowNull (fun i => Value (f i))).
  rewrite evalRows_total by reflexivity.
  rewrite rowWarnings_none by (intros; discriminate).
  now rewrite addWarnings_nil.
Qed.

(** X7. A date literal is checked against the SQL mode once per batch and
    not through the invalid-time policy: the call fails with the wrong-value
    error of the literal exactly when NoZeroDate is on and the literal is
    the zero value, or NoZeroInDate is on and the literal is an invalid zero
    other than the zero value, in strict sessions and in others alike.
    Otherwise every one of the [NumRows] rows is the literal and none is
    null. The call never touches the pool or the warning sink. *)
Theorem date_literal_is_gated_by_the_mode :
  forall (b : builtinDateLiteralSig) (input : Chunk) (result : Column Time) (w : World),
    let lit := literal b in
    let mode := SQLMode (ctx (baseOfLiteral b)) in
    let rejected :=
      (NoZeroDate mode && IsZero lit) ||
      (NoZeroInDate mode && (InvalidZero lit && negb (IsZero lit))) in
    let run := builtinDateLiteralSig_vecEvalTime b input result w in
    fst run = w /\
    (rejected = true -> snd run = inl (ErrWrongValue DateTimeStr (ArgTime lit))) /\
    (rejected = false ->
       exists res, snd run = inr res /\ rows res = NumRows input /\
         forall i, (i < NumRows input)%nat -> IsNull res i = false /\ Times res i = lit).
Proof.
  intros b input result w lit mode rejected run.
  unfold run, builtinDateLiteralSig_vecEvalTime, HasNoZeroDateMode, HasNoZeroInDateMode.
  cbv zeta. fold lit mode.
  set (start := ResizeTime (NumRows input) result).
  assert (Hl : List.length (elems start) = NumRows input) by apply elems_Resize.
  assert (Hr : rows start = NumRows input) by apply rows_Resize.
  rewrite Hl. unfold rejected.
  destruct (NoZeroDate mode && IsZero lit) eqn:E1; cbn [orb].
  - split; [reflexivity|]. split; [reflexivity|discriminate].
  - destruct (NoZeroInDate mode && (InvalidZero lit && negb (IsZero lit))) eqn:E2.
    + split; [reflexivity|]. split; [reflexivity|discriminate].
    + rewrite (fill_rows (ctx (baseOfLiteral b)) (fun _ => lit)).
      split; [reflexivity|]. split; [discriminate|]. intros _.
      eexists. split; [reflexivity|]. split.
      * unfold colFinal. now rewrite applyRows_rows.
      * intros i Hi. split.
        -- rewrite colFinal_null by auto. apply IsNull_Resize.
        -- unfold Times. rewrite (colFinal_elem zeroTime) by auto. reflexivity.
Qed.

(** * GET_FORMAT *)

(** A loop that appends one row per turn and never fails. *)
Lemma append_rows c (g : nat -> RowOutcome string) n w :
  (forall i, (i < n)%nat -> exists o, g i = o /\ (o = Nullify \/ exists s, o = Value s)) ->
  forRows (fun i r => rowAct c appendValue appendNull (g i) i r) 0 n (mkColumn [] []) w =
  (w, inr (applyRows appendValue appendNull g 0 n (mkColumn [] []))).
Proof.
  intros Hg.
  rewrite (forRows_rowAct c appendValue appendNull g).
  rewrite evalRows_total.
  - rewrite rowWarnings_none; [now rewrite addWarnings_nil|].
    intros i Hi e He. destruct (Hg i ltac:(lia)) as [o [Ho [->|[s ->]]]]; congruence.
  - intros i Hi. destruct (Hg i ltac:(lia)) as [o [Ho [->|[s ->]]]]; rewrite Ho; reflexivity.
Qed.

Section GetFormatFacts.

Variables dateFormat datetimeFormat timestampFormat timeFormat : string.
Variables usaLocation jisLocation isoLocation eurLocation internalLocation : string.

Local Abbreviation getFormat :=
  (builtinGetFormatSig_getFormat dateFormat datetimeFormat timestampFormat timeFormat
     usaLocation jisLocation isoLocation eurLocation internalLocation).

Definition getFormatRow (buf0 buf1 : Column string) (i : nat) : RowOutcome string :=
  if IsNull buf0 i || IsNull buf1 i then Nullify
  else Value (getFormat (GetString buf0 i) (GetString buf1 i)).

Lemma getformat_run b input result w ws0 buf0 ws1 buf1 :
  loanable2 w ->
  VecEvalString (args b 0) input (warnings w) = (ws0, inr buf0) ->
  VecEvalString (args b 1) input ws0 = (ws1, inr buf1) ->
  builtinGetFormatSig_vecEvalString dateFormat datetimeFormat timestampFormat timeFormat
    usaLocation jisLocation isoLocation eurLocation internalLocation b input result w =
  (put (nextHandle w)
     (put (nextHandle (withWarnings ws0 (lent w)))
        (withWarnings ws1 (lent (withWarnings ws0 (lent w))))),
   inr (applyRows appendValue appendNull (getFormatRow buf0 buf1) 0 (NumRows input)
          (mkColumn [] []))).
Proof.
  intros Hl He0 He1. unfold builtinGetFormatSig_vecEvalString. cbv zeta.
  rewrite (run_loan _ _ _ _ (loanable2_fst _ Hl)). cbv beta.
  rewrite (run_arg (VecEvalString (args b 0)) input _ (lent w) ws0 buf0 He0).
  rewrite (run_loan _ _ _ _ (loanable2_snd _ ws0 Hl)). cbv beta.
  rewrite (run_arg (VecEvalString (args b 1)) input _ (lent (withWarnings ws0 (lent w)))
             ws1 buf1 He1).
  rewrite (forRows_ext _
    (fun i r => rowAct (ctx b) appendValue appendNull (getFormatRow buf0 buf1 i) i r)).
  - unfold ReserveString. rewrite append_rows; [reflexivity|].
    intros i Hi. eexists. split; [reflexivity|]. unfold getFormatRow.
    destruct (IsNull buf0 i || IsNull buf1 i); eauto.
  - intros i st w0 _. unfold getFormatRow, appendValue, appendNull, rowAct.
    destruct (IsNull buf0 i || IsNull buf1 i); reflexivity.
Qed.

Lemma put_onLoan_lent w ws :
  onLoan (events (bufAllocator (put (nextHandle w) (withWarnings ws (lent w))))) =
  onLoan (events (bufAllocator w)).
Proof. simpl. now rewrite Nat.eqb_refl. Qed.

Lemma getFormat_known format location :
  getFormat format location <> EmptyString ->
  In format [dateFormat; datetimeFormat; timestampFormat; timeFormat] /\
  In location [usaLocation; jisLocation; isoLocation; eurLocation; internalLocation].
Proof.
  unfold builtinGetFormatSig_getFormat. cbv zeta. intros H. split.
  - destruct (String.eqb_spec format dateFormat); [subst; simpl; auto|].
    destruct (String.eqb_spec format datetimeFormat); [subst; simpl; auto|].
    destruct (String.eqb_spec format timestampFormat); [subst; simpl; auto|].
    destruct (String.eqb_spec format timeFormat); [subst; simpl; auto|].
    simpl in H. congruence.
  - destruct (String.eqb_spec location usaLocation); [subst; simpl; auto|].
    destruct (String.eqb_spec location jisLocation); [subst; simpl; auto|].
    destruct (String.eqb_spec location isoLocation); [subst; simpl; auto|].
    destruct (String.eqb_spec location eurLocation); [subst; simpl; auto 6|].
    destruct (String.eqb_spec location internalLocation); [subst; simpl; auto 6|].
    exfalso. apply H.
    destruct (String.eqb format dateFormat); [reflexivity|].
    destruct (String.eqb format datetimeFormat || String.eqb format timestampFormat);
      [reflexivity|].
    destruct (String.eqb format timeFormat); reflexivity.
Qed.

Lemma getFormat_timestamp location :
  datetimeFormat <> dateFormat -> timestampFormat <> dateFormat ->
  getFormat datetimeFormat location = getFormat timestampFormat location.
Proof.
  intros H1 H2. unfold builtinGetFormatSig_getFormat. cbv zeta.
  apply String.eqb_neq in H1, H2. rewrite H1, H2.
  rewrite !String.eqb_refl. now rewrite orb_true_r.
Qed.

End GetFormatFacts.

(** X8. GET_FORMAT never fails once its two arguments are evaluated and says
    nothing to the warning sink: it returns both scratch buffers, and its
    result has one row per input row, null exactly where either argument is
    null and otherwise the format string of the table. A format name or a
    location name that the table does not know gives the empty string, not
    NULL; the names are compared as they are written; and the DATETIME and
    TIMESTAMP formats are the same for every location. *)
Theorem get_format_rows :
  forall (dateFormat datetimeFormat timestampFormat timeFormat
          usaLocation jisLocation isoLocation eurLocation internalLocation : string)
         (b : baseBuiltinFunc) (input : Chunk) (result : Column string) (w : World)
         (ws0 ws1 : list error) (buf0 buf1 : Column string),
    loanable2 w ->
    VecEvalString (args b 0) input (warnings w) = (ws0, inr buf0) ->
    VecEvalString (args b 1) input ws0 = (ws1, inr buf1) ->
    datetimeFormat <> dateFormat ->
    timestampFormat <> dateFormat ->
    let getFormat :=
      builtinGetFormatSig_getFormat dateFormat datetimeFormat timestampFormat timeFormat
        usaLocation jisLocation isoLocation eurLocation internalLocation in
    let run :=
      builtinGetFormatSig_vecEvalString dateFormat datetimeFormat timestampFormat timeFormat
        usaLocation jisLocation isoLocation eurLocation internalLocation b input result w in
    (exists res,
       snd run = inr res /\
       rows res = NumRows input /\
       forall i, (i < NumRows input)%nat ->
         IsNull res i = IsNull buf0 i || IsNull buf1 i /\
         (IsNull res i = false ->
          GetString res i = getFormat (GetString buf0 i) (GetString buf1 i))) /\
    warnings (fst run) = ws1 /\
    onLoan (events (bufAllocator (fst run))) = onLoan (events (bufAllocator w)) /\
    (forall format location,
       getFormat format location <> EmptyString ->
       In format [dateFormat; datetimeFormat; timestampFormat; timeFormat] /\
       In location [usaLocation; jisLocation; isoLocation; eurLocation; internalLocation]) /\
    (forall location, getFormat datetimeFormat location = getFormat timestampFormat location).
Proof.
  intros dateFormat datetimeFormat timestampFormat timeFormat
         usaLocation jisLocation isoLocation eurLocation internalLocation
         b input result w ws0 ws1 buf0 buf1 Hl He0 He1 Hd1 Hd2 getFormat run.
  unfold run.
  rewrite (getformat_run dateFormat datetimeFormat timestampFormat timeFormat
             usaLocation jisLocation isoLocation eurLocation internalLocation
             b input result w ws0 buf0 ws1 buf1 Hl He0 He1).
  cbn [fst snd].
  set (g := getFormatRow dateFormat datetimeFormat timestampFormat timeFormat
              usaLocation jisLocation isoLocation eurLocation internalLocation buf0 buf1).
  assert (Hg : forall j, (0 <= j < 0 + NumRows input)%nat ->
                 g j <> Keep /\ forall e, g j <> Abort e).
  { intros j _. unfold g, getFormatRow.
    destruct (IsNull buf0 j || IsNull buf1 j); split; discriminate. }
  split; [|split; [|split; [|split]]].
  - eexists. split; [reflexivity|]. split.
    + destruct (appended_rows g 0 (NumRows input) (mkColumn [] []) Hg) as [Hr _].
      exact Hr.
    + intros i Hi.
      destruct (appended_cell g 0 (NumRows input) (mkColumn [] []) i Hg eq_refl eq_refl
                  ltac:(lia)) as [Hnull Hval].
      rewrite Hnull, Hval. unfold g, getFormatRow.
      destruct (IsNull buf0 i || IsNull buf1 i); [split; [reflexivity|discriminate]|].
      split; reflexivity.
  - reflexivity.
  - unfold nextHandle. simpl. rewrite Nat.eqb_refl. simpl. now rewrite Nat.eqb_refl.
  - apply getFormat_known.
  - intros location. now apply getFormat_timestamp.
Qed.

(** GET_FORMAT('DATE', 'EUR'), GET_FORMAT('date', 'EUR') and
    GET_FORMAT(NULL, 'EUR'). *)
Definition formatNames : Column string :=
  mkColumn [false; false; true] ["DATE"; "date"; EmptyString]%string.
Definition locationNames : Column string :=
  mkColumn [false; false; false] ["EUR"; "EUR"; "EUR"]%string.

Definition threeRows : Chunk := {| NumRows := 3 |}.

Definition onStrings (c : SessionVars) (s0 s1 : Column string) : baseBuiltinFunc :=
  {| ctx := c; args := fun k => match k with O => stringArg s0 | _ => stringArg s1 end |}.

Lemma get_format_rows_witness :
  exists res,
    snd (builtinGetFormatSig_vecEvalString "DATE" "DATETIME" "TIMESTAMP" "TIME"
           "USA" "JIS" "ISO" "EUR" "INTERNAL"
           (onStrings (session false true) formatNames locationNames)
           threeRows (mkColumn [] []) freshWorld) = inr res /\
    GetString res 0 = "%d.%m.%Y"%string /\
    IsNull res 1 = false /\ GetString res 1 = EmptyString /\
    IsNull res 2 = true.
Proof.
  destruct (get_format_rows "DATE" "DATETIME" "TIMESTAMP" "TIME"
              "USA" "JIS" "ISO" "EUR" "INTERNAL"
              (onStrings (session false true) formatNames locationNames)
              threeRows (mkColumn [] []) freshWorld [] [] formatNames locationNames
              ltac:(unfold loanable2; simpl; lia) eq_refl eq_refl
              ltac:(discriminate) ltac:(discriminate))
    as [[res [E [_ Hcells]]] _].
  exists res. split; [exact E|].
  destruct (Hcells 0%nat ltac:(simpl; lia)) as [H0 V0].
  destruct (Hcells 1%nat ltac:(simpl; lia)) as [H1 V1].
  destruct (Hcells 2%nat ltac:(simpl; lia)) as [H2 _].
  repeat split.
  - rewrite (V0 H0). reflexivity.
  - exact H1.
  - rewrite (V1 H1). reflexivity.
  - exact H2.
Defined.

(** * MONTHNAME and DAYNAME *)

Definition monthNameRow (MonthNames : list string) (c : SessionVars) (buf : Column Time)
    (i : nat) : RowOutcome string :=
  if IsNull buf i then Nullify
  else
    let t := Times buf i in
    let mon := Month (CoreTime t) in
    if (IsZero t && HasNoZeroDateMode (SQLMode c)) || (mon <? 0) ||
       (Z.of_nat (List.length MonthNames) <? mon) then Invalid (wrongDate t)
    else if (mon =? 0) || IsZero t then Nullify
    else Value (nth (Z.to_nat (mon - 1)) MonthNames EmptyString).

Definition dayNameTextRow (WeekdayNames : list string) (buf : Column Time) (i : nat)
  : RowOutcome string :=
  if IsNull buf i then Nullify
  else if InvalidZero (Times buf i) then Invalid (wrongDate (Times buf i))
  else Value (nth (Z.to_nat (goMod (Weekday (CoreTime (Times buf i)) + 6) 7))
                WeekdayNames EmptyString).

Lemma monthname_run MonthNames b input result w ws buf :
  loanable w ->
  VecEvalTime (args b 0) input (warnings w) = (ws, inr buf) ->
  builtinMonthNameSig_vecEvalString MonthNames b input result w =
  let (ws', r) := evalRows appendValue appendNull (StrictSQLMode (ctx b))
                    (monthNameRow MonthNames (ctx b) buf) 0 (NumRows input)
                    (mkColumn [] []) in
  (afterRows w ws ws', r).
Proof.
  intros Hl He. unfold builtinMonthNameSig_vecEvalString. run_one_loan Hl He.
  rewrite (forRows_ext _
    (fun i r => rowAct (ctx b) appendValue appendNull
                  (monthNameRow MonthNames (ctx b) buf i) i r)).
  - rewrite forRows_rowAct. unfold ReserveString, afterRows.
    destruct (evalRows _ _ _ _ _ _ _); reflexivity.
  - intros i st w0 _. unfold monthNameRow, wrongDate, appendValue, appendNull, rowAct.
    cbv zeta. destruct (IsNull buf i); [reflexivity|].
    destruct (_ || _ || _); [reflexivity|].
    destruct (_ || _); reflexivity.
Qed.

Lemma dayname_text_run WeekdayNames b input result w ws buf :
  loanable w ->
  VecEvalTime (args b 0) input (warnings w) = (ws, inr buf) ->
  builtinDayNameSig_vecEvalString WeekdayNames b input result w =
  let (ws', r) := evalRows appendValue appendNull (StrictSQLMode (ctx b))
                    (dayNameTextRow WeekdayNames buf) 0 (NumRows input)
                    (mkColumn [] []) in
  (afterRows w ws ws', r).
Proof.
  intros Hl He.
  unfold builtinDayNameSig_vecEvalString, builtinDayNameSig_vecEvalIndex.
  run_one_loan Hl He.
  rewrite (forRows_ext _
    (fun i r => rowAct (ctx b) appendValue appendNull (dayNameTextRow WeekdayNames buf i) i r)).
  - rewrite forRows_rowAct. unfold ReserveString, afterRows.
    destruct (evalRows _ _ _ _ _ _ _); reflexivity.
  - intros i st w0 _. unfold dayNameTextRow, wrongDate, appendValue, appendNull, rowAct.
    destruct (IsNull buf i); [reflexivity|].
    destruct (InvalidZero _); reflexivity.
Qed.

(** What a run of an appending evaluator says of its rows. *)
Lemma append_evaluator_rows strict (g : nat -> RowOutcome string) n ws' res :
  (forall j, g j <> Keep /\ forall e, g j <> Abort e) ->
  evalRows appendValue appendNull strict g 0 n (mkColumn [] []) = (ws', inr res) ->
  rows res = n /\
  forall i, (i < n)%nat ->
    IsNull res i = (match g i with Value _ => false | _ => true end) /\
    GetString res i = (match g i with Value s => s | _ => EmptyString end).
Proof.
  intros Hg E. apply evalRows_ok in E. destruct E as [-> _]. split.
  - destruct (appended_rows g 0 n (mkColumn [] []) (fun j _ => Hg j)) as [Hr _]. exact Hr.
  - intros i Hi.
    apply (appended_cell g 0 n (mkColumn [] []) i (fun j _ => Hg j) eq_refl eq_refl).
    lia.
Qed.

Lemma IsZero_Month t : IsZero t = true -> Month (CoreTime t) = 0.
Proof.
  unfold IsZero. intros H.
  do 5 (apply andb_prop in H; destruct H as [H _]).
  apply andb_prop in H. destruct H as [_ H]. now apply Z.eqb_eq.
Qed.

(** X9. MONTHNAME of a non-null date is non-null exactly when the month is
    between 1 and the length of the table of month names, and is then entry
    [month - 1] of the table: the index is always within the table. A date
    with month 0 gives NULL without consulting the invalid-time policy,
    unless it is the zero value and NoZeroDate is on: when every non-null
    row has a month from 0 to the length of the table and, under
    NoZeroDate, is not the zero value, the call returns in strict sessions
    too and appends no warning. *)
Theorem monthname_indexes_within_the_table :
  forall (MonthNames : list string) (b : baseBuiltinFunc) (input : Chunk)
         (result : Column string) (w : World) (ws : list error) (buf : Column Time) (i : nat),
    loanable w ->
    VecEvalTime (args b 0) input (warnings w) = (ws, inr buf) ->
    (i < NumRows input)%nat ->
    IsNull buf i = false ->
    let mon := Month (CoreTime (Times buf i)) in
    let run := builtinMonthNameSig_vecEvalString MonthNames b input result w in
    (forall res, snd run = inr res ->
       rows res = NumRows input /\
       (IsNull res i = false <-> 1 <= mon <= Z.of_nat (List.length MonthNames)) /\
       (IsNull res i = false ->
        nth_error MonthNames (Z.to_nat (mon - 1)) = Some (GetString res i))) /\
    ((forall j, (j < NumRows input)%nat -> IsNull buf j = false ->
        0 <= Month (CoreTime (Times buf j)) <= Z.of_nat (List.length MonthNames) /\
        (NoZeroDate (SQLMode (ctx b)) = false \/ IsZero (Times buf j) = false)) ->
     exists res, snd run = inr res /\ warnings (fst run) = ws).
Proof.
  intros MonthNames b input result w ws buf i Hl He Hi Hn mon run.
  assert (Hrun := monthname_run MonthNames b input result w ws buf Hl He).
  fold run in Hrun.
  set (g := monthNameRow MonthNames (ctx b) buf) in *.
  assert (Hg : forall j, g j <> Keep /\ forall e, g j <> Abort e).
  { intros j. unfold g, monthNameRow. cbv zeta.
    destruct (IsNull buf j); [split; discriminate|].
    destruct (_ || _ || _); [split; discriminate|].
    destruct (_ || _); split; discriminate. }
  split.
  - intros res Hres. rewrite Hrun in Hres.
    destruct (evalRows _ _ _ _ _ _ _) as [ws' r] eqn:E. simpl in Hres. rewrite Hres in E.
    destruct (append_evaluator_rows _ g _ _ _ Hg E) as [Hr Hcells].
    destruct (Hcells i Hi) as [Hnull Hval].
    split; [exact Hr|].
    unfold g, monthNameRow in Hnull, Hval. cbv zeta in Hnull, Hval.
    rewrite Hn in Hnull, Hval. fold mon in Hnull, Hval.
    destruct (IsZero (Times buf i)) eqn:Ez.
    + assert (Hm0 : mon = 0) by (apply IsZero_Month; exact Ez).
      rewrite Hm0 in *. simpl in Hnull.
      assert (Hnull' : IsNull res i = true).
      { rewrite Hnull. destruct (_ || _ || _); reflexivity. }
      rewrite Hnull'. split; [split; [discriminate|lia]|discriminate].
    + simpl in Hnull, Hval.
      destruct (mon <? 0) eqn:E1; simpl in Hnull, Hval;
        [apply Z.ltb_lt in E1; rewrite Hnull; split; [split; [discriminate|lia]|discriminate]|].
      apply Z.ltb_ge in E1.
      destruct (Z.of_nat (List.length MonthNames) <? mon) eqn:E2;
        [apply Z.ltb_lt in E2; rewrite Hnull; split; [split; [discriminate|lia]|discriminate]|].
      apply Z.ltb_ge in E2.
      destruct (Z.eqb_spec mon 0) as [E3|E3]; simpl in Hnull, Hval;
        [rewrite Hnull; split; [split; [discriminate|lia]|discriminate]|].
      rewrite Hnull, Hval. split; [split; [lia|reflexivity]|].
      intros _. apply nth_error_nth'. lia.
  - intros Hquiet. rewrite Hrun.
    assert (Hsilent : forall j, (j < NumRows input)%nat ->
              g j = Nullify \/ exists s, g j = Value s).
    { intros j Hj. unfold g, monthNameRow. cbv zeta.
      destruct (IsNull buf j) eqn:Enj; [now left|].
      destruct (Hquiet j Hj Enj) as [Hrange Hz].
      replace (Month (CoreTime (Times buf j)) <? 0) with false
        by (symmetry; apply Z.ltb_ge; lia).
      replace (Z.of_nat (List.length MonthNames) <? Month (CoreTime (Times buf j)))
        with false by (symmetry; apply Z.ltb_ge; lia).
      assert (Hp : IsZero (Times buf j) && HasNoZeroDateMode (SQLMode (ctx b)) = false).
      { unfold HasNoZeroDateMode. destruct Hz as [-> | ->];
          [apply andb_false_r|reflexivity]. }
      rewrite Hp. simpl. destruct (_ || _); eauto. }
    rewrite evalRows_total.
    + rewrite rowWarnings_none.
      * eexists. split; [reflexivity|]. cbn [fst]. rewrite afterRows_warnings.
        apply app_nil_r.
      * intros j Hj e Hej. destruct (Hsilent j ltac:(lia)) as [H|[s H]]; congruence.
    + intros j Hj. destruct (Hsilent j ltac:(lia)) as [H|[s H]]; rewrite H; reflexivity.
Qed.

Definition monthNamesEn : list string :=
  ["January"; "February"; "March"; "April"; "May"; "June"; "July"; "August";
   "September"; "October"; "November"; "December"]%string.

Definition weekdayNamesEn : list string :=
  ["Monday"; "Tuesday"; "Wednesday"; "Thursday"; "Friday"; "Saturday"; "Sunday"]%string.

Lemma monthname_indexes_within_the_table_witness :
  exists res,
    snd (builtinMonthNameSig_vecEvalString monthNamesEn
           (onTime (session true true) februaryBatch)
           twoRows (mkColumn [] []) freshWorld) = inr res /\
    IsNull res 0 = false /\ GetString res 0 = "February"%string /\ IsNull res 1 = true.
Proof.
  destruct (monthname_indexes_within_the_table monthNamesEn
              (onTime (session true true) februaryBatch)
              twoRows (mkColumn [] []) freshWorld [] februaryBatch 0
              freshWorld_loanable eq_refl (Nat.lt_0_succ 1) eq_refl) as [Hres Htotal].
  destruct Htotal as [res [E _]].
  - intros [|[|j]] Hj _; [vm_compute; intuition congruence
                         |vm_compute; intuition congruence|simpl in Hj; lia].
  - exists res. split; [exact E|].
    destruct (Hres res E) as [_ [Hiff Hname]].
    assert (H0 : IsNull res 0 = false) by (apply Hiff; vm_compute; intuition congruence).
    split; [exact H0|]. split.
    + specialize (Hname H0).
      change (Some "February"%string = Some (GetString res 0)) in Hname. congruence.
    + destruct (monthname_indexes_within_the_table monthNamesEn
                  (onTime (session true true) februaryBatch)
                  twoRows (mkColumn [] []) freshWorld [] februaryBatch 1
                  freshWorld_loanable eq_refl (Nat.lt_succ_diag_r 1) eq_refl) as [Hres1 _].
      destruct (Hres1 res E) as [_ [Hiff1 _]].
      destruct (IsNull res 1) eqn:E1; [reflexivity|].
      destruct Hiff1 as [Hiff1 _]. specialize (Hiff1 eq_refl). vm_compute in Hiff1.
      destruct Hiff1 as [Hc _]. exfalso. apply Hc. reflexivity.
Defined.

(** X10. DAYNAME as a string looks the name up at the Monday-first index
    [(Weekday + 6) mod 7]: for a non-null date that is not an invalid zero
    and a table of seven names the index is within the table, the row is
    not null and holds that entry. The string result names the index the
    integer result of DAYNAME returns. *)
Theorem dayname_indexes_within_the_table :
  forall (WeekdayNames : list string) (b : baseBuiltinFunc) (input : Chunk)
         (result : Column string) (result' : Column Z) (w : World) (ws : list error)
         (buf : Column Time) (i : nat),
    loanable w ->
    VecEvalTime (args b 0) input (warnings w) = (ws, inr buf) ->
    (i < NumRows input)%nat ->
    IsNull buf i = false ->
    InvalidZero (Times buf i) = false ->
    unsignedDate (CoreTime (Times buf i)) ->
    List.length WeekdayNames = 7%nat ->
    let index := (Weekday (CoreTime (Times buf i)) + 6) mod 7 in
    let run := builtinDayNameSig_vecEvalString WeekdayNames b input result w in
    (forall res, snd run = inr res ->
       rows res = NumRows input /\
       IsNull res i = false /\
       nth_error WeekdayNames (Z.to_nat index) = Some (GetString res i) /\
       forall res', snd (builtinDayNameSig_vecEvalInt b input result' w) = inr res' ->
         nth_error WeekdayNames (Z.to_nat (Int64s res' i)) = Some (GetString res i)) /\
    ((StrictSQLMode (ctx b) = false \/
      forall j, (j < NumRows input)%nat -> IsNull buf j = false ->
                InvalidZero (Times buf j) = false) ->
     exists res, snd run = inr res).
Proof.
  intros WeekdayNames b input result result' w ws buf i Hl He Hi Hn Hz Hu Hlen index run.
  destruct (InvalidZero_fields _ Hz) as [Hmo Hda].
  assert (Hwd := Weekday_range _ Hu Hmo Hda).
  assert (Hidx : goMod (Weekday (CoreTime (Times buf i)) + 6) 7 = index)
    by (unfold goMod, index; apply Z.rem_mod_nonneg; lia).
  assert (Hrange : 0 <= index < 7) by (unfold index; apply Z.mod_pos_bound; lia).
  assert (Hrun := dayname_text_run WeekdayNames b input result w ws buf Hl He).
  fold run in Hrun.
  set (g := dayNameTextRow WeekdayNames buf) in *.
  assert (Hg : forall j, g j <> Keep /\ forall e, g j <> Abort e).
  { intros j. unfold g, dayNameTextRow.
    destruct (IsNull buf j); [split; discriminate|].
    destruct (InvalidZero (Times buf j)); split; discriminate. }
  assert (Hrow : g i = Value (nth (Z.to_nat index) WeekdayNames EmptyString))
    by (unfold g, dayNameTextRow; now rewrite Hn, Hz, Hidx).
  split.
  - intros res Hres. rewrite Hrun in Hres.
    destruct (evalRows _ _ _ _ _ _ _) as [ws' r] eqn:E. simpl in Hres. rewrite Hres in E.
    destruct (append_evaluator_rows _ g _ _ _ Hg E) as [Hr Hcells].
    destruct (Hcells i Hi) as [Hnull Hval]. rewrite Hrow in Hnull, Hval.
    assert (Hname : nth_error WeekdayNames (Z.to_nat index) = Some (GetString res i))
      by (rewrite Hval; apply nth_error_nth'; lia).
    repeat split; auto.
    intros res' Hres'.
    rewrite (dayname_run b input result' w ws buf Hl He) in Hres'.
    destruct (colEval _ _ _ _) as [ws2 r2] eqn:E2. simpl in Hres'. rewrite Hres' in E2.
    apply colEval_ok in E2. destruct E2 as [-> _].
    assert (Hf : dayNameRow buf i = Value index)
      by (unfold dayNameRow; now rewrite Hn, Hz, Hidx).
    unfold Int64s, ResizeInt64.
    rewrite (colFinal_elem 0) by auto using elems_Resize.
    now rewrite Hf.
  - intros Hok. rewrite Hrun. rewrite evalRows_total; [simpl; eauto|].
    intros j Hj. unfold g, dayNameTextRow.
    destruct (IsNull buf j) eqn:Enj; [reflexivity|].
    destruct Hok as [Hs|Hv].
    + rewrite Hs. destruct (InvalidZero (Times buf j)); reflexivity.
    + now rewrite (Hv j ltac:(lia) Enj).
Qed.

Lemma dayname_indexes_within_the_table_witness :
  exists res,
    snd (builtinDayNameSig_vecEvalString weekdayNamesEn
           (onTime (session false false) newYear2024)
           oneRow (mkColumn [] []) freshWorld) = inr res /\
    GetString res 0 = "Monday"%string.
Proof.
  destruct (dayname_indexes_within_the_table weekdayNamesEn
              (onTime (session false false) newYear2024)
              oneRow (mkColumn [] []) emptyInts freshWorld [] newYear2024 0
              freshWorld_loanable eq_refl (le_n 1) eq_refl eq_refl
              ltac:(unfold unsignedDate; simpl; lia) eq_refl) as [Hres Htotal].
  destruct Htotal as [res E]; [now left|].
  exists res. split; [exact E|].
  destruct (Hres res E) as [_ [_ [Hname _]]].
  change (Some "Monday"%string = Some (GetString res 0)) in Hname. congruence.
Defined.

(** * WEEK with a mode *)

Definition weekModeRow (Week : MysqlTime -> Z -> Z) (buf1 : Column Time) (buf2 : Column Z)
    (i : nat) : RowOutcome Z :=
  if IsNull buf1 i then Nullify
  else if IsZero (Times buf1 i) then Invalid (wrongDate (Times buf1 i))
  else if IsNull buf2 i then Nullify
  else Value (Week (CoreTime (Times buf1 i)) (Int64s buf2 i)).

Lemma week_mode_run Week b input result w ws1 buf1 ws2 buf2 :
  loanable2 w ->
  VecEvalTime (args b 0) input (warnings w) = (ws1, inr buf1) ->
  VecEvalInt (args b 1) input ws1 = (ws2, inr buf2) ->
  builtinWeekWithModeSig_vecEvalInt Week b input result w =
  let (ws', r) := colEval (ctx b) (weekModeRow Week buf1 buf2) (NumRows input)
                    (ResizeInt64 (NumRows input) result) in
  (put (nextHandle w)
     (put (nextHandle (withWarnings ws1 (lent w)))
        (addWarnings ws' (withWarnings ws2 (lent (withWarnings ws1 (lent w)))))), r).
Proof.
  intros Hl He1 He2. unfold builtinWeekWithModeSig_vecEvalInt. cbv zeta.
  rewrite (run_get _ _ _ _ (loanable2_fst _ Hl)).
  rewrite (run_arg (VecEvalTime (args b 0)) input _ (lent w) ws1 buf1 He1).
  unfold defer at 1.
  rewrite (run_get _ _ _ _ (loanable2_snd _ ws1 Hl)).
  rewrite (run_arg (VecEvalInt (args b 1)) input _ (lent (withWarnings ws1 (lent w)))
             ws2 buf2 He2).
  unfold defer at 1.
  rewrite (forRows_ext _
    (fun i r => rowAct (ctx b) setElem setRowNull (weekModeRow Week buf1 buf2 i) i r)).
  - rewrite forRows_rowAct. unfold colEval.
    destruct (evalRows _ _ _ _ _ _ _); reflexivity.
  - intros i st w0 _. unfold weekModeRow, wrongDate, setRowNull, rowAct.
    destruct (IsNull buf1 i); [reflexivity|]. cbv zeta.
    destruct (IsZero (Times buf1 i)); [reflexivity|].
    destruct (IsNull buf2 i); reflexivity.
Qed.

(** X11. In WEEK(date, mode) a row is null exactly when the date is null,
    the date is the zero value, or the mode is null, and a row that is not
    null holds [Week(mode)] of the date: a null mode gives NULL (it does not
    stand for mode 0). The zero value is looked at before the mode: in a
    strict session a non-null row holding the zero value fails the call even
    when its mode is null. *)
Theorem week_mode_rows :
  forall (Week : MysqlTime -> Z -> Z) (b : baseBuiltinFunc) (input : Chunk)
         (result : Column Z) (w : World) (ws1 ws2 : list error)
         (buf1 : Column Time) (buf2 : Column Z) (i : nat),
    loanable2 w ->
    VecEvalTime (args b 0) input (warnings w) = (ws1, inr buf1) ->
    VecEvalInt (args b 1) input ws1 = (ws2, inr buf2) ->
    (i < NumRows input)%nat ->
    let run := builtinWeekWithModeSig_vecEvalInt Week b input result w in
    (forall res, snd run = inr res ->
       rows res = NumRows input /\
       (IsNull res i = true <->
        IsNull buf1 i = true \/ IsZero (Times buf1 i) = true \/ IsNull buf2 i = true) /\
       (IsNull res i = false ->
        Int64s res i = Week (CoreTime (Times buf1 i)) (Int64s buf2 i))) /\
    (StrictSQLMode (ctx b) = true -> IsNull buf1 i = false ->
     IsZero (Times buf1 i) = true ->
     exists e, snd run = inl e) /\
    ((StrictSQLMode (ctx b) = false \/
      forall j, (j < NumRows input)%nat -> IsNull buf1 j = false ->
                IsZero (Times buf1 j) = false) ->
     exists res, snd run = inr res).
Proof.
  intros Week b input result w ws1 ws2 buf1 buf2 i Hl He1 He2 Hi run.
  assert (Hrun := week_mode_run Week b input result w ws1 buf1 ws2 buf2 Hl He1 He2).
  fold run in Hrun.
  set (g := weekModeRow Week buf1 buf2) in *.
  set (start := ResizeInt64 (NumRows input) result) in *.
  assert (Hr : rows start = NumRows input) by apply rows_Resize.
  assert (Hlen : List.length (elems start) = NumRows input) by apply elems_Resize.
  split; [|split].
  - intros res Hres. rewrite Hrun in Hres.
    destruct (colEval _ _ _ _) as [ws' r] eqn:E. simpl in Hres. rewrite Hres in E.
    apply colEval_ok in E. destruct E as [-> _].
    split; [unfold colFinal; now rewrite applyRows_rows|].
    unfold Int64s.
    rewrite colFinal_null, (colFinal_elem 0) by auto.
    assert (Hlive : IsNull start i = false) by apply IsNull_Resize.
    rewrite Hlive. unfold g, weekModeRow.
    destruct (IsNull buf1 i); [split; [split; auto|intros H; discriminate H]|].
    destruct (IsZero (Times buf1 i)); [split; [split; auto|intros H; discriminate H]|].
    destruct (IsNull buf2 i); [split; [split; auto|intros H; discriminate H]|].
    split; [|reflexivity].
    split; [intros H; discriminate H|]. intros [H|[H|H]]; discriminate H.
  - intros Hs Hn Hz. rewrite Hrun.
    destruct (colEval_stopped (ctx b) g (NumRows input) start i
                (wrongDate (Times buf1 i)) Hi) as [ws' [e' E]].
    + unfold g, weekModeRow. rewrite Hn, Hz, Hs. reflexivity.
    + rewrite E. simpl. eauto.
  - intros Hok. rewrite Hrun. rewrite colEval_total; [simpl; eauto|].
    intros j Hj. unfold g, weekModeRow.
    destruct (IsNull buf1 j) eqn:Enj; [reflexivity|].
    destruct Hok as [Hs|Hv].
    + rewrite Hs. destruct (IsZero (Times buf1 j)); [reflexivity|].
      destruct (IsNull buf2 j); reflexivity.
    + rewrite (Hv j Hj Enj). destruct (IsNull buf2 j); reflexivity.
Qed.

(** An instance of [Week] for the examples: the week of the pair that
    [mysqlYearWeek] computes. *)
Definition mysqlWeek (t : MysqlTime) (mode : Z) : Z := snd (mysqlYearWeek t mode).

Lemma week_mode_rows_witness :
  exists res,
    snd (builtinWeekWithModeSig_vecEvalInt mysqlWeek
           (onDateAndMode (session false false) newYear2024 modeNull)
           oneRow emptyInts freshWorld) = inr res /\
    IsNull res 0 = true.
Proof.
  destruct (week_mode_rows mysqlWeek
              (onDateAndMode (session false false) newYear2024 modeNull)
              oneRow emptyInts freshWorld [] [] newYear2024 modeNull 0
              ltac:(unfold loanable2; simpl; lia) eq_refl eq_refl (le_n 1))
    as [Hres [_ Htotal]].
  destruct Htotal as [res E]; [now left|].
  exists res. split; [exact E|].
  destruct (Hres res E) as [_ [Hiff _]]. apply Hiff. right. right. reflexivity.
Defined.

(** X12. WEEK(date, mode) registers the return of each scratch buffer only
    after the argument has been evaluated into it without error. When the
    date argument fails the call returns its error and the buffer obtained
    for it stays on loan; when the mode argument fails the first buffer is
    returned and the second stays on loan; when both arguments are evaluated
    every buffer is returned, whatever the rows do. *)
Theorem week_mode_returns_buffers_only_after_evaluation :
  forall (Week : MysqlTime -> Z -> Z) (b : baseBuiltinFunc) (input : Chunk)
         (result : Column Z) (w : World),
    loanable2 w ->
    let run := builtinWeekWithModeSig_vecEvalInt Week b input result w in
    let before := onLoan (events (bufAllocator w)) in
    let after := onLoan (events (bufAllocator (fst run))) in
    (forall ws1 e, VecEvalTime (args b 0) input (warnings w) = (ws1, inl e) ->
       snd run = inl e /\ after = nextHandle w :: before) /\
    (forall ws1 buf1 ws2 e,
       VecEvalTime (args b 0) input (warnings w) = (ws1, inr buf1) ->
       VecEvalInt (args b 1) input ws1 = (ws2, inl e) ->
       snd run = inl e /\ after = Datatypes.S (nextHandle w) :: before) /\
    (forall ws1 buf1 ws2 buf2,
       VecEvalTime (args b 0) input (warnings w) = (ws1, inr buf1) ->
       VecEvalInt (args b 1) input ws1 = (ws2, inr buf2) ->
       after = before).
Proof.
  intros Week b input result w Hl run before after.
  split; [|split].
  - intros ws1 e He.
    assert (Hrun : run = (withWarnings ws1 (lent w), inl e)).
    { unfold run, builtinWeekWithModeSig_vecEvalInt. cbv zeta.
      rewrite (run_get _ _ _ _ (loanable2_fst _ Hl)). unfold bind at 1.
      now rewrite (VecEval_run (VecEvalTime (args b 0)) input (lent w) ws1 (inl e) He). }
    unfold after, before. rewrite Hrun. split; reflexivity.
  - intros ws1 buf1 ws2 e He1 He2.
    assert (Hrun : run = (put (nextHandle w)
                            (withWarnings ws2 (lent (withWarnings ws1 (lent w)))), inl e)).
    { unfold run, builtinWeekWithModeSig_vecEvalInt. cbv zeta.
      rewrite (run_get _ _ _ _ (loanable2_fst _ Hl)).
      rewrite (run_arg (VecEvalTime (args b 0)) input _ (lent w) ws1 buf1 He1).
      unfold defer at 1.
      rewrite (run_get _ _ _ _ (loanable2_snd _ ws1 Hl)).
      unfold bind at 1.
      now rewrite (VecEval_run (VecEvalInt (args b 1)) input
                     (lent (withWarnings ws1 (lent w))) ws2 (inl e) He2). }
    unfold after, before. rewrite Hrun. split; [reflexivity|].
    change (removeOne (nextHandle w)
              (Datatypes.S (nextHandle w) :: nextHandle w :: onLoan (events (bufAllocator w)))
            = Datatypes.S (nextHandle w) :: onLoan (events (bufAllocator w))).
    cbn [removeOne].
    replace (Nat.eqb (Datatypes.S (nextHandle w)) (nextHandle w)) with false
      by (symmetry; apply Nat.eqb_neq; lia).
    now rewrite Nat.eqb_refl.
  - intros ws1 buf1 ws2 buf2 He1 He2. unfold after, before, run.
    rewrite (week_mode_run Week b input result w ws1 buf1 ws2 buf2 Hl He1 He2).
    destruct (colEval _ _ _ _) as [ws' r].
    change (removeOne (nextHandle w)
              (removeOne (Datatypes.S (nextHandle w))
                 (Datatypes.S (nextHandle w) :: nextHandle w ::
                  onLoan (events (bufAllocator w))))
            = onLoan (events (bufAllocator w))).
    cbn [removeOne]. rewrite Nat.eqb_refl. cbn [removeOne]. now rewrite Nat.eqb_refl.
Qed.

Definition failingArg : ExpressionI :=
  {| VecEvalInt := noExpr; VecEvalReal := noExpr;
     VecEvalTime := noExpr; VecEvalString := noExpr |}.

Lemma week_mode_returns_buffers_only_after_evaluation_witness :
  let b := {| ctx := session false false; args := fun _ => failingArg |} in
  let run := builtinWeekWithModeSig_vecEvalInt mysqlWeek b oneRow emptyInts freshWorld in
  snd run = inl (ErrExternal 0) /\
  onLoan (events (bufAllocator (fst run))) = [0%nat] /\
  onLoan (events (bufAllocator (fst (builtinMonthSig_vecEvalInt b oneRow emptyInts freshWorld))))
    = [].
Proof.
  intros b run.
  destruct (week_mode_returns_buffers_only_after_evaluation mysqlWeek b oneRow emptyInts
              freshWorld ltac:(unfold loanable2; simpl; lia)) as [Hfail _].
  destruct (Hfail [] (ErrExternal 0) eq_refl) as [He Hloan].
  split; [exact He|]. split; [exact Hloan|reflexivity].
Defined.

(** * SEC_TO_TIME: the fields of the text *)

(** X13. Whenever the whole seconds of the magnitude are not negative (the
    conversion to [int64] did not overflow), the text SEC_TO_TIME hands to
    the duration parser has hours in [0, 838] and minutes in [0, 59], and
    its seconds are a whole number in [0, 59] plus the fraction of the
    input. Up to the ceiling the three fields add up to the whole seconds of
    the input; above it they are 838, 59 and 59. The sign is a minus exactly
    for an input below zero. *)
Theorem sec_to_time_fields_in_range :
  forall x : float,
    0 <= wholeSeconds x ->
    let text := secToTimeText x in
    0 <= hour text <= 838 /\
    0 <= minute text <= 59 /\
    negative text = (if PrimFloat.ltb x 0 then "-"%string else EmptyString) /\
    exists second,
      0 <= second <= 59 /\
      secondDemical text = PrimFloat.add (floatOfInt64 second) (fraction x) /\
      (hourComponent x <= 838 ->
       hour text * 3600 + minute text * 60 + second = wholeSeconds x) /\
      (838 < hourComponent x -> hour text = 838 /\ minute text = 59 /\ second = 59).
Proof.
  intros x Hs text. unfold text. rewrite secToTimeText_fields. cbv zeta.
  unfold hourComponent, goDiv, goMod.
  destruct (Z.ltb_spec 838 (Z.quot (wholeSeconds x) 3600)) as [Hh|Hh];
    cbn [hour minute negative secondDemical].
  - split; [lia|]. split; [lia|]. split; [reflexivity|].
    exists 59. split; [lia|]. split; [reflexivity|]. split; [lia|auto].
  - assert (H1 : 0 <= Z.quot (wholeSeconds x) 3600) by (apply Z.quot_pos; lia).
    assert (H2 : 0 <= Z.rem (wholeSeconds x) 3600 < 3600) by (apply Z.rem_bound_pos; lia).
    assert (H3 : 0 <= Z.rem (wholeSeconds x) 60 < 60) by (apply Z.rem_bound_pos; lia).
    split; [lia|].
    split; [Z.to_euclidean_division_equations; lia|].
    split; [reflexivity|].
    exists (Z.rem (wholeSeconds x) 60). split; [lia|]. split; [reflexivity|].
    split; [|lia]. intros _. Z.to_euclidean_division_equations; lia.
Qed.

Lemma sec_to_time_fields_in_range_witness :
  wholeSeconds (-3661.5) = 3661 /\
  0 <= hour (secToTimeText (-3661.5)) <= 838 /\
  0 <= minute (secToTimeText (-3661.5)) <= 59 /\
  negative (secToTimeText (-3661.5)) = "-"%string.
Proof.
  split; [reflexivity|].
  destruct (sec_to_time_fields_in_range (-3661.5) ltac:(vm_compute; discriminate))
    as [Hh [Hm [Hn _]]].
  split; [exact Hh|]. split; [exact Hm|exact Hn].
Defined.

(** * MICROSECOND *)

Lemma microsecond_run VecEvalDuration b input result w ws buf :
  loanable w ->
  VecEvalDuration (args b 0) input (warnings w) = (ws, inr buf) ->
  builtinMicroSecondSig_vecEvalInt VecEvalDuration b input result w =
  let start := prepared (NumRows input) result (nullBitmap buf) in
  let (ws', r) := colEval (ctx b)
                    (guarded start (fun i => Value (goDiv (goMod (GoDurations buf i) time_Second)
                                                      time_Microsecond)))
                    (NumRows input) start in
  (afterRows w ws ws', r).
Proof.
  intros Hl He. unfold builtinMicroSecondSig_vecEvalInt. run_one_loan Hl He.
  rewrite (guarded_rows 0 (ctx b)
             (fun i => Value (goDiv (goMod (GoDurations buf i) time_Second) time_Microsecond))).
  - unfold prepared, afterRows. destruct (colEval _ _ _ _); reflexivity.
  - split_body.
Qed.

(** X14. MICROSECOND never fails once its argument is evaluated. A non-null
    row holds the remainder of the duration within its second, in
    microseconds, truncated toward zero: a value in [0, 999999] for a
    duration that is not negative, [(d / 1000) mod 1000000] for [d]
    nanoseconds, and the negation of the value of the opposite duration for
    a negative one, so MICROSECOND of a negative duration is never
    positive. *)
Theorem microsecond_keeps_the_sign :
  forall (VecEvalDuration : ExpressionI -> Expression Z) (b : baseBuiltinFunc)
         (input : Chunk) (result : Column Z) (w : World) (ws : list error)
         (buf : Column Z) (i : nat),
    loanable w ->
    VecEvalDuration (args b 0) input (warnings w) = (ws, inr buf) ->
    (i < NumRows input)%nat ->
    IsNull buf i = false ->
    let d := GoDurations buf i in
    let micros (d : Z) := goDiv (goMod d time_Second) time_Microsecond in
    exists res,
      snd (builtinMicroSecondSig_vecEvalInt VecEvalDuration b input result w) = inr res /\
      IsNull res i = false /\
      Int64s res i = micros d /\
      micros (- d) = - micros d /\
      (0 <= d -> micros d = (d / 1000) mod 1000000 /\ 0 <= micros d <= 999999) /\
      (d <= 0 -> - 999999 <= micros d <= 0).
Proof.
  intros VecEvalDuration b input result w ws buf i Hl He Hi Hn d micros.
  destruct (int_evaluator_rows (ctx b) (NumRows input) result (nullBitmap buf)
              (fun i => Value (goDiv (goMod (GoDurations buf i) time_Second)
                                 time_Microsecond))
              (builtinMicroSecondSig_vecEvalInt VecEvalDuration b input result w))
    as [Hrows Htotal];
    [result_of (microsecond_run VecEvalDuration b input result w ws buf Hl He)|].
  destruct Htotal as [res E]; [reflexivity|].
  exists res. split; [exact E|].
  destruct (Hrows res E) as [_ Hcells].
  destruct (Hcells i Hi) as [_ [Hv _]].
  destruct (Hv _ Hn eq_refl) as [Hnull Hval].
  split; [exact Hnull|]. split; [exact Hval|].
  unfold micros, goDiv, goMod, time_Second, time_Microsecond.
  split; [|split].
  - rewrite Z.rem_opp_l by lia. now rewrite Z.quot_opp_l by lia.
  - intros Hd. rewrite Z.rem_mod_nonneg by lia.
    rewrite Z.quot_div_nonneg by (try apply Z.mod_pos_bound; lia).
    Z.to_euclidean_division_equations; lia.
  - intros Hd. Z.to_euclidean_division_equations; lia.
Qed.

(** Durations as an argument: -1.5 seconds and a null row. *)
Definition durationArg (c : Column Z) : ExpressionI -> Expression Z := fun _ => constExpr c.

Definition minusOneAndAHalf : Column Z := mkColumn [false; true] [-1500000000; 0].

Lemma microsecond_keeps_the_sign_witness :
  exists res,
    snd (builtinMicroSecondSig_vecEvalInt (durationArg minusOneAndAHalf)
           {| ctx := session false false; args := fun _ => failingArg |}
           twoRows emptyInts freshWorld) = inr res /\
    Int64s res 0 = -500000.
Proof.
  destruct (microsecond_keeps_the_sign (durationArg minusOneAndAHalf)
              {| ctx := session false false; args := fun _ => failingArg |}
              twoRows emptyInts freshWorld [] minusOneAndAHalf 0
              freshWorld_loanable eq_refl (Nat.lt_0_succ 1) eq_refl)
    as [res [E [_ [Hv _]]]].
  exists res. split; [exact E|]. rewrite Hv. reflexivity.
Defined.

(** * The loan discipline of the other evaluators *)

(** A computation keeps the loans when the buffers on loan after it are
    those on loan before it, on every path. *)
Definition loansKept {A} (m : M A) : Prop :=
  forall w, onLoan (events (bufAllocator (fst (m w)))) = onLoan (events (bufAllocator w)).

Lemma loansKept_stable {A} (m : M A) : poolStable m -> loansKept m.
Proof. intros H w. now rewrite H. Qed.

Lemma loansKept_bind {A B} (m : M A) (k : A -> M B) :
  loansKept m -> (forall a, loansKept (k a)) -> loansKept (bind m k).
Proof.
  intros Hm Hk w. unfold bind. specialize (Hm w).
  destruct (m w) as [w' [e|a]]; simpl in *; auto.
  rewrite Hk. auto.
Qed.

Lemma loansKept_scoped {A} et n (rest : nat -> M A) :
  (forall h, loansKept (rest h)) ->
  loansKept (h <- get et n ;; defer (put h) (rest h)).
Proof.
  intros Hs w. unfold bind.
  destruct (loanable_dec w) as [Hl|Hl].
  - rewrite (get_loanable _ _ _ Hl). unfold defer.
    specialize (Hs (nextHandle w) (lent w)).
    destruct (rest (nextHandle w) (lent w)) as [w2 r]; simpl in *.
    rewrite Hs. simpl. now rewrite Nat.eqb_refl.
  - now rewrite (get_exhausted _ _ _ Hl).
Qed.

Ltac loans_kept :=
  repeat first
    [ apply loansKept_scoped; intros
    | apply loansKept_stable; solve [pool_stable]
    | apply loansKept_bind; intros
    | match goal with |- loansKept (let x := _ in _) => cbv zeta end ].

(** X15. Every evaluator below registers the return of a scratch buffer
    right after obtaining it: whatever the arguments do (they may fail),
    whatever the rows hold, in strict sessions and in others, and when the
    pool is exhausted, the buffers on loan after the call are those on loan
    before it. *)
Theorem evaluators_return_their_buffers :
  forall (b : baseBuiltinFunc) (input : Chunk),
    (forall result, loansKept (builtinYearSig_vecEvalInt b input result)) /\
    (forall result, loansKept (builtinDayNameSig_vecEvalInt b input result)) /\
    (forall names result, loansKept (builtinDayNameSig_vecEvalString names b input result)) /\
    (forall result, loansKept (builtinWeekDaySig_vecEvalInt b input result)) /\
    (forall result, loansKept (builtinPeriodDiffSig_vecEvalInt b input result)) /\
    (forall result, loansKept (builtinPeriodAddSig_vecEvalInt b input result)) /\
    (forall result, loansKept (builtinMakeDateSig_vecEvalTime b input result)) /\
    (forall GoTimeT GoTime Add AddDate FromGoTime resolveType Check TimeString result,
       loansKept (builtinTimestampAddSig_vecEvalString GoTimeT GoTime Add AddDate FromGoTime
               resolveType Check TimeString b input result)) /\
    (forall ParseDuration tpDecimal result,
       loansKept (builtinSecToTimeSig_vecEvalDuration ParseDuration b tpDecimal input result)) /\
    (forall result, loansKept (builtinQuarterSig_vecEvalInt b input result)) /\
    (forall result, loansKept (builtinDayOfWeekSig_vecEvalInt b input result)) /\
    (forall result, loansKept (builtinDayOfMonthSig_vecEvalInt b input result)) /\
    (forall names result, loansKept (builtinMonthNameSig_vecEvalString names b input result)) /\
    (forall f1 f2 f3 f4 l1 l2 l3 l4 l5 result,
       loansKept (builtinGetFormatSig_vecEvalString f1 f2 f3 f4 l1 l2 l3 l4 l5 b input result)) /\
    (forall VecEvalDuration result,
       loansKept (builtinMicroSecondSig_vecEvalInt VecEvalDuration b input result)).
Proof.
  intros b input.
  repeat split; intros;
    unfold builtinYearSig_vecEvalInt, builtinDayNameSig_vecEvalInt,
      builtinDayNameSig_vecEvalString, builtinDayNameSig_vecEvalIndex,
      builtinWeekDaySig_vecEvalInt, builtinPeriodDiffSig_vecEvalInt,
      builtinPeriodAddSig_vecEvalInt, builtinMakeDateSig_vecEvalTime,
      builtinTimestampAddSig_vecEvalString, builtinSecToTimeSig_vecEvalDuration,
      builtinQuarterSig_vecEvalInt, builtinDayOfWeekSig_vecEvalInt,
      builtinDayOfMonthSig_vecEvalInt, builtinMonthNameSig_vecEvalString,
      builtinGetFormatSig_vecEvalString, builtinMicroSecondSig_vecEvalInt;
    loans_kept.
Qed.

(** * DATEDIFF *)

(** The errors DATEDIFF hands to the invalid-time policy at a row, in the
    order of the calls. *)
Definition dateDiffErrors (buf0 buf1 : Column Time) (i : nat) : list error :=
  (if InvalidZero (Times buf0 i) then [wrongDate (Times buf0 i)] else []) ++
  (if InvalidZero (Times buf1 i) then [wrongDate (Times buf1 i)] else []).

(** The row as a strict session sees it: the error that is returned is the
    one of the last call. *)
Definition dateDiffRow (DateDiff : MysqlTime -> MysqlTime -> Z) (buf0 buf1 : Column Time)
    (i : nat) : RowOutcome Z :=
  if InvalidZero (Times buf0 i) || InvalidZero (Times buf1 i) then
    Invalid (if InvalidZero (Times buf1 i) then wrongDate (Times buf1 i)
             else wrongDate (Times buf0 i))
  else Value (DateDiff (CoreTime (Times buf0 i)) (CoreTime (Times buf1 i))).

Definition dateDiffStart (n : nat) (result : Column Z) (buf0 buf1 : Column Time) : Column Z :=
  MergeNulls (ResizeInt64 n result) [nullBitmap buf0; nullBitmap buf1].

Definition dateDiffBody (DateDiff : MysqlTime -> MysqlTime -> Z) (c : SessionVars)
    (buf0 buf1 : Column Time) (i : nat) (result : Column Z) : M (Column Z) :=
  if IsNull result i then ret result
  else
    if InvalidZero (Times buf0 i) || InvalidZero (Times buf1 i) then
      err <- (if InvalidZero (Times buf0 i)
              then errorOf (handleInvalidTimeError c (wrongDate (Times buf0 i)))
              else ret None) ;;
      err <- (if InvalidZero (Times buf1 i)
              then errorOf (handleInvalidTimeError c (wrongDate (Times buf1 i)))
              else ret err) ;;
      match err with
      | Some e => fail e
      | None => ret (SetNull i true result)
      end
    else ret (setElem i (DateDiff (CoreTime (Times buf0 i)) (CoreTime (Times buf1 i))) result).

Lemma datediff_run DateDiff b input result w ws0 buf0 ws1 buf1 :
  loanable2 w ->
  VecEvalTime (args b 0) input (warnings w) = (ws0, inr buf0) ->
  VecEvalTime (args b 1) input ws0 = (ws1, inr buf1) ->
  builtinDateDiffSig_vecEvalInt DateDiff b input result w =
  let (w', r) := forRows (dateDiffBody DateDiff (ctx b) buf0 buf1) 0 (NumRows input)
                   (dateDiffStart (NumRows input) result buf0 buf1)
                   (withWarnings ws1 (lent (withWarnings ws0 (lent w)))) in
  (put (nextHandle w) (put (nextHandle (withWarnings ws0 (lent w))) w'), r).
Proof.
  intros Hl He0 He1. unfold builtinDateDiffSig_vecEvalInt. cbv zeta.
  rewrite (run_loan _ _ _ _ (loanable2_fst _ Hl)). cbv beta.
  rewrite (run_arg (VecEvalTime (args b 0)) input _ (lent w) ws0 buf0 He0).
  rewrite (run_loan _ _ _ _ (loanable2_snd _ ws0 Hl)). cbv beta.
  rewrite (run_arg (VecEvalTime (args b 1)) input _ (lent (withWarnings ws0 (lent w)))
             ws1 buf1 He1).
  unfold dateDiffStart. fold (dateDiffBody DateDiff (ctx b) buf0 buf1).
  destruct (forRows _ _ _ _ _) as [w' r]. reflexivity.
Qed.

(** In a strict session the policy returns the error it is given and the sink
    is left alone: a row with an invalid argument returns the error of the
    last call. *)
Lemma dateDiffBody_strict DateDiff c buf0 buf1 i r w0 :
  StrictSQLMode c = true ->
  dateDiffBody DateDiff c buf0 buf1 i r w0 =
  rowAct c setElem setRowNull
    (if IsNull r i then Keep else dateDiffRow DateDiff buf0 buf1 i) i r w0.
Proof.
  intros Hs. unfold dateDiffBody, dateDiffRow, rowAct, handleInvalidTimeError, errorOf,
    bind, fail, ret. rewrite Hs.
  destruct (IsNull r i); [reflexivity|].
  destruct (InvalidZero (Times buf0 i)), (InvalidZero (Times buf1 i)); reflexivity.
Qed.

(** In a session that is not strict every call of the policy appends its
    error to the sink and the row is set null. *)
Lemma dateDiffBody_lenient DateDiff c buf0 buf1 i r w0 :
  StrictSQLMode c = false ->
  dateDiffBody DateDiff c buf0 buf1 i r w0 =
  (addWarnings (if IsNull r i then [] else dateDiffErrors buf0 buf1 i) w0,
   inr (actState setElem setRowNull
          (if IsNull r i then Keep else dateDiffRow DateDiff buf0 buf1 i) i r)).
Proof.
  intros Hs. unfold dateDiffBody, dateDiffRow, dateDiffErrors, handleInvalidTimeError,
    errorOf, bind, fail, ret, AppendWarning. rewrite Hs.
  destruct (IsNull r i); [now rewrite addWarnings_nil|].
  destruct (InvalidZero (Times buf0 i)), (InvalidZero (Times buf1 i)); simpl;
    unfold addWarnings; simpl; rewrite <- ?app_assoc, ?app_nil_r; try reflexivity.
  destruct w0; reflexivity.
Qed.

Lemma addWarnings_app es es' w : addWarnings es' (addWarnings es w) = addWarnings (es ++ es') w.
Proof. unfold addWarnings; simpl. now rewrite app_assoc. Qed.

Lemma datediff_lenient_rows DateDiff c buf0 buf1 (nulls : nat -> bool) lo k st w :
  StrictSQLMode c = false ->
  (forall j, (lo <= j)%nat -> IsNull st j = nulls j) ->
  forRows (dateDiffBody DateDiff c buf0 buf1) lo k st w =
  (addWarnings
     (flat_map (fun j => if nulls j then [] else dateDiffErrors buf0 buf1 j) (seq lo k)) w,
   inr (applyRows setElem setRowNull
          (fun j => if nulls j then Keep else dateDiffRow DateDiff buf0 buf1 j) lo k st)).
Proof.
  intros Hs. revert lo st w; induction k as [|k IH]; intros lo st w Hn; simpl.
  - now rewrite addWarnings_nil.
  - unfold bind. rewrite (dateDiffBody_lenient _ _ _ _ _ _ _ Hs).
    rewrite (Hn lo (le_n lo)). rewrite IH.
    + now rewrite addWarnings_app.
    + intros j Hj. rewrite actState_other_null by lia. apply Hn. lia.
Qed.

Lemma dateDiffStart_rows n result buf0 buf1 : rows (dateDiffStart n result buf0 buf1) = n.
Proof. unfold dateDiffStart, ResizeInt64. now rewrite rows_MergeNulls2, rows_Resize. Qed.

Lemma dateDiffStart_elems n result buf0 buf1 :
  List.length (elems (dateDiffStart n result buf0 buf1)) = n.
Proof. unfold dateDiffStart, ResizeInt64, MergeNulls; simpl. apply (elems_Resize 0). Qed.

Lemma dateDiffStart_IsNull n result buf0 buf1 i :
  (i < n)%nat ->
  IsNull (dateDiffStart n result buf0 buf1) i = IsNull buf0 i || IsNull buf1 i.
Proof.
  intros Hi. unfold dateDiffStart, ResizeInt64.
  rewrite IsNull_MergeNulls2 by (now rewrite rows_Resize).
  now rewrite IsNull_Resize.
Qed.

(** The rows of DATEDIFF in both kinds of session. *)
Lemma datediff_rows DateDiff c buf0 buf1 n start w :
  forRows (dateDiffBody DateDiff c buf0 buf1) 0 n start w =
  if StrictSQLMode c then
    let (ws, r) := colEval c (guarded start (dateDiffRow DateDiff buf0 buf1)) n start in
    (addWarnings ws w, r)
  else
    (addWarnings
       (flat_map (fun j => if IsNull start j then [] else dateDiffErrors buf0 buf1 j)
          (seq 0 n)) w,
     inr (colFinal (guarded start (dateDiffRow DateDiff buf0 buf1)) n start)).
Proof.
  destruct (StrictSQLMode c) eqn:Hs.
  - apply (guarded_rows 0 c (dateDiffRow DateDiff buf0 buf1)).
    intros i r w0. now apply dateDiffBody_strict.
  - apply (datediff_lenient_rows DateDiff c buf0 buf1 (IsNull start)); auto.
Qed.

Lemma flat_map_seq_split {A} (f : nat -> list A) n i :
  (i < n)%nat ->
  flat_map f (seq 0 n) =
  flat_map f (seq 0 i) ++ f i ++ flat_map f (seq (Datatypes.S i) (n - Datatypes.S i)).
Proof.
  intros Hi. replace n with (i + Datatypes.S (n - Datatypes.S i))%nat at 1 by lia.
  rewrite seq_app, flat_map_app. simpl. reflexivity.
Qed.

(** X16. DATEDIFF calls the invalid-time policy once for each argument of a
    row that is an invalid zero, the first argument first, and looks at the
    outcome only after both calls. On a row without NULL: when neither
    argument is an invalid zero the row holds [DateDiff] of the two dates;
    otherwise a call that returns has set the row null. A session that is
    not strict always returns, and the warnings of the row are appended
    next to each other in the order of the arguments. In a strict session
    the call fails; when both arguments are invalid zeros and no earlier row
    has an invalid argument, the error returned is that of the second
    argument, and nothing is appended to the sink. *)
Theorem datediff_invalid_arguments :
  forall (DateDiff : MysqlTime -> MysqlTime -> Z) (b : baseBuiltinFunc) (input : Chunk)
         (result : Column Z) (w : World) (ws0 ws1 : list error)
         (buf0 buf1 : Column Time) (i : nat),
    loanable2 w ->
    VecEvalTime (args b 0) input (warnings w) = (ws0, inr buf0) ->
    VecEvalTime (args b 1) input ws0 = (ws1, inr buf1) ->
    (i < NumRows input)%nat ->
    IsNull buf0 i = false ->
    IsNull buf1 i = false ->
    let run := builtinDateDiffSig_vecEvalInt DateDiff b input result w in
    let invalid0 := InvalidZero (Times buf0 i) in
    let invalid1 := InvalidZero (Times buf1 i) in
    (forall res, snd run = inr res ->
       IsNull res i = invalid0 || invalid1 /\
       (invalid0 || invalid1 = false ->
        Int64s res i = DateDiff (CoreTime (Times buf0 i)) (CoreTime (Times buf1 i)))) /\
    (StrictSQLMode (ctx b) = false ->
     exists res pre post,
       snd run = inr res /\
       warnings (fst run) = ws1 ++ pre ++ dateDiffErrors buf0 buf1 i ++ post) /\
    (StrictSQLMode (ctx b) = true -> invalid0 || invalid1 = true ->
     exists e, snd run = inl e) /\
    (StrictSQLMode (ctx b) = true -> invalid0 = true -> invalid1 = true ->
     (forall j, (j < i)%nat -> IsNull buf0 j = false -> IsNull buf1 j = false ->
        InvalidZero (Times buf0 j) = false /\ InvalidZero (Times buf1 j) = false) ->
     snd run = inl (wrongDate (Times buf1 i)) /\ warnings (fst run) = ws1).
Proof.
  intros DateDiff b input result w ws0 ws1 buf0 buf1 i Hl He0 He1 Hi Hn0 Hn1
         run invalid0 invalid1.
  assert (Hrun := datediff_run DateDiff b input result w ws0 buf0 ws1 buf1 Hl He0 He1).
  fold run in Hrun. rewrite datediff_rows in Hrun.
  set (n := NumRows input) in *.
  set (start := dateDiffStart n result buf0 buf1) in *.
  set (f := dateDiffRow DateDiff buf0 buf1) in *.
  assert (Hr : rows start = n) by apply dateDiffStart_rows.
  assert (Hlen : List.length (elems start) = n) by apply dateDiffStart_elems.
  assert (Hlive : IsNull start i = false)
    by (unfold start; rewrite dateDiffStart_IsNull, Hn0, Hn1; auto).
  assert (Hg : guarded start f i = f i) by (apply guarded_live; auto).
  assert (Hcell : forall res, res = colFinal (guarded start f) n start ->
            IsNull res i = invalid0 || invalid1 /\
            (invalid0 || invalid1 = false ->
             Int64s res i = DateDiff (CoreTime (Times buf0 i)) (CoreTime (Times buf1 i)))).
  { intros res ->. unfold Int64s.
    rewrite colFinal_null, (colFinal_elem 0), Hg, Hlive by auto.
    unfold f, dateDiffRow. fold invalid0 invalid1.
    destruct (invalid0 || invalid1); split; auto. discriminate. }
  split; [|split; [|split]].
  - intros res Hres. apply Hcell. rewrite Hrun in Hres.
    destruct (StrictSQLMode (ctx b)).
    + destruct (colEval _ _ _ _) as [ws' r] eqn:E. simpl in Hres. rewrite Hres in E.
      apply colEval_ok in E. now destruct E as [-> _].
    + simpl in Hres. now inversion Hres.
  - intros Hs. rewrite Hrun, Hs.
    rewrite (flat_map_seq_split _ n i Hi). rewrite Hlive.
    eexists. eexists. eexists. split; [reflexivity|].
    cbn [fst]. simpl. unfold addWarnings. simpl. reflexivity.
  - intros Hs Hinv. rewrite Hrun, Hs.
    destruct (colEval_stopped (ctx b) (guarded start f) n start i
                (if invalid1 then wrongDate (Times buf1 i) else wrongDate (Times buf0 i)) Hi)
      as [ws' [e' E]].
    + rewrite Hg. unfold f, dateDiffRow. fold invalid0 invalid1. rewrite Hinv. simpl.
      now rewrite Hs.
    + rewrite E. simpl. eauto.
  - intros Hs H0 H1 Hclean. rewrite Hrun, Hs.
    destruct (colEval (ctx b) (guarded start f) n start) as [ws' [e|res]] eqn:E.
    + assert (Hsil := evalRows_strict_silent setElem setRowNull (guarded start f) 0 n start).
      unfold colEval in E. rewrite Hs in E. rewrite E in Hsil. simpl in Hsil. subst ws'.
      apply evalRows_err in E. destruct E as [j [Hj [Hstop Hbefore]]].
      assert (Hji : j = i).
      { destruct (Nat.lt_trichotomy j i) as [Hlt|[Heq|Hgt]]; auto.
        - exfalso. apply guarded_stops in Hstop. destruct Hstop as [Hlj Hstop].
          unfold start in Hlj. rewrite dateDiffStart_IsNull in Hlj by lia.
          apply orb_false_elim in Hlj. destruct Hlj as [Hl0 Hl1].
          destruct (Hclean j Hlt Hl0 Hl1) as [Hc0 Hc1].
          unfold f, dateDiffRow in Hstop. rewrite Hc0, Hc1 in Hstop. discriminate.
        - exfalso. assert (Hnone := Hbefore i ltac:(lia)).
          rewrite Hg in Hnone. unfold f, dateDiffRow in Hnone.
          fold invalid0 invalid1 in Hnone. rewrite H0, H1 in Hnone. discriminate. }
      subst j. rewrite Hg in Hstop. unfold f, dateDiffRow in Hstop.
      fold invalid0 invalid1 in Hstop. rewrite H0, H1 in Hstop. simpl in Hstop.
      inversion Hstop. split; [reflexivity|].
      cbn [fst]. simpl. now rewrite app_nil_r.
    + exfalso. apply colEval_ok in E. destruct E as [_ [_ Hnone]].
      specialize (Hnone i Hi). rewrite Hg in Hnone. unfold f, dateDiffRow in Hnone.
      fold invalid0 invalid1 in Hnone. rewrite H0, H1, Hs in Hnone. discriminate.
Qed.

(** * TO_DAYS and TO_SECONDS *)

Definition sinceZeroRow (TimestampDiff : string -> Time -> Time -> Z) (unit : string)
    (ds : nat -> Time) (i : nat) : RowOutcome Z :=
  if TimestampDiff unit ZeroDate (ds i) =? 0 then Invalid (wrongDate (ds i))
  else Value (TimestampDiff unit ZeroDate (ds i)).

Lemma todays_run TimestampDiff b input result w ws buf :
  loanable w ->
  VecEvalTime (args b 0) input (warnings w) = (ws, inr buf) ->
  builtinToDaysSig_vecEvalInt TimestampDiff b input result w =
  let start := prepared (NumRows input) result (nullBitmap buf) in
  let (ws', r) := colEval (ctx b) (guarded start (sinceZeroRow TimestampDiff "DAY" (Times buf)))
                    (NumRows input) start in
  (afterRows w ws ws', r).
Proof.
  intros Hl He. unfold builtinToDaysSig_vecEvalInt. run_one_loan Hl He.
  rewrite (guarded_rows 0 (ctx b) (sinceZeroRow TimestampDiff "DAY" (Times buf))).
  - unfold prepared, afterRows. destruct (colEval _ _ _ _); reflexivity.
  - unfold sinceZeroRow, wrongDate. split_body.
Qed.

Lemma toseconds_run TimestampDiff b input result w ws buf :
  loanable w ->
  VecEvalTime (args b 0) input (warnings w) = (ws, inr buf) ->
  builtinToSecondsSig_vecEvalInt TimestampDiff b input result w =
  let start := prepared (NumRows input) result (nullBitmap buf) in
  let (ws', r) := colEval (ctx b)
                    (guarded start (sinceZeroRow TimestampDiff "SECOND" (Times buf)))
                    (NumRows input) start in
  (afterRows w ws ws', r).
Proof.
  intros Hl He. unfold builtinToSecondsSig_vecEvalInt. run_one_loan Hl He.
  rewrite (guarded_rows 0 (ctx b) (sinceZeroRow TimestampDiff "SECOND" (Times buf))).
  - unfold prepared, afterRows. destruct (colEval _ _ _ _); reflexivity.
  - unfold sinceZeroRow, wrongDate. split_body.
Qed.

(** X17. TO_DAYS and TO_SECONDS never return 0. A non-null row holds the
    days, or the seconds, from the zero date to the argument as
    [TimestampDiff] counts them, and that count is not 0: a row whose count
    is 0 is handed to the invalid-time policy and set null, so that in a
    strict session it fails the call. This holds whatever [TimestampDiff]
    computes. *)
Theorem to_days_is_never_zero :
  forall (TimestampDiff : string -> Time -> Time -> Z) (b : baseBuiltinFunc)
         (input : Chunk) (result : Column Z) (w : World) (ws : list error)
         (buf : Column Time) (i : nat),
    loanable w ->
    VecEvalTime (args b 0) input (warnings w) = (ws, inr buf) ->
    (i < NumRows input)%nat ->
    IsNull buf i = false ->
    let days := TimestampDiff "DAY"%string ZeroDate (Times buf i) in
    let seconds := TimestampDiff "SECOND"%string ZeroDate (Times buf i) in
    let run1 := builtinToDaysSig_vecEvalInt TimestampDiff b input result w in
    let run2 := builtinToSecondsSig_vecEvalInt TimestampDiff b input result w in
    (forall res, snd run1 = inr res ->
       (IsNull res i = true <-> days = 0) /\
       (IsNull res i = false -> Int64s res i = days /\ Int64s res i <> 0)) /\
    (forall res, snd run2 = inr res ->
       (IsNull res i = true <-> seconds = 0) /\
       (IsNull res i = false -> Int64s res i = seconds /\ Int64s res i <> 0)) /\
    (StrictSQLMode (ctx b) = true ->
     (days = 0 -> exists e, snd run1 = inl e) /\
     (seconds = 0 -> exists e, snd run2 = inl e)) /\
    (StrictSQLMode (ctx b) = false ->
     (exists res, snd run1 = inr res) /\ (exists res, snd run2 = inr res)).
Proof.
  intros TimestampDiff b input result w ws buf i Hl He Hi Hn days seconds run1 run2.
  assert (Hrun1 := todays_run TimestampDiff b input result w ws buf Hl He).
  assert (Hrun2 := toseconds_run TimestampDiff b input result w ws buf Hl He).
  fold run1 in Hrun1. fold run2 in Hrun2.
  destruct (int_evaluator_rows (ctx b) (NumRows input) result (nullBitmap buf)
              (sinceZeroRow TimestampDiff "DAY" (Times buf)) run1)
    as [Hrows1 Htotal1]; [result_of Hrun1|].
  destruct (int_evaluator_rows (ctx b) (NumRows input) result (nullBitmap buf)
              (sinceZeroRow TimestampDiff "SECOND" (Times buf)) run2)
    as [Hrows2 Htotal2]; [result_of Hrun2|].
  assert (Hcell : forall unit res,
            (forall i, (i < NumRows input)%nat ->
               (nth i (nullBitmap buf) false = true -> IsNull res i = true) /\
               (forall v, nth i (nullBitmap buf) false = false ->
                  sinceZeroRow TimestampDiff unit (Times buf) i = Value v ->
                  IsNull res i = false /\ Int64s res i = v) /\
               (forall e, nth i (nullBitmap buf) false = false ->
                  sinceZeroRow TimestampDiff unit (Times buf) i = Invalid e ->
                  IsNull res i = true)) ->
            (IsNull res i = true <-> TimestampDiff unit ZeroDate (Times buf i) = 0) /\
            (IsNull res i = false ->
             Int64s res i = TimestampDiff unit ZeroDate (Times buf i) /\ Int64s res i <> 0)).
  { intros unit res Hcells. destruct (Hcells i Hi) as [_ [Hv Hinv]].
    unfold sinceZeroRow in Hv, Hinv.
    destruct (Z.eqb_spec (TimestampDiff unit ZeroDate (Times buf i)) 0) as [E|E].
    - rewrite (Hinv _ Hn eq_refl). split; [tauto|discriminate].
    - destruct (Hv _ Hn eq_refl) as [H1 H2]. rewrite H1, H2.
      split; [split; [discriminate|contradiction]|auto]. }
  split; [|split; [|split]].
  - intros res Hres. apply Hcell. apply (Hrows1 res Hres).
  - intros res Hres. apply Hcell. apply (Hrows2 res Hres).
  - intros Hs. split; intros Hz.
    + rewrite Hrun1. cbv zeta.
      destruct (colEval_stopped (ctx b)
                  (guarded (prepared (NumRows input) result (nullBitmap buf))
                     (sinceZeroRow TimestampDiff "DAY" (Times buf)))
                  (NumRows input) (prepared (NumRows input) result (nullBitmap buf)) i
                  (wrongDate (Times buf i)) Hi) as [ws' [e' E]].
      * rewrite guarded_live by (rewrite prepared_IsNull; auto).
        unfold sinceZeroRow. fold days. rewrite Hz, Hs. reflexivity.
      * rewrite E. simpl. eauto.
    + rewrite Hrun2. cbv zeta.
      destruct (colEval_stopped (ctx b)
                  (guarded (prepared (NumRows input) result (nullBitmap buf))
                     (sinceZeroRow TimestampDiff "SECOND" (Times buf)))
                  (NumRows input) (prepared (NumRows input) result (nullBitmap buf)) i
                  (wrongDate (Times buf i)) Hi) as [ws' [e' E]].
      * rewrite guarded_live by (rewrite prepared_IsNull; auto).
        unfold sinceZeroRow. fold seconds. rewrite Hz, Hs. reflexivity.
      * rewrite E. simpl. eauto.
  - intros Hs. split.
    + apply Htotal1. intros j Hj _. unfold sinceZeroRow. rewrite Hs.
      destruct (_ =? 0); reflexivity.
    + apply Htotal2. intros j Hj _. unfold sinceZeroRow. rewrite Hs.
      destruct (_ =? 0); reflexivity.
Qed.

(** An instance of [TimestampDiff] for the examples: whole days by the day
    number, whole seconds from them and the time of day. *)
Definition daynrDiff (unit : string) (t1 t2 : Time) : Z :=
  let seconds (t : MysqlTime) :=
    calcDaynr (Year t) (Month t) (Day t) * 86400 + Hour t * 3600 + Minute t * 60 + Second t in
  if String.eqb unit "DAY" then TimestampDiff_DAY t1 t2
  else seconds (CoreTime t2) - seconds (CoreTime t1).

Lemma to_days_is_never_zero_witness :
  exists res,
    snd (builtinToDaysSig_vecEvalInt daynrDiff (onTime (session false false) zeroDateBatch)
           oneRow emptyInts freshWorld) = inr res /\
    IsNull res 0 = true.
Proof.
  destruct (to_days_is_never_zero daynrDiff (onTime (session false false) zeroDateBatch)
              oneRow emptyInts freshWorld [] zeroDateBatch 0
              freshWorld_loanable eq_refl (le_n 1) eq_refl) as [Hres [_ [_ Htotal]]].
  destruct (Htotal eq_refl) as [[res E] _].
  exists res. split; [exact E|].
  destruct (Hres res E) as [Hiff _]. apply Hiff. reflexivity.
Defined.

(** Two invalid zeros in one row: 2024-00-10 and 2023-05-00. *)
Definition monthless : Column Time := mkColumn [false] [dateOf 2024 0 10].
Definition dayless : Column Time := mkColumn [false] [dateOf 2023 5 0].

Definition onTimes (c : SessionVars) (t0 t1 : Column Time) : baseBuiltinFunc :=
  {| ctx := c; args := fun k => match k with O => timeArg t0 | _ => timeArg t1 end |}.

Definition daynrDateDiff (t1 t2 : MysqlTime) : Z :=
  calcDaynr (Year t1) (Month t1) (Day t1) - calcDaynr (Year t2) (Month t2) (Day t2).

Lemma datediff_invalid_arguments_witness :
  snd (builtinDateDiffSig_vecEvalInt daynrDateDiff (onTimes (session false true) monthless dayless)
         oneRow emptyInts freshWorld) = inl (wrongDate (dateOf 2023 5 0)) /\
  exists res pre post,
    snd (builtinDateDiffSig_vecEvalInt daynrDateDiff
           (onTimes (session false false) monthless dayless)
           oneRow emptyInts freshWorld) = inr res /\
    warnings (fst (builtinDateDiffSig_vecEvalInt daynrDateDiff
                     (onTimes (session false false) monthless dayless)
                     oneRow emptyInts freshWorld)) =
      [] ++ pre ++ [wrongDate (dateOf 2024 0 10); wrongDate (dateOf 2023 5 0)] ++ post.
Proof.
  split.
  - destruct (datediff_invalid_arguments daynrDateDiff
                (onTimes (session false true) monthless dayless)
                oneRow emptyInts freshWorld [] [] monthless dayless 0
                ltac:(unfold loanable2; simpl; lia) eq_refl eq_refl (le_n 1) eq_refl eq_refl)
      as [_ [_ [_ Hstrict]]].
    apply Hstrict; try reflexivity. intros j Hj. lia.
  - destruct (datediff_invalid_arguments daynrDateDiff
                (onTimes (session false false) monthless dayless)
                oneRow emptyInts freshWorld [] [] monthless dayless 0
                ltac:(unfold loanable2; simpl; lia) eq_refl eq_refl (le_n 1) eq_refl eq_refl)
      as [_ [Hlenient _]].
    apply Hlenient. reflexivity.
Defined.

(** * PERIOD_DIFF with its arguments exchanged *)

Lemma period2Month_bounds p :
  validPeriod p = true -> 1200 <= period2Month (toUint64 p) < 120000.
Proof.
  intros H. destruct (validPeriod_shape p H) as [Hp Hm].
  rewrite toUint64_small by lia.
  destruct (period2Month_valid p H) as [y [-> Hy]]. lia.
Qed.

Lemma period_diff_row b input result w ws0 col0 ws1 buf i res :
  loanable w ->
  VecEvalInt (args b 0) input (warnings w) = (ws0, inr col0) ->
  VecEvalInt (args b 1) input ws0 = (ws1, inr buf) ->
  rows col0 = NumRows input -> List.length (elems col0) = NumRows input ->
  (i < NumRows input)%nat ->
  IsNull col0 i = false -> IsNull buf i = false ->
  validPeriod (Int64s col0 i) = true -> validPeriod (Int64s buf i) = true ->
  snd (builtinPeriodDiffSig_vecEvalInt b input result w) = inr res ->
  IsNull res i = false /\
  Int64s res i = period2Month (toUint64 (Int64s col0 i)) - period2Month (toUint64 (Int64s buf i)).
Proof.
  intros Hl He0 He1 Hr Hlen Hi Hn0 Hn1 Hv0 Hv1 Hres.
  rewrite (period_diff_run b input result w ws0 col0 ws1 buf Hl He0 He1) in Hres.
  cbv zeta in Hres.
  destruct (colEval _ _ _ _) as [ws' r] eqn:E. simpl in Hres. rewrite Hres in E.
  apply colEval_ok in E. destruct E as [-> _].
  set (start := MergeNulls col0 [nullBitmap buf]).
  assert (Hlive : IsNull start i = false).
  { unfold start. rewrite (merged_IsNull col0 _ (NumRows input)) by auto.
    rewrite Hn0. exact Hn1. }
  assert (Hb0 := period2Month_bounds _ Hv0). assert (Hb1 := period2Month_bounds _ Hv1).
  destruct (colFinal_value (periodDiffRow start (Int64s buf)) (NumRows input) start i
              (period2Month (toUint64 (Int64s col0 i)) -
               period2Month (toUint64 (Int64s buf i)))) as [H1 H2]; auto.
  - unfold start. now rewrite rows_MergeNulls1.
  - unfold periodDiffRow. rewrite Hlive. unfold start at 1 2. rewrite merged_Int64s.
    rewrite Hv0, Hv1. simpl. f_equal. apply wrap64_small. lia.
  - split; [now rewrite H1|exact H2].
Qed.

(** X18. PERIOD_DIFF changes sign when its arguments are exchanged: on a row
    without NULL whose two periods are valid, PERIOD_DIFF(P1, P2) is the
    opposite of PERIOD_DIFF(P2, P1), it is 0 when the two periods are the
    same number, and it lies strictly between -120000 and 120000 months. *)
Theorem period_diff_is_antisymmetric :
  forall (b b' : baseBuiltinFunc) (input : Chunk) (result result' : Column Z)
         (w w' : World) (ws0 ws1 ws0' ws1' : list error) (p1 p2 res res' : Column Z)
         (i : nat),
    loanable w -> loanable w' ->
    VecEvalInt (args b 0) input (warnings w) = (ws0, inr p1) ->
    VecEvalInt (args b 1) input ws0 = (ws1, inr p2) ->
    VecEvalInt (args b' 0) input (warnings w') = (ws0', inr p2) ->
    VecEvalInt (args b' 1) input ws0' = (ws1', inr p1) ->
    wellFormed p1 -> rows p1 = NumRows input ->
    wellFormed p2 -> rows p2 = NumRows input ->
    (i < NumRows input)%nat ->
    IsNull p1 i = false -> IsNull p2 i = false ->
    validPeriod (Int64s p1 i) = true -> validPeriod (Int64s p2 i) = true ->
    snd (builtinPeriodDiffSig_vecEvalInt b input result w) = inr res ->
    snd (builtinPeriodDiffSig_vecEvalInt b' input result' w') = inr res' ->
    IsNull res i = false /\ IsNull res' i = false /\
    Int64s res i = - Int64s res' i /\
    - 120000 < Int64s res i < 120000 /\
    (Int64s p1 i = Int64s p2 i -> Int64s res i = 0).
Proof.
  intros b b' input result result' w w' ws0 ws1 ws0' ws1' p1 p2 res res' i
         Hl Hl' He0 He1 He0' He1' Hwf1 Hr1 Hwf2 Hr2 Hi Hn1 Hn2 Hv1 Hv2 Hres Hres'.
  unfold wellFormed in Hwf1, Hwf2. rewrite Hr1 in Hwf1. rewrite Hr2 in Hwf2.
  destruct (period_diff_row b input result w ws0 p1 ws1 p2 i res
              Hl He0 He1 Hr1 Hwf1 Hi Hn1 Hn2 Hv1 Hv2 Hres) as [Hnull Hval].
  destruct (period_diff_row b' input result' w' ws0' p2 ws1' p1 i res'
              Hl' He0' He1' Hr2 Hwf2 Hi Hn2 Hn1 Hv2 Hv1 Hres') as [Hnull' Hval'].
  assert (Hb1 := period2Month_bounds _ Hv1). assert (Hb2 := period2Month_bounds _ Hv2).
  repeat split; auto; try lia.
  intros Heq. rewrite Hval, Heq. lia.
Qed.

Definition january2024 : Column Z := onePeriod 202401.
Definition march2023 : Column Z := onePeriod 202303.

Lemma period_diff_is_antisymmetric_witness :
  snd (builtinPeriodDiffSig_vecEvalInt (onInts (session false false) january2024 march2023)
         oneRow emptyInts freshWorld) = inr (onePeriod 10) /\
  snd (builtinPeriodDiffSig_vecEvalInt (onInts (session false false) march2023 january2024)
         oneRow emptyInts freshWorld) = inr (onePeriod (-10)) /\
  Int64s (onePeriod 10) 0 = - Int64s (onePeriod (-10)) 0.
Proof.
  split; [reflexivity|]. split; [reflexivity|].
  apply (period_diff_is_antisymmetric
           (onInts (session false false) january2024 march2023)
           (onInts (session false false) march2023 january2024)
           oneRow emptyInts emptyInts freshWorld freshWorld [] [] [] []
           january2024 march2023 (onePeriod 10) (onePeriod (-10)) 0
           freshWorld_loanable freshWorld_loanable eq_refl eq_refl eq_refl eq_refl
           eq_refl eq_refl eq_refl eq_refl (le_n 1) eq_refl eq_refl eq_refl eq_refl
           eq_refl eq_refl).
Defined.

(** * The two forms of YEARWEEK *)

(** X19. YEARWEEK(date) and YEARWEEK(date, mode) agree on a non-null date
    that is not an invalid zero when the mode is 0 or NULL. They differ on a
    date with a zero month or day that is not the zero value: the
    one-argument form tests for an invalid zero and sets the row null
    through the invalid-time policy, the two-argument form tests for the
    zero value only and gives the row the encoded year and week. *)
Theorem yearweek_forms_agree :
  forall (YearWeek : MysqlTime -> Z -> Z * Z) (b b2 : baseBuiltinFunc) (input : Chunk)
         (result result2 : Column Z) (w w2 : World) (ws ws1 ws2 : list error)
         (buf : Column Time) (buf2 res res2 : Column Z) (i : nat),
    loanable w ->
    VecEvalTime (args b 0) input (warnings w) = (ws, inr buf) ->
    loanable2 w2 ->
    VecEvalTime (args b2 0) input (warnings w2) = (ws1, inr buf) ->
    VecEvalInt (args b2 1) input ws1 = (ws2, inr buf2) ->
    (i < NumRows input)%nat ->
    IsNull buf i = false ->
    IsNull buf2 i = true \/ Int64s buf2 i = 0 ->
    snd (builtinYearWeekWithoutModeSig_vecEvalInt YearWeek b input result w) = inr res ->
    snd (builtinYearWeekWithModeSig_vecEvalInt YearWeek b2 input result2 w2) = inr res2 ->
    (InvalidZero (Times buf i) = false ->
     IsNull res i = false /\ IsNull res2 i = false /\ Int64s res i = Int64s res2 i) /\
    (InvalidZero (Times buf i) = true -> IsZero (Times buf i) = false ->
     IsNull res i = true /\ IsNull res2 i = false /\
     Int64s res2 i = encodeYearWeek (YearWeek (CoreTime (Times buf i)) 0)).
Proof.
  intros YearWeek b b2 input result result2 w w2 ws ws1 ws2 buf buf2 res res2 i
         Hl He Hl2 He1 He2 Hi Hn Hmode Hres Hres2.
  destruct (int_evaluator_rows (ctx b) (NumRows input) result (nullBitmap buf)
              (yearWeekRow YearWeek (Times buf))
              (builtinYearWeekWithoutModeSig_vecEvalInt YearWeek b input result w))
    as [Hrows _]; [result_of (yearweek_run YearWeek b input result w ws buf Hl He)|].
  destruct (int_evaluator_rows (ctx b2) (NumRows input) result2 (nullBitmap buf)
              (yearWeekModeRow YearWeek (Times buf) buf2)
              (builtinYearWeekWithModeSig_vecEvalInt YearWeek b2 input result2 w2))
    as [Hrows2 _];
    [result_of (yearweek_mode_run YearWeek b2 input result2 w2 ws1 buf ws2 buf2 Hl2 He1 He2)|].
  destruct (Hrows res Hres) as [_ Hcells]. destruct (Hrows2 res2 Hres2) as [_ Hcells2].
  destruct (Hcells i Hi) as [_ [Hv Hinv]]. destruct (Hcells2 i Hi) as [_ [Hv2 _]].
  assert (Hm : (if IsNull buf2 i then 0 else Int64s buf2 i) = 0)
    by (destruct Hmode as [-> | ->]; [reflexivity|now destruct (IsNull buf2 i)]).
  assert (Hrow2 : IsZero (Times buf i) = false ->
            yearWeekModeRow YearWeek (Times buf) buf2 i =
            Value (encodeYearWeek (YearWeek (CoreTime (Times buf i)) 0)))
    by (intros Hz; unfold yearWeekModeRow; now rewrite Hz, Hm).
  split.
  - intros Hz.
    destruct (Hv _ Hn ltac:(unfold yearWeekRow; now rewrite Hz)) as [H1 H2].
    destruct (Hv2 _ Hn (Hrow2 (InvalidZero_IsZero _ Hz))) as [H3 H4].
    repeat split; auto. now rewrite H2, H4.
  - intros Hz Hnz.
    destruct (Hv2 _ Hn (Hrow2 Hnz)) as [H3 H4].
    repeat split; auto.
    apply (Hinv (wrongDate (Times buf i)) Hn). unfold yearWeekRow. now rewrite Hz.
Qed.

Lemma yearweek_forms_agree_witness :
  exists res res2,
    snd (builtinYearWeekWithoutModeSig_vecEvalInt mysqlYearWeek
           (onTime (session false false) newYear2024) oneRow emptyInts freshWorld) = inr res /\
    snd (builtinYearWeekWithModeSig_vecEvalInt mysqlYearWeek
           (onDateAndMode (session false false) newYear2024 modeNull)
           oneRow emptyInts freshWorld) = inr res2 /\
    Int64s res 0 = Int64s res2 0.
Proof.
  eexists. eexists. split; [reflexivity|]. split; [reflexivity|].
  destruct (yearweek_forms_agree mysqlYearWeek
           (onTime (session false false) newYear2024)
           (onDateAndMode (session false false) newYear2024 modeNull)
           oneRow emptyInts emptyInts freshWorld freshWorld [] [] []
           newYear2024 modeNull _ _ 0
           freshWorld_loanable eq_refl ltac:(unfold loanable2; simpl; lia)
           eq_refl eq_refl (le_n 1) eq_refl (or_introl eq_refl) eq_refl eq_refl)
    as [Hagree _].
  destruct (Hagree eq_refl) as [_ [_ Heq]]. exact Heq.
Defined.

(** * DAYOFMONTH beside MONTH and YEAR *)

Lemma dayofmonth_run b input result w ws buf :
  loanable w ->
  VecEvalTime (args b 0) input (warnings w) = (ws, inr buf) ->
  builtinDayOfMonthSig_vecEvalInt b input result w =
  let start := prepared (NumRows input) result (nullBitmap buf) in
  let (ws', r) := colEval (ctx b) (guarded start (zeroDateRow (ctx b) Day (Times buf)))
                    (NumRows input) start in
  (afterRows w ws ws', r).
Proof.
  intros Hl He. unfold builtinDayOfMonthSig_vecEvalInt. run_one_loan Hl He.
  rewrite (guarded_rows 0 (ctx b) (zeroDateRow (ctx b) Day (Times buf))).
  - unfold prepared, afterRows. destruct (colEval _ _ _ _); reflexivity.
  - unfold zeroDateRow, wrongDate. split_body.
Qed.

(** X20. DAYOFMONTH treats the zero value as MONTH and YEAR do: 0 without
    warning when NoZeroDate is off, the invalid-time policy when it is on.
    On a non-null date that is not the zero value, YEAR, MONTH and
    DAYOFMONTH return the year, the month and the day of the date, also
    when the month or the day is 0. *)
Theorem dayofmonth_follows_month_and_year :
  forall (b : baseBuiltinFunc) (input : Chunk) (result : Column Z) (w : World)
         (ws : list error) (buf : Column Time) (i : nat),
    loanable w ->
    VecEvalTime (args b 0) input (warnings w) = (ws, inr buf) ->
    (i < NumRows input)%nat ->
    IsNull buf i = false ->
    let t := Times buf i in
    (IsZero t = true ->
     zeroDatePolicy (ctx b) ws (Times buf) i (builtinDayOfMonthSig_vecEvalInt b input result w)) /\
    (IsZero t = false ->
     forall resY resM resD,
       snd (builtinYearSig_vecEvalInt b input result w) = inr resY ->
       snd (builtinMonthSig_vecEvalInt b input result w) = inr resM ->
       snd (builtinDayOfMonthSig_vecEvalInt b input result w) = inr resD ->
       IsNull resY i = false /\ IsNull resM i = false /\ IsNull resD i = false /\
       FromDate (Int64s resY i) (Int64s resM i) (Int64s resD i) 0 0 0 0 =
       CoreTime (dateOnly t)).
Proof.
  intros b input result w ws buf i Hl He Hi Hn t. split.
  - intros Hz. rewrite (dayofmonth_run b input result w ws buf Hl He).
    now apply zeroDate_rows.
  - intros Hz resY resM resD HY HM HD.
    destruct (int_evaluator_rows (ctx b) (NumRows input) result (nullBitmap buf)
                (zeroDateRow (ctx b) Year (Times buf))
                (builtinYearSig_vecEvalInt b input result w))
      as [HrY _]; [result_of (year_run b input result w ws buf Hl He)|].
    destruct (int_evaluator_rows (ctx b) (NumRows input) result (nullBitmap buf)
                (zeroDateRow (ctx b) Month (Times buf))
                (builtinMonthSig_vecEvalInt b input result w))
      as [HrM _]; [result_of (month_run b input result w ws buf Hl He)|].
    destruct (int_evaluator_rows (ctx b) (NumRows input) result (nullBitmap buf)
                (zeroDateRow (ctx b) Day (Times buf))
                (builtinDayOfMonthSig_vecEvalInt b input result w))
      as [HrD _]; [result_of (dayofmonth_run b input result w ws buf Hl He)|].
    destruct (HrY resY HY) as [_ HcY]. destruct (HrM resM HM) as [_ HcM].
    destruct (HrD resD HD) as [_ HcD].
    destruct (HcY i Hi) as [_ [HvY _]]. destruct (HcM i Hi) as [_ [HvM _]].
    destruct (HcD i Hi) as [_ [HvD _]].
    destruct (HvY _ Hn ltac:(unfold zeroDateRow; fold t; now rewrite Hz)) as [H1 H2].
    destruct (HvM _ Hn ltac:(unfold zeroDateRow; fold t; now rewrite Hz)) as [H3 H4].
    destruct (HvD _ Hn ltac:(unfold zeroDateRow; fold t; now rewrite Hz)) as [H5 H6].
    rewrite H2, H4, H6. repeat split; auto.
Qed.

Lemma dayofmonth_follows_month_and_year_witness :
  exists res,
    snd (builtinDayOfMonthSig_vecEvalInt (onTime (session false true) zeroDateBatch)
           oneRow emptyInts freshWorld) = inr res /\
    IsNull res 0 = false /\ Int64s res 0 = 0.
Proof.
  destruct (dayofmonth_follows_month_and_year (onTime (session false true) zeroDateBatch)
              oneRow emptyInts freshWorld [] zeroDateBatch 0
              freshWorld_loanable eq_refl (le_n 1) eq_refl) as [Hzero _].
  destruct (Hzero eq_refl) as [Hoff _].
  destruct (Hoff eq_refl) as [res [E [Hnull [Hv _]]]].
  exists res. auto.
Defined.

(** * TIMESTAMPADD on rows with a NULL *)

(** X21. A row of TIMESTAMPADD with a NULL in any of its three arguments is
    NULL and is not looked at further: its unit is not checked and its date
    is not converted. The result of a call that returns has one row per
    input row, and a batch in which every row has a NULL returns, with every
    row null, whatever the units are and in strict sessions too. *)
Theorem timestampadd_skips_rows_with_null :
  forall (GoTimeT : Type) (GoTime : MysqlTime -> error + GoTimeT)
         (Add : GoTimeT -> Z -> GoTimeT) (AddDate : GoTimeT -> Z -> Z -> Z -> GoTimeT)
         (FromGoTime : GoTimeT -> MysqlTime) (resolveType : TimeType -> string -> TimeType)
         (Check : Time -> option error) (TimeString : Time -> string)
         (b : baseBuiltinFunc) (input : Chunk) (result : Column string) (w : World)
         (ws0 ws1 ws2 : list error) (buf : Column string) (buf1 : Column Z)
         (buf2 : Column Time),
    loanable3 w ->
    VecEvalString (args b 0) input (warnings w) = (ws0, inr buf) ->
    VecEvalInt (args b 1) input ws0 = (ws1, inr buf1) ->
    VecEvalTime (args b 2) input ws1 = (ws2, inr buf2) ->
    let hasNull i := IsNull buf i || IsNull buf1 i || IsNull buf2 i in
    let run := builtinTimestampAddSig_vecEvalString GoTimeT GoTime Add AddDate FromGoTime
                 resolveType Check TimeString b input result w in
    (forall res, snd run = inr res ->
       rows res = NumRows input /\
       forall i, (i < NumRows input)%nat -> hasNull i = true -> IsNull res i = true) /\
    ((forall i, (i < NumRows input)%nat -> hasNull i = true) ->
     exists res, snd run = inr res /\ rows res = NumRows input /\
       forall i, (i < NumRows input)%nat -> IsNull res i = true).
Proof.
  intros GoTimeT GoTime Add AddDate FromGoTime resolveType Check TimeString
         b input result w ws0 ws1 ws2 buf buf1 buf2 Hl He0 He1 He2 hasNull run.
  assert (Hrun := timestampadd_run GoTimeT GoTime Add AddDate FromGoTime resolveType
                    Check TimeString b input result w ws0 buf ws1 buf1 ws2 buf2
                    Hl He0 He1 He2).
  fold run in Hrun.
  set (g := timestampAddRow GoTimeT GoTime Add AddDate FromGoTime resolveType Check
              TimeString buf buf1 buf2) in *.
  assert (Hnull : forall i, hasNull i = true -> g i = Nullify).
  { intros i H. unfold g, timestampAddRow. fold (hasNull i). now rewrite H. }
  assert (Hcells : forall ws' res,
            evalRows appendValue appendNull (StrictSQLMode (ctx b)) g 0 (NumRows input)
              (mkColumn [] []) = (ws', inr res) ->
            rows res = NumRows input /\
            forall i, (i < NumRows input)%nat -> hasNull i = true -> IsNull res i = true).
  { intros ws' res E. apply evalRows_ok in E. destruct E as [-> [_ Hnone]].
    assert (Hg : forall j, (0 <= j < 0 + NumRows input)%nat ->
                   g j <> Keep /\ forall e, g j <> Abort e).
    { intros j Hj. apply (timestampAddRow_appends GoTimeT GoTime Add AddDate FromGoTime
                            resolveType Check TimeString buf buf1 buf2
                            (StrictSQLMode (ctx b)) j). now apply Hnone. }
    split.
    - destruct (appended_rows g 0 (NumRows input) (mkColumn [] []) Hg) as [Hr _]. exact Hr.
    - intros i Hi Hn.
      destruct (appended_cell g 0 (NumRows input) (mkColumn [] []) i Hg eq_refl eq_refl
                  ltac:(lia)) as [H1 _].
      rewrite H1, (Hnull i Hn). reflexivity. }
  split.
  - intros res Hres. rewrite Hrun in Hres.
    apply (Hcells (fst (evalRows appendValue appendNull (StrictSQLMode (ctx b)) g 0
                          (NumRows input) (mkColumn [] []))) res).
    rewrite <- Hres. apply surjective_pairing.
  - intros Hall.
    assert (E : evalRows appendValue appendNull (StrictSQLMode (ctx b)) g 0 (NumRows input)
                  (mkColumn [] []) =
                (rowWarnings g 0 (NumRows input),
                 inr (applyRows appendValue appendNull g 0 (NumRows input) (mkColumn [] [])))).
    { apply evalRows_total. intros i Hi. rewrite (Hnull i (Hall i ltac:(lia))). reflexivity. }
    rewrite Hrun, E. eexists. split; [reflexivity|].
    destruct (Hcells _ _ E) as [Hr Hc]. split; [exact Hr|].
    intros i Hi. apply Hc; auto.
Qed.

(** TIMESTAMPADD('FORTNIGHT', NULL, '2024-01-01'). *)
Definition fortnight : Column string := mkColumn [false] ["FORTNIGHT"%string].

Definition onUnitIntervalDate (c : SessionVars) (u : Column string) (v : Column Z)
    (d : Column Time) : baseBuiltinFunc :=
  {| ctx := c;
     args := fun k => match k with
                      | O => stringArg u
                      | Datatypes.S O => intArg v
                      | _ => timeArg d
                      end |}.

Lemma timestampadd_skips_rows_with_null_witness :
  exists res,
    snd (clockTimestampAdd (onUnitIntervalDate (session false true) fortnight modeNull newYear2024)
           oneRow (mkColumn [] []) freshWorld) = inr res /\
    IsNull res 0 = true.
Proof.
  destruct (timestampadd_skips_rows_with_null Z (fun t => inr (clockOf t)) clockAdd
              clockAddDate clockTime clockResolveType (fun _ => None) clockString
              (onUnitIntervalDate (session false true) fortnight modeNull newYear2024)
              oneRow (mkColumn [] []) freshWorld [] [] [] fortnight modeNull newYear2024
              freshWorld_loanable3 eq_refl eq_refl eq_refl) as [_ Hall].
  destruct Hall as [res [E [_ Hnull]]].
  - intros [|i] Hi; [reflexivity|simpl in Hi; lia].
  - exists res. split; [exact E|]. apply Hnull. simpl. lia.
Defined.

(** * SEC_TO_TIME over a batch *)

(** X22. SEC_TO_TIME parses the text of every non-null row and of no other:
    a call that returns has one row per input row, null exactly where the
    argument is null, each other row holding the duration the parser read;
    a call that fails returns the error of the parser on the first non-null
    row it rejects; and the call returns whenever the parser accepts the
    text of every non-null row. The parser is the one of the call's
    statement context, a function of the text and the precision. *)
Theorem sec_to_time_parses_each_live_row :
  forall (ParseDuration : DurationText -> Z -> error + Z) (b : baseBuiltinFunc)
         (tpDecimal : Z) (input : Chunk) (result : Column Z) (w : World)
         (ws : list error) (buf : Column float),
    loanable w ->
    VecEvalReal (args b 0) input (warnings w) = (ws, inr buf) ->
    let parse i := ParseDuration (secToTimeText (Float64s buf i)) tpDecimal in
    let run := builtinSecToTimeSig_vecEvalDuration ParseDuration b tpDecimal input result w in
    (forall res, snd run = inr res ->
       rows res = NumRows input /\
       forall i, (i < NumRows input)%nat ->
         IsNull res i = IsNull buf i /\
         (IsNull buf i = false -> parse i = inr (Int64s res i))) /\
    (forall e, snd run = inl e ->
       exists j, (j < NumRows input)%nat /\ IsNull buf j = false /\ parse j = inl e /\
         forall k, (k < j)%nat -> IsNull buf k = false -> exists d, parse k = inr d) /\
    ((forall i, (i < NumRows input)%nat -> IsNull buf i = false ->
        exists d, parse i = inr d) ->
     exists res, snd run = inr res).
Proof.
  intros ParseDuration b tpDecimal input result w ws buf Hl He parse run.
  assert (Hrun := sectotime_run ParseDuration b tpDecimal input result w ws buf Hl He).
  cbv zeta in Hrun. fold run in Hrun.
  set (n := NumRows input) in *.
  set (start := prepared n result (nullBitmap buf)) in *.
  set (f := secToTimeRow ParseDuration tpDecimal (Float64s buf)) in *.
  assert (Hparse : forall i, f i = match parse i with
                                   | inl err => Abort err
                                   | inr d => Value d
                                   end) by reflexivity.
  assert (Hstart : forall i, (i < n)%nat -> IsNull start i = IsNull buf i)
    by (intros i Hi; unfold start; now rewrite prepared_IsNull).
  assert (Hfails : forall e, snd run = inl e ->
            exists j, (j < n)%nat /\ IsNull buf j = false /\ parse j = inl e /\
              forall k, (k < j)%nat -> IsNull buf k = false -> exists d, parse k = inr d).
  { intros e Hres. rewrite Hrun in Hres.
    destruct (colEval _ _ _ _) as [ws' r] eqn:E. simpl in Hres. rewrite Hres in E.
    unfold colEval in E. apply evalRows_err in E.
    destruct E as [j [Hj [Hstop Hbefore]]].
    exists j. split; [lia|].
    apply guarded_stops in Hstop. destruct Hstop as [Hlive Hstop].
    rewrite (Hstart j ltac:(lia)) in Hlive. split; [exact Hlive|].
    rewrite Hparse in Hstop. split.
    + destruct (parse j) as [err|d]; simpl in Hstop; [now inversion Hstop|discriminate].
    + intros k Hk Hlk. specialize (Hbefore k ltac:(lia)).
      unfold guarded in Hbefore. rewrite (Hstart k ltac:(lia)), Hlk, Hparse in Hbefore.
      destruct (parse k) as [err|d]; [discriminate|eauto]. }
  split; [|split].
  - intros res Hres. rewrite Hrun in Hres.
    destruct (colEval _ _ _ _) as [ws' r] eqn:E. simpl in Hres. rewrite Hres in E.
    destruct (colEval_ok _ _ _ _ _ _ E) as [-> [_ Hnone]].
    split; [unfold colFinal; rewrite applyRows_rows; apply prepared_rows|].
    intros i Hi. specialize (Hnone i Hi). unfold guarded in Hnone.
    unfold Int64s.
    rewrite colFinal_null, (colFinal_elem 0)
      by (unfold start; auto using prepared_rows, prepared_elems).
    unfold guarded. rewrite (Hstart i Hi) in *.
    destruct (IsNull buf i); [split; [reflexivity|discriminate]|].
    rewrite Hparse in *. destruct (parse i) as [err|d]; [discriminate|].
    split; reflexivity.
  - exact Hfails.
  - intros Hall. destruct (snd run) as [e|res] eqn:E; [|eauto].
    destruct (Hfails e eq_refl) as [j [Hj [Hlive [Hrej _]]]].
    destruct (Hall j Hj Hlive) as [d Hd]. congruence.
Qed.

(** One hour and a null row. *)
Definition secondsBatch : Column float := mkColumn [false; true] [3600%float; 0%float].

Lemma sec_to_time_parses_each_live_row_witness :
  exists res,
    snd (builtinSecToTimeSig_vecEvalDuration textNanos (onReal (session false true) secondsBatch)
           0 twoRows emptyDurations freshWorld) = inr res /\
    Int64s res 0 = 3600 * 1000000000 /\ IsNull res 1 = true.
Proof.
  destruct (sec_to_time_parses_each_live_row textNanos
              (onReal (session false true) secondsBatch) 0 twoRows emptyDurations
              freshWorld [] secondsBatch freshWorld_loanable eq_refl)
    as [Hres _].
  assert (E : snd (builtinSecToTimeSig_vecEvalDuration textNanos
                       (onReal (session false true) secondsBatch)
                       0 twoRows emptyDurations freshWorld) =
              inr (mkColumn [false; true] [3600 * 1000000000; 0]))
    by (vm_compute; reflexivity).
  eexists. split; [exact E|].
  destruct (Hres _ E) as [_ Hcells].
  destruct (Hcells 1%nat (le_n 2)) as [H1 _].
  split; [reflexivity|exact H1].
Defined.
